(** * image-service: provider orchestration, verified against its sources

    A shallow embedding of
      - [app/core/config.py]                       (module [Config]),
      - [app/services/model_providers/aliyun.py]   (module [Aliyun]),
      - [app/services/model_providers/liblibai.py] (module [Liblibai]),
      - [app/api/download.py]     (modules [Download], [DownloadResponse]),
    over a small model of the Python object store (module [Py]).

    Python dictionaries and lists are objects in a store and values refer to
    them by address, so that [parameters.copy()] is a shallow copy and a
    nested dictionary stays shared with the caller.  Effects (store, network
    log, clock and random sources) are threaded through a state and
    exception monad. *)

From stdpp Require Import base option list strings pretty.
From Stdlib Require Import ZArith Lia Ascii.

Local Open Scope string_scope.
Local Open Scope list_scope.
Local Open Scope Z_scope.

(* ================================================================== *)
(** * Python values, objects and the store *)
(* ================================================================== *)

Module Py.

Definition addr := nat.

(** A Python [float]: [FFinite m e] is [m * 2^e]. *)
Inductive pyfloat :=
| FFinite (m e : Z)
| FInf (negative : bool)
| FNan.

(** The values a JSON document can hold.  Dictionaries and lists are
    mutable objects, reached through [VRef]. *)
Inductive pyval :=
| VNone
| VBool (b : bool)
| VInt (z : Z)
| VFloat (f : pyfloat)
| VStr (s : string)
| VRef (a : addr).

(** A [dict] with [str] keys, in insertion order. *)
Definition dict := list (string * pyval).

Inductive obj :=
| ODict (d : dict)
| OList (l : list pyval).

Fixpoint dict_get (k : string) (d : dict) : option pyval :=
  match d with
  | [] => None
  | (k', v) :: r => if String.eqb k k' then Some v else dict_get k r
  end.

(** [d[k] = v]: an existing key keeps its position, a new one goes last. *)
Fixpoint dict_set (k : string) (v : pyval) (d : dict) : dict :=
  match d with
  | [] => [(k, v)]
  | (k', v') :: r =>
      if String.eqb k k' then (k, v) :: r else (k', v') :: dict_set k v r
  end.

Definition dict_has (k : string) (d : dict) : bool :=
  match dict_get k d with Some _ => true | None => false end.

(** An HTTP response as the providers read it: the status code, the body
    parsed as JSON when it is JSON, and the body text. *)
Record response := Response {
  status_code : Z;
  json_body : option pyval;
  text : string
}.

(** ** Exceptions *)

(** Exceptions raised by the interpreter and the libraries, whose message
    text is not written in the sources. *)
Inductive builtin_exn :=
| TypeError
| AttributeError
| KeyError (k : string)
| IndexError
| OverflowError
| IntValueError          (* [ValueError] of [int()]: bad literal, NaN *)
| JSONDecodeError        (* a [ValueError] as well *)
| OSError                (* the operating system refused a file operation *)
| RequestError           (* [httpx]: the request did not complete *)
| HTTPStatusError (r : response).   (* [httpx]: [raise_for_status()] *)

(** An f-string is kept as its fragments.  Equal fragments give equal
    text; two messages with different fragments can still read the same,
    so nothing is concluded from messages being different. *)
Inductive frag :=
| Lit (s : string)
| Val (v : pyval)
| Msg (b : builtin_exn).   (* [str(e)] of a built-in exception *)

Inductive exn :=
| ValueError (msg : list frag)
| Builtin (b : builtin_exn).

(** [str(e)] *)
Definition exn_str (e : exn) : list frag :=
  match e with
  | ValueError msg => msg
  | Builtin b => [Msg b]
  end.

Inductive result (A : Type) :=
| Ok (a : A)
| Raise (e : exn).
Arguments Ok {A} a.
Arguments Raise {A} e.

(** ** The world: store, network log, and the count of draws from the clock
    and the random source *)

(** A field of a JSON request body: a value, or a dictionary literal. *)
Inductive body :=
| BVal (v : pyval)
| BDict (d : dict).

Inductive event :=
| EvSleep (secs : Z)
| EvPost (url : list frag) (json : list (string * body))
| EvGet (url : list frag)
| EvDownload (url : pyval) (save_path : string).

(** What the vendor answers: to the request that creates the task, to the
    [i]-th status query, and whether fetching the image listed at index [i]
    succeeds.  [None] is a request that did not complete. *)
Record Vendor := {
  create_reply : option response;
  status_reply : nat → option response;
  download_ok : nat → pyval → bool
}.

(** The clock and the random source, by the number of earlier draws:
    [int(time.time() * 1000)], [uuid.uuid4().hex] and
    [datetime.now().strftime(fmt)]; and whether the file system lets the
    directory [path] be made, [os.makedirs(path, exist_ok=True)]. *)
Record Env := {
  time_ms : nat → Z;
  uuid4_hex : nat → string;
  strftime : nat → string → string;
  makedirs_ok : string → bool
}.

Record world := World {
  heap : list obj;
  log : list event;
  tick : nat
}.

Definition set_heap (h : list obj) (w : world) : world :=
  World h (log w) (tick w).
Definition add_event (ev : event) (w : world) : world :=
  World (heap w) (log w ++ [ev]) (tick w).
Definition next_tick (w : world) : world :=
  World (heap w) (log w) (S (tick w)).

Definition M (A : Type) : Type := world → world * result A.

Definition ret {A} (a : A) : M A := λ w, (w, Ok a).
Definition bind {A B} (m : M A) (f : A → M B) : M B := λ w,
  match m w with
  | (w', Ok a) => f a w'
  | (w', Raise e) => (w', Raise e)
  end.

Declare Scope py_scope.
Delimit Scope py_scope with py.
Bind Scope py_scope with M.
Notation "x ← y ; z" := (bind y (λ x : _, z))
  (at level 20, y at level 100, z at level 200, only parsing) : py_scope.
Notation "' x ← y ; z" := (bind y (λ x : _, z))
  (at level 20, x pattern, y at level 100, z at level 200, only parsing)
  : py_scope.
Notation "x ;; z" := (bind x (λ _, z))
  (at level 100, z at level 200, only parsing, right associativity) : py_scope.
Local Open Scope py_scope.

Definition raise {A} (e : exn) : M A := λ w, (w, Raise e).
Definition lift {A} (r : result A) : M A := λ w, (w, r).
Definition get_heap : M (list obj) := λ w, (w, Ok (heap w)).
Definition emit (ev : event) : M unit := λ w, (add_event ev w, Ok tt).
Definition draw : M nat := λ w, (next_tick w, Ok (tick w)).

(** [try: m except Exception as e: h e] *)
Definition try_except {A} (m : M A) (h : exn → M A) : M A := λ w,
  match m w with
  | (w', Ok a) => (w', Ok a)
  | (w', Raise e) => h e w'
  end.

(** A new object; its address is the next free one. *)
Definition alloc (o : obj) : M pyval := λ w,
  (set_heap (heap w ++ [o]) w, Ok (VRef (length (heap w)))).

(** ** Strings

    A [str] is held as the bytes of its UTF-8 encoding; the operations that
    depend on characters read the code points back from the bytes. *)

Definition code (c : ascii) : N := N_of_ascii c.

(** A continuation byte, and the six bits it carries. *)
Definition is_cont (c : ascii) : bool :=
  ((128 <=? code c) && (code c <? 192))%N.
Definition cont (c : ascii) : N := (code c - 128)%N.

(** A byte that begins no well-formed sequence (a [str] has none) stands
    alone, under a number that is no code point. *)
Definition stray (b : ascii) : N * string :=
  ((0x110000 + code b)%N, String b EmptyString).

(** The characters of [s], in order: the code point of each, and the bytes
    that encode it. *)
Fixpoint chars (s : string) : list (N * string) :=
  match s with
  | EmptyString => []
  | String b0 r0 =>
      let n0 := code b0 in
      if (n0 <? 128)%N then (n0, String b0 EmptyString) :: chars r0
      else
        match r0 with
        | String b1 r1 =>
            if is_cont b1 then
              if ((194 <=? n0) && (n0 <? 224))%N then
                (((n0 - 192) * 64 + cont b1)%N,
                 String b0 (String b1 EmptyString)) :: chars r1
              else
                match r1 with
                | String b2 r2 =>
                    if is_cont b2 then
                      let cp3 := (((n0 - 224) * 64 + cont b1) * 64 + cont b2)%N in
                      if ((224 <=? n0) && (n0 <? 240) && (0x800 <=? cp3))%N then
                        (cp3, String b0 (String b1 (String b2 EmptyString)))
                        :: chars r2
                      else
                        match r2 with
                        | String b3 r3 =>
                            let cp4 :=
                              ((((n0 - 240) * 64 + cont b1) * 64 + cont b2) * 64
                               + cont b3)%N in
                            if (is_cont b3 && (240 <=? n0) && (n0 <? 245)
                                && (0x10000 <=? cp4) && (cp4 <? 0x110000))%N then
                              (cp4, String b0 (String b1 (String b2
                                      (String b3 EmptyString)))) :: chars r3
                            else stray b0 :: chars r0
                        | EmptyString => stray b0 :: chars r0
                        end
                    else stray b0 :: chars r0
                | EmptyString => stray b0 :: chars r0
                end
            else stray b0 :: chars r0
        | EmptyString => stray b0 :: chars r0
        end
  end.

(** The bytes of a list of characters. *)
Definition str_of (l : list (N * string)) : string :=
  String.concat "" (map snd l).

(** The UTF-8 encoding of a code point. *)
Definition utf8 (cp : N) : string :=
  let b (n : N) := ascii_of_N n in
  let low (n : N) := b (128 + n mod 64)%N in
  if (cp <? 0x80)%N then String (b cp) EmptyString
  else if (cp <? 0x800)%N then
    String (b (192 + cp / 64)%N) (String (low cp) EmptyString)
  else if (cp <? 0x10000)%N then
    String (b (224 + cp / 4096)%N)
      (String (low (cp / 64)%N) (String (low cp) EmptyString))
  else
    String (b (240 + cp / 262144)%N)
      (String (low (cp / 4096)%N)
         (String (low (cp / 64)%N) (String (low cp) EmptyString))).

(** [c.isspace()]: the white space of [str.strip()]. *)
Definition is_space (cp : N) : bool :=
  (((9 <=? cp) && (cp <=? 13)) || ((28 <=? cp) && (cp <=? 32))
   || (cp =? 0x85) || (cp =? 0xA0) || (cp =? 0x1680)
   || ((0x2000 <=? cp) && (cp <=? 0x200A))
   || (cp =? 0x2028) || (cp =? 0x2029) || (cp =? 0x202F) || (cp =? 0x205F)
   || (cp =? 0x3000))%N.

Fixpoint lstrip (l : list (N * string)) : list (N * string) :=
  match l with
  | c :: r => if is_space c.1 then lstrip r else l
  | [] => []
  end.

Definition rstrip (l : list (N * string)) : list (N * string) :=
  rev (lstrip (rev l)).

(** [s.strip()] *)
Definition strip (s : string) : string :=
  str_of (rstrip (lstrip (chars s))).

Fixpoint is_substring (k s : string) : bool :=
  String.prefix k s ||
  match s with
  | String _ r => is_substring k r
  | EmptyString => false
  end.

(** [s.lower()]; the letters outside ASCII never fold to an ASCII letter
    other than [k] and [i], which the sources do not compare with. *)
Definition lower_ascii (c : ascii) : ascii :=
  let n := nat_of_ascii c in
  if ((65 <=? n)%nat && (n <=? 90)%nat) then ascii_of_nat (n + 32) else c.

Fixpoint lower (s : string) : string :=
  match s with
  | String c r => String (lower_ascii c) (lower r)
  | EmptyString => EmptyString
  end.

(** [s.split(sep)] for a one-character separator *)
Fixpoint split_on (sep : ascii) (s : string) : list string :=
  match s with
  | EmptyString => [EmptyString]
  | String c r =>
      if Ascii.eqb c sep then EmptyString :: split_on sep r
      else match split_on sep r with
           | p :: ps => String c p :: ps
           | [] => [String c EmptyString]
           end
  end.

(** [sep.join(l)] *)
Fixpoint join (sep : string) (l : list string) : string :=
  match l with
  | [] => ""
  | [s] => s
  | s :: r => s +:+ sep +:+ join sep r
  end.

(** ** [int()] *)

(** The decimal digits of Unicode 14.0, the tables of CPython 3.11: the
    code point of each digit zero; the digits one to nine follow it. *)
Definition decimal_zeros : list N :=
  [0x30; 0x660; 0x6F0; 0x7C0; 0x966; 0x9E6; 0xA66; 0xAE6; 0xB66; 0xBE6;
   0xC66; 0xCE6; 0xD66; 0xDE6; 0xE50; 0xED0; 0xF20; 0x1040; 0x1090; 0x17E0;
   0x1810; 0x1946; 0x19D0; 0x1A80; 0x1A90; 0x1B50; 0x1BB0; 0x1C40; 0x1C50;
   0xA620; 0xA8D0; 0xA900; 0xA9D0; 0xA9F0; 0xAA50; 0xABF0; 0xFF10; 0x104A0;
   0x10D30; 0x11066; 0x110F0; 0x11136; 0x111D0; 0x112F0; 0x11450; 0x114D0;
   0x11650; 0x116C0; 0x11730; 0x118E0; 0x11950; 0x11C50; 0x11D50; 0x11DA0;
   0x16A60; 0x16AC0; 0x16B50; 0x1D7CE; 0x1D7D8; 0x1D7E2; 0x1D7EC; 0x1D7F6;
   0x1E140; 0x1E2F0; 0x1E950; 0x1FBF0]%N.

(** The value of a decimal digit of any script. *)
Definition decimal_of (cp : N) : option N :=
  (λ z, cp - z)%N <$>
  List.find (λ z, ((z <=? cp) && (cp <? z + 10))%N) decimal_zeros.

(** What [int()] makes of one character before it parses: a character
    below 128 is kept, white space becomes a blank, a decimal digit of
    another script its ASCII digit, and anything else a character no number
    holds. *)
Definition to_ascii (c : N * string) : string :=
  if (c.1 <? 128)%N then c.2
  else if is_space c.1 then " "
  else match decimal_of c.1 with
       | Some d => String (ascii_of_N (48 + d)) EmptyString
       | None => "?"
       end.

(** The white space of the parser: the six characters of C's [isspace]. *)
Definition is_c_space (c : ascii) : bool :=
  let n := nat_of_ascii c in
  ((9 <=? n)%nat && (n <=? 13)%nat) || (n =? 32)%nat.

Fixpoint skip_spaces (s : string) : string :=
  match s with
  | String c r => if is_c_space c then skip_spaces r else s
  | EmptyString => EmptyString
  end.

Fixpoint drop_trailing_spaces (s : string) : string :=
  match s with
  | String c r =>
      match drop_trailing_spaces r with
      | EmptyString => if is_c_space c then EmptyString else String c EmptyString
      | r' => String c r'
      end
  | EmptyString => EmptyString
  end.

Definition digit_of (c : ascii) : option Z :=
  let n := nat_of_ascii c in
  if ((48 <=? n)%nat && (n <=? 57)%nat) then Some (Z.of_nat n - 48) else None.

(** Decimal digits, single underscores allowed between two digits.
    [prev] tells whether the previous character was a digit. *)
Fixpoint int_digits (acc : Z) (prev : bool) (s : string) : option Z :=
  match s with
  | EmptyString => if prev then Some acc else None
  | String c r =>
      match digit_of c with
      | Some d => int_digits (10 * acc + d) true r
      | None =>
          if Ascii.eqb c "_"%char && prev then
            match r with
            | String c' _ =>
                match digit_of c' with
                | Some _ => int_digits acc false r
                | None => None
                end
            | EmptyString => None
            end
          else None
      end
  end.

(** The digits of a numeral, leading zeros included, underscores not. *)
Fixpoint count_digits (s : string) : nat :=
  match s with
  | String c r =>
      match digit_of c with
      | Some _ => S (count_digits r)
      | None => count_digits r
      end
  | EmptyString => O
  end.

(** [sys.get_int_max_str_digits()], at its default. *)
Definition int_max_str_digits : nat := 4300.

(** The parser of [int()], base ten: blanks, a sign, the digits, blanks.
    A numeral of more than [int_max_str_digits] digits is refused. *)
Definition long_of_ascii (t : string) : option Z :=
  let t := drop_trailing_spaces (skip_spaces t) in
  let '(negative, digits) :=
    match t with
    | String "+" r => (false, r)
    | String "-" r => (true, r)
    | _ => (false, t)
    end in
  if (int_max_str_digits <? count_digits digits)%nat then None
  else (λ z, if negative : bool then - z else z) <$> int_digits 0 false digits.

(** [int(s)] for a [str], base ten; [None] is its [ValueError]. *)
Definition int_of_string (s : string) : option Z :=
  long_of_ascii (String.concat "" (map to_ascii (chars s))).

Definition int_of_float (f : pyfloat) : result Z :=
  match f with
  | FFinite m e =>
      Ok (if 0 <=? e then m * 2 ^ e else Z.quot m (2 ^ (- e)))
  | FInf _ => Raise (Builtin OverflowError)
  | FNan => Raise (Builtin IntValueError)
  end.

(** [int(v)] *)
Definition py_int (v : pyval) : result Z :=
  match v with
  | VNone => Raise (Builtin TypeError)
  | VBool b => Ok (if b then 1 else 0)
  | VInt z => Ok z
  | VFloat f => int_of_float f
  | VStr s =>
      match int_of_string s with
      | Some z => Ok z
      | None => Raise (Builtin IntValueError)
      end
  | VRef _ => Raise (Builtin TypeError)
  end.

(** ** Comparison with an [int] or a [str] literal *)

Definition float_eq_int (f : pyfloat) (n : Z) : bool :=
  match f with
  | FFinite m e =>
      if 0 <=? e then m * 2 ^ e =? n else m =? n * 2 ^ (- e)
  | _ => false
  end.

(** [v == n] *)
Definition eq_int (v : pyval) (n : Z) : bool :=
  match v with
  | VInt z => z =? n
  | VBool b => (if b then 1 else 0) =? n
  | VFloat f => float_eq_int f n
  | _ => false
  end.

(** [v == s] *)
Definition eq_str (v : pyval) (s : string) : bool :=
  match v with
  | VStr t => String.eqb t s
  | _ => false
  end.

(** [v in [s1, ..., sn]] for a list literal of strings *)
Definition in_strs (v : pyval) (l : list string) : bool :=
  existsb (eq_str v) l.

(** ** Operations that read or write the store *)

(** [bool(v)] *)
Definition truthy (h : list obj) (v : pyval) : bool :=
  match v with
  | VNone => false
  | VBool b => b
  | VInt z => negb (z =? 0)
  | VFloat f => negb (float_eq_int f 0)
  | VStr s => negb (String.eqb s "")
  | VRef a =>
      match h !! a with
      | Some (ODict d) => match d with [] => false | _ => true end
      | Some (OList l) => match l with [] => false | _ => true end
      | None => true
      end
  end.

Definition py_truthy (v : pyval) : M bool := λ w, (w, Ok (truthy (heap w) v)).

(** [k in c] for a [str] literal [k].  A reference outside the store does
    not occur in a store built by the program; it is answered [TypeError]. *)
Definition py_contains (k : string) (c : pyval) : M bool := λ w,
  match c with
  | VRef a =>
      match heap w !! a with
      | Some (ODict d) => (w, Ok (dict_has k d))
      | Some (OList l) => (w, Ok (existsb (λ x, eq_str x k) l))
      | None => (w, Raise (Builtin TypeError))
      end
  | VStr s => (w, Ok (is_substring k s))
  | _ => (w, Raise (Builtin TypeError))
  end.

(** [c[k]] for a [str] key *)
Definition py_getitem (c : pyval) (k : string) : M pyval := λ w,
  match c with
  | VRef a =>
      match heap w !! a with
      | Some (ODict d) =>
          match dict_get k d with
          | Some v => (w, Ok v)
          | None => (w, Raise (Builtin (KeyError k)))
          end
      | _ => (w, Raise (Builtin TypeError))
      end
  | _ => (w, Raise (Builtin TypeError))
  end.

(** [c[k] = v] for a [str] key *)
Definition py_setitem (c : pyval) (k : string) (v : pyval) : M unit := λ w,
  match c with
  | VRef a =>
      match heap w !! a with
      | Some (ODict d) =>
          (set_heap (<[a := ODict (dict_set k v d)]> (heap w)) w, Ok tt)
      | _ => (w, Raise (Builtin TypeError))
      end
  | _ => (w, Raise (Builtin TypeError))
  end.

(** [c.get(k, default)]: only a [dict] has the method *)
Definition py_get (c : pyval) (k : string) (default : pyval) : M pyval := λ w,
  match c with
  | VRef a =>
      match heap w !! a with
      | Some (ODict d) =>
          (w, Ok (match dict_get k d with Some v => v | None => default end))
      | _ => (w, Raise (Builtin AttributeError))
      end
  | _ => (w, Raise (Builtin AttributeError))
  end.

(** [c.copy()]: a new object with the same top-level entries *)
Definition py_copy (c : pyval) : M pyval := λ w,
  match c with
  | VRef a =>
      match heap w !! a with
      | Some o => alloc o w
      | None => (w, Raise (Builtin AttributeError))
      end
  | _ => (w, Raise (Builtin AttributeError))
  end.

(** [for x in c]: the items a loop over [c] visits *)
Definition py_iter (c : pyval) : M (list pyval) := λ w,
  match c with
  | VRef a =>
      match heap w !! a with
      | Some (ODict d) => (w, Ok (map (λ kv, VStr (fst kv)) d))
      | Some (OList l) => (w, Ok l)
      | None => (w, Raise (Builtin TypeError))
      end
  | VStr s =>
      (w, Ok (map (λ c, VStr (String c EmptyString)) (String.list_ascii_of_string s)))
  | _ => (w, Raise (Builtin TypeError))
  end.

(** [c.items()] *)
Definition py_items (c : pyval) : M (list (string * pyval)) := λ w,
  match c with
  | VRef a =>
      match heap w !! a with
      | Some (ODict d) => (w, Ok d)
      | _ => (w, Raise (Builtin AttributeError))
      end
  | _ => (w, Raise (Builtin AttributeError))
  end.

(** [s.lower()] on a value *)
Definition py_lower (v : pyval) : M string :=
  match v with
  | VStr s => ret (lower s)
  | _ => raise (Builtin AttributeError)
  end.

(** [if b: m] *)
Definition when (b : bool) (m : M unit) : M unit :=
  if b then m else ret tt.

(** ** HTTP *)

(** One request: it is logged, then answered or not. *)
Definition request (ev : event) (r : option response) : M response :=
  emit ev;;
  match r with
  | Some x => ret x
  | None => raise (Builtin RequestError)
  end.

(** [response.raise_for_status()] *)
Definition raise_for_status (r : response) : M unit :=
  if (200 <=? status_code r) && (status_code r <? 300) then ret tt
  else raise (Builtin (HTTPStatusError r)).

(** [response.json()] *)
Definition response_json (r : response) : M pyval :=
  match json_body r with
  | Some v => ret v
  | None => raise (Builtin JSONDecodeError)
  end.

(** [os.makedirs(path, exist_ok=True)] *)
Definition makedirs (env : Env) (path : string) : M unit :=
  if makedirs_ok env path then ret tt else raise (Builtin OSError).

(** [str(uuid.uuid4())] from the 32 hexadecimal digits *)
Definition uuid_str (hex : string) : string :=
  String.substring 0 8 hex +:+ "-" +:+ String.substring 8 4 hex +:+ "-" +:+
  String.substring 12 4 hex +:+ "-" +:+ String.substring 16 4 hex +:+ "-" +:+
  String.substring 20 12 hex.

(** A loop body run over a list, left to right. *)
Fixpoint for_each {A} (l : list A) (body : A → M unit) : M unit :=
  match l with
  | [] => ret tt
  | x :: r => body x ;; for_each r body
  end.

End Py.
Export Py.
Local Open Scope py_scope.

(* ================================================================== *)
(** * [app/core/config.py] *)
(* ================================================================== *)

Module Config.

(** The fields of [Settings] the providers and the download route read. *)
Record Settings := {
  DATA_DIR : string;
  ALIYUN_SUPPORTED_MODELS : string;
  LIBLIBAI_SUPPORTED_MODELS : string;
  ALIYUN_API_KEY : string;
  ALIYUN_API_URL : string;
  LIBLIBAI_ACCESS_KEY : string;
  LIBLIBAI_SECRET_KEY : string;
  LIBLIBAI_API_URL : string
}.

(** The class defaults; [DATA_DIR] is computed from the install path. *)
Definition defaults (data_dir : string) : Settings := {|
  DATA_DIR := data_dir;
  ALIYUN_SUPPORTED_MODELS :=
    "wanx2.1-t2i-turbo,wanx2.1-t2i-plus,wanx2.0-t2i-turbo";
  LIBLIBAI_SUPPORTED_MODELS :=
    "star-3-alpha-t2i,star-3-alpha-i2i,liblib-custom";
  ALIYUN_API_KEY := "";
  ALIYUN_API_URL :=
    "https://dashscope.aliyuncs.com/api/v1/services/aigc/text2image/image-synthesis";
  LIBLIBAI_ACCESS_KEY := "";
  LIBLIBAI_SECRET_KEY := "";
  LIBLIBAI_API_URL := "https://openapi.liblibai.cloud"
|}.

(** [[model.strip() for model in s.split(",")]] *)
Definition model_list (s : string) : list string :=
  map strip (split_on ","%char s).

(** [PROVIDER_SUPPORTED_MODELS]: both keys are always present, so the
    providers' [.get(name, default)] never falls back to its default. *)
Definition PROVIDER_SUPPORTED_MODELS (cfg : Settings) (provider : string)
  : option (list string) :=
  if String.eqb provider "aliyun" then
    Some (model_list (ALIYUN_SUPPORTED_MODELS cfg))
  else if String.eqb provider "liblibai" then
    Some (model_list (LIBLIBAI_SUPPORTED_MODELS cfg))
  else None.

End Config.

(* ================================================================== *)
(** * [hashlib.sha1], [hmac] and [base64], as the signer calls them *)
(* ================================================================== *)

(** Bytes are integers in [0, 255]. *)
Definition bytes := list Z.

(** [s.encode()]: a [string] here is already the sequence of its bytes. *)
Definition encode (s : string) : bytes :=
  map (λ c, Z.of_nat (nat_of_ascii c)) (String.list_ascii_of_string s).

(** SHA-1, FIPS 180-4. *)
Module Sha1.

Definition add32 (x y : Z) : Z := (x + y) mod 2 ^ 32.
Definition not32 (x : Z) : Z := Z.lxor x 0xFFFFFFFF.
Definition rotl (n x : Z) : Z :=
  Z.lor (Z.shiftl x n mod 2 ^ 32) (Z.shiftr x (32 - n)).

Definition be32 (x : Z) : bytes :=
  [Z.shiftr x 24 mod 256; Z.shiftr x 16 mod 256; Z.shiftr x 8 mod 256;
   x mod 256].

Definition be64 (x : Z) : bytes :=
  be32 (Z.shiftr x 32 mod 2 ^ 32) ++ be32 (x mod 2 ^ 32).

(** The message, a [1] bit, zeros, and the length in bits on 64 bits. *)
Definition pad (msg : bytes) : bytes :=
  let len := Z.of_nat (length msg) in
  msg ++ [0x80] ++ repeat 0 (Z.to_nat ((55 - len) mod 64)) ++ be64 (8 * len).

Fixpoint words (n : nat) (b : bytes) : list Z :=
  match n, b with
  | S n', b0 :: b1 :: b2 :: b3 :: r =>
      (Z.shiftl b0 24 + Z.shiftl b1 16 + Z.shiftl b2 8 + b3) :: words n' r
  | _, _ => []
  end.

(** The message schedule: [k] more words after [w]. *)
Fixpoint schedule (k : nat) (w : list Z) : list Z :=
  match k with
  | O => w
  | S k' =>
      let t := length w in
      let x i := nth (t - i) w 0 in
      schedule k'
        (w ++ [rotl 1 (Z.lxor (Z.lxor (Z.lxor (x 3%nat) (x 8%nat)) (x 14%nat))
                              (x 16%nat))])
  end.

Definition f (t : nat) (b c d : Z) : Z :=
  if (t <? 20)%nat then Z.lor (Z.land b c) (Z.land (not32 b) d)
  else if (t <? 40)%nat then Z.lxor (Z.lxor b c) d
  else if (t <? 60)%nat then
    Z.lor (Z.lor (Z.land b c) (Z.land b d)) (Z.land c d)
  else Z.lxor (Z.lxor b c) d.

Definition K (t : nat) : Z :=
  if (t <? 20)%nat then 0x5A827999
  else if (t <? 40)%nat then 0x6ED9EBA1
  else if (t <? 60)%nat then 0x8F1BBCDC
  else 0xCA62C1D6.

Definition state : Type := Z * Z * Z * Z * Z.

Fixpoint rounds (t : nat) (w : list Z) (s : state) : state :=
  match w with
  | [] => s
  | wt :: r =>
      let '(a, b, c, d, e) := s in
      let temp := add32 (add32 (add32 (add32 (rotl 5 a) (f t b c d)) e) (K t)) wt in
      rounds (S t) r (temp, a, rotl 30 b, c, d)
  end.

Definition compress (h : state) (block : bytes) : state :=
  let '(h0, h1, h2, h3, h4) := h in
  let '(a, b, c, d, e) := rounds 0 (schedule 64 (words 16 block)) h in
  (add32 h0 a, add32 h1 b, add32 h2 c, add32 h3 d, add32 h4 e).

Fixpoint blocks (n : nat) (h : state) (b : bytes) : state :=
  match n with
  | O => h
  | S n' => blocks n' (compress h (take 64 b)) (drop 64 b)
  end.

Definition H0 : state :=
  (0x67452301, 0xEFCDAB89, 0x98BADCFE, 0x10325476, 0xC3D2E1F0).

Definition sha1 (msg : bytes) : bytes :=
  let p := pad msg in
  let '(h0, h1, h2, h3, h4) := blocks (length p / 64) H0 p in
  be32 h0 ++ be32 h1 ++ be32 h2 ++ be32 h3 ++ be32 h4.

End Sha1.

(** HMAC, RFC 2104, over SHA-1: [hmac.new(key, msg, sha1).digest()]. *)
Module Hmac.

Definition block_size : nat := 64.

Definition hmac_sha1 (key msg : bytes) : bytes :=
  let key := if (block_size <? length key)%nat then Sha1.sha1 key else key in
  let key := key ++ repeat 0 (block_size - length key) in
  Sha1.sha1 (map (Z.lxor 0x5C) key ++ Sha1.sha1 (map (Z.lxor 0x36) key ++ msg)).

End Hmac.

(** [base64.urlsafe_b64encode], RFC 4648 section 5. *)
Module Base64.

Definition alphabet : list ascii :=
  String.list_ascii_of_string
    "ABCDEFGHIJKLMNOPQRSTUVWXYZabcdefghijklmnopqrstuvwxyz0123456789-_".

Definition char (x : Z) : ascii := nth (Z.to_nat x) alphabet "A"%char.

Fixpoint urlsafe_b64encode (b : bytes) : string :=
  match b with
  | [] => ""
  | [x] =>
      String (char (Z.shiftr x 2))
        (String (char (Z.shiftl (Z.land x 3) 4)) "==")
  | [x; y] =>
      String (char (Z.shiftr x 2))
        (String (char (Z.lor (Z.shiftl (Z.land x 3) 4) (Z.shiftr y 4)))
           (String (char (Z.shiftl (Z.land y 15) 2)) "="))
  | x :: y :: z :: r =>
      String (char (Z.shiftr x 2))
        (String (char (Z.lor (Z.shiftl (Z.land x 3) 4) (Z.shiftr y 4)))
           (String (char (Z.lor (Z.shiftl (Z.land y 15) 2) (Z.shiftr z 6)))
              (String (char (Z.land z 63)) (urlsafe_b64encode r))))
  end.

(** [s.rstrip(b'=')] *)
Fixpoint rstrip_eq (s : string) : string :=
  match s with
  | EmptyString => EmptyString
  | String c r =>
      match rstrip_eq r with
      | EmptyString =>
          if Ascii.eqb c "="%char then EmptyString else String c EmptyString
      | r' => String c r'
      end
  end.

End Base64.

(* ================================================================== *)
(** * [app/services/model_providers/aliyun.py] *)
(* ================================================================== *)

Module Aliyun.
Import Config.

Section Provider.
Variable settings : Settings.
Variable vendor : Vendor.
Variable env : Env.

Definition provider_name : string := "aliyun".

Definition supported_models : list string :=
  default ["wanx2.1-t2i-turbo"; "wanx2.1-t2i-plus"; "wanx2.0-t2i-turbo"]
          (PROVIDER_SUPPORTED_MODELS settings "aliyun").

Definition validate_parameters (model : string) (parameters : pyval)
  : M pyval :=
  if negb (existsb (String.eqb model) supported_models) then
    raise (ValueError
      [Lit ("Model '" +:+ model +:+ "' not supported. Supported models: "
            +:+ join ", " supported_models)])
  else
  has_prompt ← py_contains "prompt" parameters;
  if negb has_prompt then
    raise (ValueError [Lit "Parameter 'prompt' is required"])
  else
  validated ← py_copy parameters;
  py_setitem validated "model" (VStr model);;
  has_size ← py_contains "size" validated;
  (if has_size then
     v ← py_getitem validated "size"; py_setitem validated "size" v
   else py_setitem validated "size" (VStr "1024*1024"));;
  has_n ← py_contains "n" validated;
  (if has_n then
     v ← py_getitem validated "n";
     z ← lift (py_int v);
     py_setitem validated "n" (VInt (Z.min (Z.max z 1) 4))
   else py_setitem validated "n" (VInt 1));;
  has_neg ← py_contains "negative_prompt" validated;
  when (negb has_neg) (py_setitem validated "negative_prompt" (VStr ""));;
  has_style ← py_contains "style" validated;
  when (negb has_style) (py_setitem validated "style" (VStr "<auto>"));;
  has_ref ← py_contains "ref_img" validated;
  when has_ref (
    has_strength ← py_contains "ref_strength" validated;
    when (negb has_strength)
      (py_setitem validated "ref_strength" (VFloat (FFinite 1 0)));;
    has_mode ← py_contains "ref_mode" validated;
    when (negb has_mode) (py_setitem validated "ref_mode" (VStr "repaint")));;
  has_seed ← py_contains "seed" validated;
  when has_seed (
    v ← py_getitem validated "seed";
    z ← lift (py_int v);
    py_setitem validated "seed" (VInt z));;
  ret validated.

(** [download_image]: any failure is swallowed and answered [""]. *)
Definition download_image (i : nat) (url : pyval) (save_path : string)
  : M string :=
  emit (EvDownload url save_path);;
  ret (if download_ok vendor i url then save_path else "").

Record image_data := {
  index : nat;
  url : pyval;
  local_path : string;
  seed : pyval
}.

Record formatted_response := {
  id : pyval;
  model : pyval;
  created : string;
  images : list image_data;
  prompt : pyval;
  negative_prompt : option pyval;
  width : option pyval;
  height : option pyval;
  size : option pyval
}.

Definition images_dir : string := DATA_DIR settings +:+ "/images/aliyun".

(** [for i, result in enumerate(results)], from index [i] on; [acc] is
    [formatted_response["images"]]. *)
Fixpoint download_images (i : nat) (results : list pyval)
    (acc : list image_data) : M (list image_data) :=
  match results with
  | [] => ret acc
  | result :: rest =>
      image_url ← py_get result "url" (VStr "");
      t ← py_truthy image_url;
      if negb t then download_images (S i) rest acc
      else
        n1 ← draw;
        let timestamp := strftime env n1 "%Y%m%d_%H%M%S" in
        n2 ← draw;
        let file_name :=
          timestamp +:+ "_" +:+ pretty i +:+ "_" +:+
          String.substring 0 8 (uuid4_hex env n2) +:+ ".png" in
        let local_path := images_dir +:+ "/" +:+ file_name in
        saved_path ← download_image i image_url local_path;
        sd ← py_get result "seed" VNone;
        download_images (S i) rest
          (acc ++ [{| index := i; url := image_url;
                      local_path := saved_path; seed := sd |}])
  end.

(** The list of produced images, located in the response. *)
Definition find_results (api_response output : pyval) : M pyval :=
  results ← alloc (OList []);
  in_output ← py_contains "results" output;
  if in_output then py_getitem output "results"
  else
    has_metrics ← py_contains "task_metrics" output;
    if has_metrics then
      empty ← alloc (ODict []);
      metrics ← py_get output "task_metrics" empty;
      succeeded ← py_contains "SUCCEEDED" metrics;
      if succeeded then
        has_result ← py_contains "result" api_response;
        if has_result then
          r ← py_getitem api_response "result";
          empty_list ← alloc (OList []);
          py_get r "results" empty_list
        else ret results
      else ret results
    else ret results.

(** The [size] part of the response: ["<w>*<h>"] is split into integers. *)
Definition size_fields (original_params : pyval)
  : M (option pyval * option pyval * option pyval) :=
  has_size ← py_contains "size" original_params;
  if has_size then
    sz ← py_getitem original_params "size";
    match sz with
    | VStr s =>
        match split_on "*"%char s with
        | [p0; p1] =>
            match int_of_string p0 with
            | Some w =>
                match int_of_string p1 with
                | Some h => ret (Some (VInt w), Some (VInt h), None)
                | None => ret (Some (VInt w), None, Some sz)
                end
            | None => ret (None, None, Some sz)
            end
        | _ => ret (None, None, Some sz)
        end
    | _ => raise (Builtin AttributeError)
    end
  else ret (Some (VInt 1024), Some (VInt 1024), None).

Definition _format_response_and_download_images
    (api_response original_params : pyval) : M formatted_response :=
  empty ← alloc (ODict []);
  output ← py_get api_response "output" empty;
  t ← py_truthy output;
  has_result ← (if negb t then py_contains "result" api_response
                else ret false);
  output ← (if has_result then
              empty' ← alloc (ODict []);
              py_get api_response "result" empty'
            else ret output);
  n ← draw;
  task_id ← py_get api_response "task_id" (VStr (uuid_str (uuid4_hex env n)));
  rid ← py_get api_response "request_id" task_id;
  mdl ← py_get original_params "model" (VStr "");
  n' ← draw;
  let created_ := strftime env n' "%Y-%m-%d %H:%M:%S" in
  results ← find_results api_response output;
  makedirs env images_dir;;
  items ← py_iter results;
  imgs ← download_images 0 items [];
  pr ← py_get original_params "prompt" (VStr "");
  has_neg ← py_contains "negative_prompt" original_params;
  neg ← (if has_neg then
           v ← py_getitem original_params "negative_prompt"; ret (Some v)
         else ret None);
  '(w, h, sz) ← size_fields original_params;
  ret {| id := rid; model := mdl; created := created_; images := imgs;
         prompt := pr; negative_prompt := neg;
         width := w; height := h; size := sz |}.

(** ** [call_model] *)

Record request_data := {
  rq_model : pyval;
  rq_input : dict;
  rq_parameters : dict
}.

Definition request_json (r : request_data) : list (string * body) :=
  [("model", BVal (rq_model r)); ("input", BDict (rq_input r));
   ("parameters", BDict (rq_parameters r))].

Definition exclude_keys : list string :=
  ["model"; "prompt"; "negative_prompt"; "ref_img"].

Definition special_params : list (string * string) :=
  [("size", "size"); ("n", "n"); ("style", "style"); ("seed", "seed");
   ("ref_strength", "ref_strength"); ("ref_mode", "ref_mode")].

Definition str_in (k : string) (l : list string) : bool :=
  existsb (String.eqb k) l.

(** The request body, from the validated parameters. *)
Definition build_request_data (validated_params : pyval) : M request_data :=
  m ← py_getitem validated_params "model";
  p ← py_getitem validated_params "prompt";
  let input := [("prompt", p)] in
  neg ← py_get validated_params "negative_prompt" VNone;
  t ← py_truthy neg;
  input ← (if t then
             v ← py_getitem validated_params "negative_prompt";
             ret (dict_set "negative_prompt" v input)
           else ret input);
  ref ← py_get validated_params "ref_img" VNone;
  t ← py_truthy ref;
  input ← (if t then
             v ← py_getitem validated_params "ref_img";
             ret (dict_set "ref_image" v input)
           else ret input);
  items ← py_items validated_params;
  let special :=
    fold_left (λ ps '(param_name, api_param),
                 match dict_get param_name items with
                 | Some v => dict_set api_param v ps
                 | None => ps
                 end) special_params [] in
  let parameters :=
    fold_left (λ ps '(key, value),
                 if negb (str_in key exclude_keys) &&
                    negb (str_in key (map fst special_params))
                 then dict_set key value ps else ps) items special in
  ret {| rq_model := m; rq_input := input; rq_parameters := parameters |}.

Definition max_retries : nat := 120.
Definition retry_interval : Z := 15.

Definition succeeded_names : list string := ["SUCCEEDED"; "COMPLETE"; "SUCCESS"].
Definition failed_names : list string := ["FAILED"; "CANCELLED"; "ERROR"].

(** The task status, read at the top level and else under ["output"]. *)
Definition read_status (task_status : pyval) : M pyval :=
  v ← py_get task_status "task_status" (VStr "");
  t ← py_truthy v;
  has_output ← (if negb t then py_contains "output" task_status
                else ret false);
  if has_output then
    o ← py_getitem task_status "output";
    py_get o "task_status" (VStr "")
  else ret v.

(** The message of a failed task. *)
Definition read_error (task_status : pyval) : M pyval :=
  error_msg ← py_get task_status "message" (VStr "Unknown error");
  has_output ← py_contains "output" task_status;
  nested ← (if has_output then
              o ← py_getitem task_status "output";
              py_contains "message" o
            else ret false);
  if nested then
    o ← py_getitem task_status "output";
    py_getitem o "message"
  else ret error_msg.

(** [for i in range(max_retries)], from cycle [i] with [n] cycles left. *)
Fixpoint poll (task_id validated_params : pyval) (i n : nat)
  : M formatted_response :=
  match n with
  | O =>
      raise (ValueError
        [Lit "Task "; Val task_id;
         Lit " did not complete within expected time"])
  | S n' =>
      emit (EvSleep retry_interval);;
      status_response ←
        request (EvGet [Lit "https://dashscope.aliyuncs.com/api/v1/tasks/";
                        Val task_id])
                (status_reply vendor i);
      raise_for_status status_response;;
      task_status ← response_json status_response;
      task_status_value ← read_status task_status;
      if in_strs task_status_value succeeded_names then
        _format_response_and_download_images task_status validated_params
      else if in_strs task_status_value failed_names then
        error_msg ← read_error task_status;
        raise (ValueError [Lit "Task failed: "; Val error_msg])
      else poll task_id validated_params (S i) n'
  end.

(** The two [except] clauses of [call_model]. *)
Definition handle_errors {A} (e : exn) : M A :=
  match e with
  | Builtin (HTTPStatusError r) =>
      error_detail ←
        match json_body r with
        | Some v => ret v
        | None => alloc (ODict [("message", VStr (text r))])
        end;
      raise (ValueError
        [Lit "Aliyun API HTTP error: "; Val (VInt (status_code r));
         Lit ", "; Val error_detail])
  | _ => raise (ValueError (Lit "Aliyun API error: " :: exn_str e))
  end.

Definition call_model (model : string) (parameters : pyval)
  : M formatted_response :=
  validated_params ← validate_parameters model parameters;
  let api_key := ALIYUN_API_KEY settings in
  let api_url := ALIYUN_API_URL settings in
  if String.eqb api_key "" then
    raise (ValueError [Lit "Aliyun API key not configured"])
  else
  let api_url :=
    if String.eqb api_url "" then
      "https://dashscope.aliyuncs.com/api/v1/services/aigc/text2image/image-synthesis"
    else api_url in
  try_except (
    request_data ← build_request_data validated_params;
    response ← request (EvPost [Lit api_url] (request_json request_data))
                       (create_reply vendor);
    raise_for_status response;;
    task_result ← response_json response;
    empty ← alloc (ODict []);
    output ← py_get task_result "output" empty;
    task_id ← py_get output "task_id" VNone;
    t ← py_truthy task_id;
    if negb t then
      raise (ValueError
        [Lit "Failed to get task_id from response: "; Val task_result])
    else
      poll task_id validated_params 0 max_retries
  ) handle_errors.

End Provider.
End Aliyun.

(* ================================================================== *)
(** * [app/services/model_providers/liblibai.py] *)
(* ================================================================== *)

Module Liblibai.
Import Config.

Section Provider.
Variable settings : Settings.
Variable vendor : Vendor.
Variable env : Env.
(** [base_dir]: three levels above the module's own directory. *)
Variable base_dir : string.

Definition provider_name : string := "liblibai".

Definition supported_models : list string :=
  default ["star-3-alpha-t2i"; "star-3-alpha-i2i"; "liblib-custom"]
          (PROVIDER_SUPPORTED_MODELS settings "liblibai").

Record signature_params := {
  AccessKey : string;
  Signature : string;
  Timestamp : string;
  SignatureNonce : string
}.

Definition generate_signature (uri : string) : M signature_params :=
  let access_key := LIBLIBAI_ACCESS_KEY settings in
  let secret_key := LIBLIBAI_SECRET_KEY settings in
  if String.eqb access_key "" || String.eqb secret_key "" then
    raise (ValueError [Lit "LiblibAI API keys not configured"])
  else
  n ← draw;
  let timestamp := pretty (time_ms env n) in
  n' ← draw;
  let signature_nonce := uuid_str (uuid4_hex env n') in
  let content := join "&" [uri; timestamp; signature_nonce] in
  let digest := Hmac.hmac_sha1 (encode secret_key) (encode content) in
  let signature := Base64.rstrip_eq (Base64.urlsafe_b64encode digest) in
  ret {| AccessKey := access_key; Signature := signature;
         Timestamp := timestamp; SignatureNonce := signature_nonce |}.

(** [validated["generateParams"]] *)
Definition generateParams (validated : pyval) : M pyval :=
  py_getitem validated "generateParams".

(** [if "generateParams" not in validated: validated["generateParams"] = {}] *)
Definition ensure_generateParams (validated : pyval) : M unit :=
  has ← py_contains "generateParams" validated;
  when (negb has) (
    e ← alloc (ODict []);
    py_setitem validated "generateParams" e).

(** [if k not in validated["generateParams"]:
       validated["generateParams"][k] = rhs] *)
Definition default_param (validated : pyval) (k : string) (rhs : M pyval)
  : M unit :=
  g ← generateParams validated;
  has ← py_contains k g;
  when (negb has) (
    v ← rhs;
    g' ← generateParams validated;
    py_setitem g' k v).

(** [if "templateUuid" not in validated: validated["templateUuid"] = rhs] *)
Definition default_template (validated : pyval) (rhs : M pyval) : M unit :=
  has ← py_contains "templateUuid" validated;
  when (negb has) (
    v ← rhs;
    py_setitem validated "templateUuid" v).

Definition require (validated : pyval) (k : string) (msg : string) : M unit :=
  has ← py_contains k validated;
  when (negb has) (raise (ValueError [Lit msg])).

Definition validate_parameters (model : string) (parameters : pyval)
  : M pyval :=
  if negb (existsb (String.eqb model) supported_models) then
    raise (ValueError
      [Lit ("Model '" +:+ model +:+ "' not supported. Supported models: "
            +:+ join ", " supported_models)])
  else
  validated ← py_copy parameters;
  py_setitem validated "model" (VStr model);;
  (if String.eqb model "star-3-alpha-t2i" then
     require validated "prompt"
       "Parameter 'prompt' is required for Star-3 Alpha text-to-image";;
     ensure_generateParams validated;;
     default_param validated "prompt" (py_getitem validated "prompt");;
     g ← generateParams validated;
     has_aspect ← py_contains "aspectRatio" g;
     neither ← (if negb has_aspect then
                  g' ← generateParams validated;
                  has_size ← py_contains "imageSize" g';
                  ret (negb has_size)
                else ret false);
     when neither (
       g' ← generateParams validated;
       py_setitem g' "aspectRatio" (VStr "portrait"));;
     default_param validated "imgCount" (ret (VInt 1));;
     default_template validated
       (ret (VStr "5d7e67009b344550bc1aa6ccbfa1d7f4"))
   else if String.eqb model "star-3-alpha-i2i" then
     require validated "prompt"
       "Parameter 'prompt' is required for Star-3 Alpha image-to-image";;
     require validated "sourceImage"
       "Parameter 'sourceImage' is required for Star-3 Alpha image-to-image";;
     ensure_generateParams validated;;
     default_param validated "prompt" (py_getitem validated "prompt");;
     default_param validated "sourceImage"
       (py_getitem validated "sourceImage");;
     default_param validated "width" (ret (VInt 768));;
     default_param validated "height" (ret (VInt 1024));;
     default_param validated "imgCount" (ret (VInt 1));;
     default_template validated
       (ret (VStr "07e00af4fc464c7ab55ff906f8acf1b7"))
   else if String.eqb model "liblib-custom" then
     require validated "checkPointId"
       "Parameter 'checkPointId' is required for LiblibAI custom model";;
     require validated "prompt"
       "Parameter 'prompt' is required for LiblibAI custom model";;
     ensure_generateParams validated;;
     default_param validated "checkPointId"
       (py_getitem validated "checkPointId");;
     default_param validated "prompt" (py_getitem validated "prompt");;
     default_param validated "sampler" (ret (VInt 15));;
     default_param validated "steps" (ret (VInt 20));;
     default_param validated "cfgScale" (ret (VInt 7));;
     default_param validated "width" (ret (VInt 768));;
     default_param validated "height" (ret (VInt 1024));;
     default_param validated "imgCount" (ret (VInt 1));;
     default_param validated "seed" (ret (VInt (-1)));;
     default_template validated (
       b ← py_get validated "baseModelType" (VStr "");
       base_model_type ← py_lower b;
       let is_f1 := String.eqb base_model_type "f.1" ||
                    String.eqb base_model_type "f1" in
       g ← generateParams validated;
       has_source ← py_contains "sourceImage" g;
       ret (VStr (if has_source then
                    if is_f1 then "63b72710c9574457ba303d9d9b8df8bd"
                    else "9c7d531dc75f476aa833b3d452b8f7ad"
                  else
                    if is_f1 then "6f7c4652458d4802969f8d089cf5b91f"
                    else "e10adc3949ba59abbe56e057f20f883e")))
   else ret tt);;
  ret validated.

(** [download_image]: any failure is swallowed and answered [""]. *)
Definition download_image (i : nat) (url : pyval) (save_path : string)
  : M string :=
  emit (EvDownload url save_path);;
  ret (if download_ok vendor i url then save_path else "").

Record image_info := {
  index : nat;
  url : pyval;
  local_path : string;
  seed : pyval;
  auditStatus : pyval
}.

Record formatted_response := {
  id : pyval;
  model : pyval;
  created : string;
  images : list image_info;
  pointsCost : pyval;
  accountBalance : pyval;
  prompt : pyval;
  negative_prompt : option pyval;
  width : pyval;
  height : pyval
}.

Definition images_dir : string := base_dir +:+ "/data/images/liblibai".

(** [for i, image_data in enumerate(images)], from index [i] on; [acc] is
    [formatted_response["images"]]. *)
Fixpoint download_images (i : nat) (images_ : list pyval)
    (acc : list image_info) : M (list image_info) :=
  match images_ with
  | [] => ret acc
  | image_data :: rest =>
      image_url ← py_get image_data "imageUrl" (VStr "");
      t ← py_truthy image_url;
      if negb t then download_images (S i) rest acc
      else
        n1 ← draw;
        let timestamp := strftime env n1 "%Y%m%d_%H%M%S" in
        n2 ← draw;
        let file_name :=
          "liblibai_" +:+ timestamp +:+ "_" +:+ pretty i +:+ "_" +:+
          String.substring 0 8 (uuid4_hex env n2) +:+ ".png" in
        let local_path := images_dir +:+ "/" +:+ file_name in
        saved_path ← download_image i image_url local_path;
        sd ← py_get image_data "seed" VNone;
        au ← py_get image_data "auditStatus" VNone;
        download_images (S i) rest
          (acc ++ [{| index := i; url := image_url;
                      local_path := saved_path; seed := sd;
                      auditStatus := au |}])
  end.

(** Width and height: explicit, or under ["imageSize"], or 768 by 1024. *)
Definition size_fields (generate_params : pyval) : M (pyval * pyval) :=
  has_w ← py_contains "width" generate_params;
  has_h ← (if has_w then py_contains "height" generate_params
           else ret false);
  if has_h then
    w ← py_getitem generate_params "width";
    h ← py_getitem generate_params "height";
    ret (w, h)
  else
    has_size ← py_contains "imageSize" generate_params;
    if has_size then
      image_size ← py_getitem generate_params "imageSize";
      w ← py_get image_size "width" (VInt 768);
      h ← py_get image_size "height" (VInt 1024);
      ret (w, h)
    else ret (VInt 768, VInt 1024).

Definition _format_response_and_download_images
    (api_response original_params : pyval) : M formatted_response :=
  n ← draw;
  gid ← py_get api_response "generateUuid"
               (VStr (uuid_str (uuid4_hex env n)));
  mdl ← py_get original_params "model" (VStr "");
  n' ← draw;
  let created_ := strftime env n' "%Y-%m-%d %H:%M:%S" in
  cost ← py_get api_response "pointsCost" (VInt 0);
  balance ← py_get api_response "accountBalance" (VInt 0);
  makedirs env images_dir;;
  empty_list ← alloc (OList []);
  imgs_val ← py_get api_response "images" empty_list;
  items ← py_iter imgs_val;
  imgs ← download_images 0 items [];
  empty ← alloc (ODict []);
  generate_params ← py_get original_params "generateParams" empty;
  pr ← py_get generate_params "prompt" (VStr "");
  has_neg ← py_contains "negativePrompt" generate_params;
  neg ← (if has_neg then
           v ← py_getitem generate_params "negativePrompt"; ret (Some v)
         else ret None);
  '(w, h) ← size_fields generate_params;
  ret {| id := gid; model := mdl; created := created_; images := imgs;
         pointsCost := cost; accountBalance := balance;
         prompt := pr; negative_prompt := neg; width := w; height := h |}.

(** ** [call_model] *)

Definition max_retries : nat := 120.
Definition retry_interval : Z := 15.
Definition status_endpoint : string := "/api/generate/webui/status".

Definition signed_url (api_base_url endpoint : string)
    (sp : signature_params) : string :=
  api_base_url +:+ endpoint +:+ "?AccessKey=" +:+ AccessKey sp +:+
  "&Signature=" +:+ Signature sp +:+ "&Timestamp=" +:+ Timestamp sp +:+
  "&SignatureNonce=" +:+ SignatureNonce sp.

(** [if body.get("code") != 0: raise ...] *)
Definition check_code (body_ : pyval) : M unit :=
  code ← py_get body_ "code" VNone;
  when (negb (eq_int code 0)) (
    error_msg ← py_get body_ "msg" (VStr "Unknown error");
    raise (ValueError [Lit "LiblibAI API error: "; Val error_msg])).

(** [for i in range(max_retries)], from cycle [i] with [n] cycles left. *)
Fixpoint poll (api_base_url : string) (generate_uuid validated_params : pyval)
    (i n : nat) : M formatted_response :=
  match n with
  | O =>
      raise (ValueError
        [Lit "Task "; Val generate_uuid;
         Lit " did not complete within expected time"])
  | S n' =>
      emit (EvSleep retry_interval);;
      status_signature_params ← generate_signature status_endpoint;
      let status_url :=
        signed_url api_base_url status_endpoint status_signature_params in
      status_response ←
        request (EvPost [Lit status_url]
                        [("generateUuid", BVal generate_uuid)])
                (status_reply vendor i);
      raise_for_status status_response;;
      task_status ← response_json status_response;
      check_code task_status;;
      empty ← alloc (ODict []);
      task_data ← py_get task_status "data" empty;
      generate_status ← py_get task_data "generateStatus" (VInt 0);
      if eq_int generate_status 5 then
        _format_response_and_download_images task_data validated_params
      else if eq_int generate_status 6 || eq_int generate_status 7 then
        error_msg ← py_get task_data "generateMsg"
                           (VStr "Task failed or timed out");
        raise (ValueError [Lit "Task failed: "; Val error_msg])
      else poll api_base_url generate_uuid validated_params (S i) n'
  end.

(** The two [except] clauses of [call_model]. *)
Definition handle_errors {A} (e : exn) : M A :=
  match e with
  | Builtin (HTTPStatusError r) =>
      error_detail ←
        match json_body r with
        | Some v => ret v
        | None => alloc (ODict [("message", VStr (text r))])
        end;
      raise (ValueError
        [Lit "LiblibAI API HTTP error: "; Val (VInt (status_code r));
         Lit ", "; Val error_detail])
  | _ => raise (ValueError (Lit "LiblibAI API error: " :: exn_str e))
  end.

Definition api_endpoint_of (model : string) (validated_params : pyval)
  : M string :=
  if String.eqb model "star-3-alpha-t2i" then
    ret "/api/generate/webui/text2img/ultra"
  else if String.eqb model "star-3-alpha-i2i" then
    ret "/api/generate/webui/img2img/ultra"
  else if String.eqb model "liblib-custom" then
    empty ← alloc (ODict []);
    g ← py_get validated_params "generateParams" empty;
    has_source ← py_contains "sourceImage" g;
    ret (if has_source then "/api/generate/webui/img2img"
         else "/api/generate/webui/text2img")
  else raise (ValueError [Lit ("Unsupported model: " +:+ model)]).

Definition call_model (model : string) (parameters : pyval)
  : M formatted_response :=
  validated_params ← validate_parameters model parameters;
  let api_base_url :=
    if String.eqb (LIBLIBAI_API_URL settings) "" then
      "https://openapi.liblibai.cloud"
    else LIBLIBAI_API_URL settings in
  api_endpoint ← api_endpoint_of model validated_params;
  signature_params ← generate_signature api_endpoint;
  let api_url := api_base_url +:+ api_endpoint in
  try_except (
    template ← py_getitem validated_params "templateUuid";
    g ← py_getitem validated_params "generateParams";
    let request_data := [("templateUuid", BVal template);
                         ("generateParams", BVal g)] in
    let url_with_params :=
      signed_url api_base_url api_endpoint signature_params in
    response ← request (EvPost [Lit url_with_params] request_data)
                       (create_reply vendor);
    raise_for_status response;;
    task_result ← response_json response;
    check_code task_result;;
    empty ← alloc (ODict []);
    data ← py_get task_result "data" empty;
    generate_uuid ← py_get data "generateUuid" VNone;
    t ← py_truthy generate_uuid;
    if negb t then
      raise (ValueError
        [Lit "Failed to get generateUuid from response: "; Val task_result])
    else
      poll api_base_url generate_uuid validated_params 0 max_retries
  ) handle_errors.

End Provider.
End Liblibai.

(* ================================================================== *)
(** * [app/api/download.py] *)
(* ================================================================== *)

Module Download.

(** A path, as its components; [p / name] adds one. *)
Definition path := list string.

(** What the route asks of the file system: [Path.exists()] and
    [Path.glob(pattern)], the matches in the order the walk yields them.
    Either can raise: [exists()] lets through the errors of [stat] other
    than a missing file, and [glob] refuses some patterns. *)
Record FileSystem := {
  exists_ : path → result bool;
  glob : path → string → result (list path)
}.

Inductive probe :=
| Exists (p : path)
| Glob (dir : path) (pattern : string).

Inductive outcome :=
| Found (file_path : path)
| NotFound (detail : string)           (* [HTTPException], status 404 *)
| ServerError (detail : list frag).    (* [HTTPException], status 500 *)

(** [except Exception as e]: the answer to any other exception. *)
Definition failure (e : exn) : outcome :=
  ServerError (Lit "Failed to process download request: " :: exn_str e).

Section Route.
Variable fs : FileSystem.

(** [for provider_dir in dirs: ... break], with [file_path] as it stands
    when the loop ends or the exception that ends it, and the probes
    made. *)
Fixpoint scan_providers (images_dir : path) (file_name : string)
    (dirs : list string) (file_path : path) : list probe * result path :=
  match dirs with
  | [] => ([], Ok file_path)
  | provider_dir :: rest =>
      let provider_path := images_dir ++ [provider_dir; file_name] in
      match exists_ fs provider_path with
      | Ok true => ([Exists provider_path], Ok provider_path)
      | Ok false =>
          let '(ps, r) := scan_providers images_dir file_name rest file_path in
          (Exists provider_path :: ps, r)
      | Raise e => ([Exists provider_path], Raise e)
      end
  end.

(** The search of [download_file], up to the choice of [file_path], inside
    the [try] of the route. *)
Definition download_file (data_dir : path) (file_name : string)
  : list probe * outcome :=
  let images_dir := data_dir ++ ["images"] in
  let file_path := images_dir ++ [file_name] in
  match exists_ fs file_path with
  | Raise e => ([Exists file_path], failure e)
  | Ok true => ([Exists file_path], Found file_path)
  | Ok false =>
      match scan_providers images_dir file_name ["aliyun"; "liblibai"]
              file_path with
      | (ps, Raise e) => (Exists file_path :: ps, failure e)
      | (ps, Ok file_path') =>
          match exists_ fs file_path' with
          | Raise e => (Exists file_path :: ps ++ [Exists file_path'], failure e)
          | Ok true => (Exists file_path :: ps ++ [Exists file_path'],
                        Found file_path')
          | Ok false =>
              let pattern := "**/" +:+ file_name in
              let probes := Exists file_path :: ps ++
                            [Exists file_path'; Glob data_dir pattern] in
              match glob fs data_dir pattern with
              | Raise e => (probes, failure e)
              | Ok [] => (probes, NotFound ("File not found: " +:+ file_name))
              | Ok (first :: _) => (probes, Found first)
              end
          end
      end
  end.

End Route.

(** A file system given by the list of its files, for examples: a path
    exists when it is a file or a directory above one, and the recursive
    pattern matches the files with that very name (wild cards in the name
    are not interpreted).  As on Linux, a path
    with a component of more than 255 bytes makes [stat] fail with
    [ENAMETOOLONG], an error that [Path.exists()] lets through. *)
Definition is_prefix_of (p q : path) : bool :=
  bool_decide (p = take (length p) q).

Definition name_max : nat := 255.

Definition fs_of_files (files : list path) : FileSystem := {|
  exists_ p :=
    if existsb (λ c, (name_max <? String.length c)%nat) p
    then Raise (Builtin OSError)
    else Ok (existsb (is_prefix_of p) files);
  glob dir pattern :=
    Ok (filter (λ f, bool_decide (is_prefix_of dir f = true ∧
                                  Some pattern = (λ n, "**/" +:+ n) <$> last f))
               files)
|}.

End Download.

(** The rest of the route: the media type and the response. *)
Module DownloadResponse.
Import Download.

(** [s.rfind(c)]: the index of the last [c] in [s]. *)
Fixpoint rfind (c : ascii) (s : string) : option nat :=
  match s with
  | EmptyString => None
  | String x r =>
      match rfind c r with
      | Some i => Some (S i)
      | None => if Ascii.eqb x c then Some 0%nat else None
      end
  end.

(** [PurePath.suffix] of the final component [name]: the part from the
    last dot on, unless that dot is the first or the last character. *)
Definition suffix (name : string) : string :=
  match rfind "."%char name with
  | Some i =>
      if (0 <? i)%nat && (i <? String.length name - 1)%nat
      then String.substring i (String.length name - i) name
      else ""
  | None => ""
  end.

(** [Path.name]: the final component. *)
Definition name (p : path) : string := default "" (last p).

(** The [if]/[elif] chain on [file_extension]; the value given to
    [media_type] before the chain is overwritten on every branch. *)
Definition media_type_of (file_extension : string) : string :=
  let media_type := "image/jpeg" in
  if String.eqb file_extension ".png" then "image/png"
  else if existsb (String.eqb file_extension) [".jpg"; ".jpeg"] then "image/jpeg"
  else if String.eqb file_extension ".gif" then "image/gif"
  else if String.eqb file_extension ".webp" then "image/webp"
  else if String.eqb file_extension ".svg" then "image/svg+xml"
  else if String.eqb file_extension ".bmp" then "image/bmp"
  else "application/octet-stream".

Record FileResponse := {
  path_ : path;
  filename : string;
  media_type : string
}.

Inductive reply :=
| Serve (r : FileResponse)
| HTTPException (status_code : Z) (detail : list frag).

(** The route, from the search on: the file found is served under the
    requested name, with the media type of its extension; the 404 of the
    search passes as it is, and any other exception becomes a 500. *)
Definition respond (fs : FileSystem) (data_dir : path) (file_name : string)
  : reply :=
  match (download_file fs data_dir file_name).2 with
  | Found file_path =>
      let file_extension := lower (suffix (name file_path)) in
      Serve {| path_ := file_path; filename := file_name;
               media_type := media_type_of file_extension |}
  | NotFound detail => HTTPException 404 [Lit detail]
  | ServerError detail => HTTPException 500 detail
  end.

End DownloadResponse.

(* ================================================================== *)
(** * Functional descriptions used in the proofs *)
(* ================================================================== *)

(** A world whose newest object is the dictionary [d]. *)
Definition top (h : list obj) (d : dict) (l : list event) (t : nat) : world :=
  World (h ++ [ODict d]) l t.

(** [if k not in d: d[k] = v] *)
Definition setdefault (k : string) (v : pyval) (d : dict) : dict :=
  if dict_has k d then d else dict_set k v d.

Module AliyunNorm.

Definition clamp (z : Z) : Z := Z.min (Z.max z 1) 4.

(** The entries of the dictionary [validate_parameters] returns, as a
    function of the caller's entries [d]; the second component is the
    exception of a failed [int()], raised with the copy partly filled. *)
Definition norm (model : string) (d : dict) : dict * result unit :=
  let d1 := dict_set "model" (VStr model) d in
  let d2 := dict_set "size" (default (VStr "1024*1024") (dict_get "size" d1)) d1 in
  match (match dict_get "n" d2 with Some v => py_int v | None => Ok 1 end) with
  | Raise e => (d2, Raise e)
  | Ok z =>
      let d3 := dict_set "n" (VInt (match dict_get "n" d2 with Some _ => clamp z | None => 1 end)) d2 in
      let d4 := setdefault "negative_prompt" (VStr "") d3 in
      let d5 := setdefault "style" (VStr "<auto>") d4 in
      let d6 := if dict_has "ref_img" d5
                then setdefault "ref_mode" (VStr "repaint")
                       (setdefault "ref_strength" (VFloat (FFinite 1 0)) d5)
                else d5 in
      match dict_get "seed" d6 with
      | None => (d6, Ok tt)
      | Some v =>
          match py_int v with
          | Ok s => (dict_set "seed" (VInt s) d6, Ok tt)
          | Raise e => (d6, Raise e)
          end
      end
  end.

End AliyunNorm.

(** The keys provider A reads itself; every other key is the caller's. *)
Definition aliyun_recognized : list string :=
  ["model"; "prompt"; "negative_prompt"; "ref_img"; "size"; "n"; "style";
   "seed"; "ref_strength"; "ref_mode"].

(** [int(v)] succeeds, for a value that may be absent. *)
Definition coercible (o : option pyval) : bool :=
  match o with
  | Some v => match py_int v with Ok _ => true | Raise _ => false end
  | None => true
  end.

(** The entry [k] of the dictionary returned by provider A for the caller's
    dictionary [d], run in a store that holds [d] alone. *)
Definition aliyun_entry (cfg : Config.Settings) (model : string) (d : dict)
    (k : string) : option pyval :=
  match Aliyun.validate_parameters cfg model (VRef 0%nat)
          (World [ODict d] [] 0) with
  | (w', Ok (VRef a)) =>
      match heap w' !! a with
      | Some (ODict d') => dict_get k d'
      | _ => None
      end
  | _ => None
  end.

(** What the returned dictionary holds for the keys the provider knows. *)
Definition aliyun_defaults_hold (model : string) (d d' : dict) : Prop :=
  dict_get "model" d' = Some (VStr model)
  ∧ dict_get "prompt" d' = dict_get "prompt" d
  ∧ dict_get "size" d' = Some (default (VStr "1024*1024") (dict_get "size" d))
  ∧ dict_get "n" d' =
      Some (VInt (match dict_get "n" d with
                  | Some v => match py_int v with
                              | Ok z => Z.min (Z.max z 1) 4
                              | Raise _ => 1
                              end
                  | None => 1
                  end))
  ∧ dict_get "negative_prompt" d' =
      Some (default (VStr "") (dict_get "negative_prompt" d))
  ∧ dict_get "style" d' = Some (default (VStr "<auto>") (dict_get "style" d))
  ∧ dict_get "seed" d' =
      match dict_get "seed" d with
      | Some v => match py_int v with
                  | Ok z => Some (VInt z)
                  | Raise _ => None
                  end
      | None => None
      end
  ∧ dict_get "ref_img" d' = dict_get "ref_img" d
  ∧ (if dict_has "ref_img" d then
       dict_get "ref_strength" d' =
         Some (default (VFloat (FFinite 1 0)) (dict_get "ref_strength" d))
       ∧ dict_get "ref_mode" d' =
         Some (default (VStr "repaint") (dict_get "ref_mode" d))
     else
       dict_get "ref_strength" d' = dict_get "ref_strength" d
       ∧ dict_get "ref_mode" d' = dict_get "ref_mode" d).

(** ** Provider A: the request body *)

(** One iteration of the loop of [build_request_data] over the caller's
    items, on the [parameters] built so far. *)
Definition forward_item (ps : dict) (kv : string * pyval) : dict :=
  let '(key, value) := kv in
  if negb (Aliyun.str_in key Aliyun.exclude_keys) &&
     negb (Aliyun.str_in key (map fst Aliyun.special_params))
  then dict_set key value ps else ps.

(** ** Computations that make no request *)

(** [m] leaves the log as it is, and the exceptions it raises satisfy [E]. *)
Definition respects {A} (E : exn → Prop) (m : M A) : Prop :=
  ∀ w, log (m w).1 = log w ∧ ∀ e, (m w).2 = Raise e → E e.

Definition is_builtin (e : exn) : Prop := ∃ b, e = Builtin b.

(** ** Provider B: the dictionaries of [validate_parameters] *)

(** The store holds the validated dictionary [dv] at [a] and, apart from
    it, the dictionary [dg] that [dv["generateParams"]] refers to. *)
Definition gp_state (w : world) (a : addr) (dv : dict) (g : addr) (dg : dict)
  : Prop :=
  a ≠ g ∧ heap w !! a = Some (ODict dv) ∧ heap w !! g = Some (ODict dg)
  ∧ dict_get "generateParams" dv = Some (VRef g).

(** What the caller's dictionary says about [generateParams]: absent, and
    then [dg] is the empty dictionary made for it, or a dictionary [dg] of
    the store. *)
Definition gp_input (w : world) (d : dict) (dg : dict) : Prop :=
  match dict_get "generateParams" d with
  | None => dg = []
  | Some v => ∃ g, v = VRef g ∧ heap w !! g = Some (ODict dg)
  end.

(** [aspectRatio] is defaulted when neither it nor [imageSize] is there. *)
Definition aspect_default (dg : dict) : dict :=
  if dict_has "aspectRatio" dg || dict_has "imageSize" dg then dg
  else dict_set "aspectRatio" (VStr "portrait") dg.

(** What validation of the text-to-image model leaves in the dictionary
    under [generateParams] and in the validated one. *)
Definition t2i_normalized (d dg0 dv dg : dict) : Prop :=
  dict_get "prompt" dg =
    Some (default (default VNone (dict_get "prompt" d)) (dict_get "prompt" dg0))
  ∧ dict_get "aspectRatio" dg =
      (if dict_has "aspectRatio" dg0 || dict_has "imageSize" dg0
       then dict_get "aspectRatio" dg0 else Some (VStr "portrait"))
  ∧ dict_get "imageSize" dg = dict_get "imageSize" dg0
  ∧ dict_get "imgCount" dg = Some (default (VInt 1) (dict_get "imgCount" dg0))
  ∧ dict_get "templateUuid" dv =
      Some (default (VStr "5d7e67009b344550bc1aa6ccbfa1d7f4")
                    (dict_get "templateUuid" d)).

(** The four template identifiers of the custom model. *)
Definition custom_template (is_f1 has_source : bool) : string :=
  if has_source then
    if is_f1 then "63b72710c9574457ba303d9d9b8df8bd"
    else "9c7d531dc75f476aa833b3d452b8f7ad"
  else
    if is_f1 then "6f7c4652458d4802969f8d089cf5b91f"
    else "e10adc3949ba59abbe56e057f20f883e".

(** [baseModelType] names the F.1 family. *)
Definition denotes_f1 (base : string) : bool :=
  String.eqb (lower base) "f.1" || String.eqb (lower base) "f1".

(** [validated.get("baseModelType", "")] is the string [base]. *)
Definition base_input (d : dict) (base : string) : Prop :=
  match dict_get "baseModelType" d with
  | None => base = ""
  | Some v => v = VStr base
  end.


(** ** Validation errors of both providers *)

Inductive provider := ProviderA | ProviderB.

Definition supported (pr : provider) (cfg : Config.Settings) : list string :=
  match pr with
  | ProviderA => Aliyun.supported_models cfg
  | ProviderB => Liblibai.supported_models cfg
  end.

Definition validate (pr : provider) (cfg : Config.Settings)
  : string → pyval → M pyval :=
  match pr with
  | ProviderA => Aliyun.validate_parameters cfg
  | ProviderB => Liblibai.validate_parameters cfg
  end.

(** The required keys, in the order the provider checks them. *)
Definition required_keys (pr : provider) (model : string) : list string :=
  match pr with
  | ProviderA => ["prompt"]
  | ProviderB =>
      if String.eqb model "star-3-alpha-t2i" then ["prompt"]
      else if String.eqb model "star-3-alpha-i2i" then ["prompt"; "sourceImage"]
      else if String.eqb model "liblib-custom" then ["checkPointId"; "prompt"]
      else []
  end.

Definition missing_message (pr : provider) (model k : string) : string :=
  "Parameter '" +:+ k +:+ "' is required" +:+
  match pr with
  | ProviderA => ""
  | ProviderB =>
      if String.eqb model "star-3-alpha-t2i" then
        " for Star-3 Alpha text-to-image"
      else if String.eqb model "star-3-alpha-i2i" then
        " for Star-3 Alpha image-to-image"
      else " for LiblibAI custom model"
  end.

Definition unsupported_message (model : string) (models : list string)
  : string :=
  "Model '" +:+ model +:+ "' not supported. Supported models: " +:+
  join ", " models.

(** The first required key the mapping lacks. *)
Definition first_missing (keys : list string) (d : dict) : option string :=
  List.find (λ k, negb (dict_has k d)) keys.

(** ** The signer of provider B *)

(** The signature in the words of the specification: the keyed MAC of
    [resourcePath & "&" & timestampMillis & "&" & nonce] under the secret,
    URL-safe base64, trailing padding stripped. *)
Definition spec_signature (secret resourcePath timestampMillis nonce : string)
  : string :=
  Base64.rstrip_eq
    (Base64.urlsafe_b64encode
       (Hmac.hmac_sha1 (encode secret)
          (encode (resourcePath +:+ "&" +:+ timestampMillis +:+ "&" +:+ nonce)))).

(** [s] ends with the character [c]. *)
Fixpoint ends_with (c : ascii) (s : string) : bool :=
  match s with
  | EmptyString => false
  | String x EmptyString => Ascii.eqb x c
  | String _ r => ends_with c r
  end.

(** [s] is made of padding characters only. *)
Fixpoint all_padding (s : string) : bool :=
  match s with
  | EmptyString => true
  | String c r => Ascii.eqb c "="%char && all_padding r
  end.

(** ** Counting status queries *)

Definition is_query (ev : event) : bool :=
  match ev with
  | EvGet _ | EvPost _ _ => true
  | _ => false
  end.

(** The number of requests to the vendor's API among [evs]. *)
Definition queries (evs : list event) : nat :=
  length (List.filter is_query evs).

(** [m] appends to the log, and at most [k] requests. *)
Definition at_most (k : nat) {A} (m : M A) : Prop :=
  ∀ w, ∃ evs, log (m w).1 = log w ++ evs ∧ (queries evs ≤ k)%nat.

(** ** Provider A: the polling loop *)

Inductive verdict := Pending | Succeeded | Failed.

(** The status the loop reads from a reply body, in a store [h]. *)
Definition aliyun_status_value (h : list obj) (task_status : pyval)
  : option pyval :=
  match task_status with
  | VRef a =>
      match h !! a with
      | Some (ODict d) =>
          let v := default (VStr "") (dict_get "task_status" d) in
          if negb (truthy h v) && dict_has "output" d then
            match dict_get "output" d with
            | Some (VRef o) =>
                match h !! o with
                | Some (ODict od) =>
                    Some (default (VStr "") (dict_get "task_status" od))
                | _ => None
                end
            | _ => None
            end
          else Some v
      | _ => None
      end
  | _ => None
  end.

(** The vendor's vocabulary, as the specification maps it onto the
    canonical states: [SUCCEEDED|COMPLETE|SUCCESS] is success,
    [FAILED|CANCELLED|ERROR] is failure, anything else is still running. *)
Definition aliyun_verdict (v : pyval) : verdict :=
  if in_strs v ["SUCCEEDED"; "COMPLETE"; "SUCCESS"] then Succeeded
  else if in_strs v ["FAILED"; "CANCELLED"; "ERROR"] then Failed
  else Pending.

Definition success_code (r : response) : bool :=
  (200 <=? status_code r) && (status_code r <? 300).

(** What a status query lets the loop observe: nothing when the request
    fails, the status is an error status, or the body cannot be read. *)
Definition aliyun_observed (h : list obj) (reply : option response)
  : option (pyval * verdict) :=
  match reply with
  | Some r =>
      if success_code r then
        match json_body r with
        | Some ts =>
            match aliyun_status_value h ts with
            | Some v => Some (ts, aliyun_verdict v)
            | None => None
            end
        | None => None
        end
      else None
  | None => None
  end.

Definition aliyun_cycle (task_id : pyval) : list event :=
  [EvSleep 15;
   EvGet [Lit "https://dashscope.aliyuncs.com/api/v1/tasks/"; Val task_id]].

(** [n] polling cycles. *)
Fixpoint aliyun_cycles (task_id : pyval) (n : nat) : list event :=
  match n with
  | O => []
  | S n' => aliyun_cycle task_id ++ aliyun_cycles task_id n'
  end.

Definition timeout_error (task_id : pyval) : exn :=
  ValueError [Lit "Task "; Val task_id;
              Lit " did not complete within expected time"].

(** What the loop raises for a task the vendor reports as failed: the
    error that carries the vendor's message or, when the message cannot be
    read from the body, the interpreter's exception. *)
Definition vendor_failure (e : exn) : Prop :=
  (∃ error_msg, e = ValueError [Lit "Task failed: "; Val error_msg])
  ∨ is_builtin e.

(** What the loop does once a terminal status is read, in the world [w]. *)
Definition aliyun_conclude cfg vendor env (ts vp : pyval) (vd : verdict)
  : M Aliyun.formatted_response :=
  match vd with
  | Succeeded =>
      Aliyun._format_response_and_download_images cfg vendor env ts vp
  | _ =>
      error_msg ← Aliyun.read_error ts;
      raise (ValueError [Lit "Task failed: "; Val error_msg])
  end.

(** ** Provider B: the polling loop *)

(** The signature drawn when the clock and random source stand at [t]. *)
Definition signature_at (cfg : Config.Settings) (env : Env) (uri : string)
    (t : nat) : Liblibai.signature_params :=
  let timestamp := pretty (time_ms env t) in
  let nonce := uuid_str (uuid4_hex env (S t)) in
  {| Liblibai.AccessKey := Config.LIBLIBAI_ACCESS_KEY cfg;
     Liblibai.Signature :=
       spec_signature (Config.LIBLIBAI_SECRET_KEY cfg) uri timestamp nonce;
     Liblibai.Timestamp := timestamp;
     Liblibai.SignatureNonce := nonce |}.

Definition keys_configured (cfg : Config.Settings) : bool :=
  negb (String.eqb (Config.LIBLIBAI_ACCESS_KEY cfg) "" ||
        String.eqb (Config.LIBLIBAI_SECRET_KEY cfg) "").

(** The task data and status the loop reads from a reply body; when the
    body has no ["data"] the status is the default 0. *)
Definition liblibai_status_value (h : list obj) (task_status : pyval)
  : option (pyval * pyval) :=
  match task_status with
  | VRef a =>
      match h !! a with
      | Some (ODict d) =>
          if eq_int (default VNone (dict_get "code" d)) 0 then
            match dict_get "data" d with
            | None => Some (VNone, VInt 0)
            | Some (VRef g) =>
                match h !! g with
                | Some (ODict dd) =>
                    Some (VRef g, default (VInt 0) (dict_get "generateStatus" dd))
                | _ => None
                end
            | Some _ => None
            end
          else None
      | _ => None
      end
  | _ => None
  end.

Definition liblibai_verdict (generate_status : pyval) : verdict :=
  if eq_int generate_status 5 then Succeeded
  else if eq_int generate_status 6 || eq_int generate_status 7 then Failed
  else Pending.

Definition liblibai_observed (h : list obj) (reply : option response)
  : option (pyval * verdict) :=
  match reply with
  | Some r =>
      if success_code r then
        match json_body r with
        | Some ts =>
            match liblibai_status_value h ts with
            | Some (task_data, v) => Some (task_data, liblibai_verdict v)
            | None => None
            end
        | None => None
        end
      else None
  | None => None
  end.

Definition liblibai_cycle cfg env (api_base_url : string)
    (generate_uuid : pyval) (t : nat) : list event :=
  [EvSleep 15;
   EvPost [Lit (Liblibai.signed_url api_base_url Liblibai.status_endpoint
                  (signature_at cfg env Liblibai.status_endpoint t))]
          [("generateUuid", BVal generate_uuid)]].

(** [n] polling cycles, the first signed at [t]. *)
Fixpoint liblibai_cycles cfg env (api_base_url : string)
    (generate_uuid : pyval) (t n : nat) : list event :=
  match n with
  | O => []
  | S n' =>
      liblibai_cycle cfg env api_base_url generate_uuid t ++
      liblibai_cycles cfg env api_base_url generate_uuid (S (S t)) n'
  end.

Definition liblibai_conclude vendor env base_dir (task_data vp : pyval)
    (vd : verdict) : M Liblibai.formatted_response :=
  match vd with
  | Succeeded =>
      Liblibai._format_response_and_download_images vendor env base_dir
        task_data vp
  | _ =>
      error_msg ← py_get task_data "generateMsg"
                         (VStr "Task failed or timed out");
      raise (ValueError [Lit "Task failed: "; Val error_msg])
  end.

(** ** Materializing the result *)












(** ** Vendors and stores of the examples *)

(** A vendor for the examples: every reply is the body at address 0, and
    only the download of the image at index 0 succeeds. *)
Definition example_vendor : Vendor := {|
  create_reply := None;
  status_reply := λ _, Some (Response 200 (Some (VRef 0%nat)) "");
  download_ok := λ i _, (i =? 0)%nat
|}.

Definition example_env : Env := {|
  time_ms := λ _, 1700000000000;
  uuid4_hex := λ _, "0123456789abcdef0123456789abcdef";
  strftime := λ _ fmt, if String.eqb fmt "%Y%m%d_%H%M%S"
                       then "20240101_000000" else "2024-01-01 00:00:00";
  makedirs_ok := λ _, true
|}.

(** A succeeded task of provider A with two images. *)
Definition example_success : world :=
  World [ODict [("request_id", VStr "r-1"); ("output", VRef 1%nat)];
         ODict [("task_status", VStr "SUCCEEDED"); ("results", VRef 2%nat)];
         OList [VRef 3%nat; VRef 4%nat];
         ODict [("url", VStr "http://img/1.png")];
         ODict [("url", VStr "http://img/2.png")];
         ODict [("prompt", VStr "x"); ("model", VStr "wanx2.1-t2i-turbo");
                ("size", VStr "1024*1024")]] [] 0.


(** A task of provider A that stays in progress. *)
Definition example_running : world :=
  World [ODict [("output", VRef 1%nat)];
         ODict [("task_status", VStr "RUNNING")]] [] 0.

(** A vendor of provider A whose task fails at the third query: the task
    is made, the first two status replies are the body at address 1 and the
    later ones the body at address 3. *)
Definition example_failing_vendor : Vendor := {|
  create_reply := Some (Response 200 (Some (VRef 1%nat)) "");
  status_reply := λ j,
    Some (Response 200 (Some (VRef (if (j <? 2)%nat then 1 else 3)%nat)) "");
  download_ok := λ _ _, true
|}.

(** The caller's mapping and the two bodies of the failing vendor. *)
Definition example_failing_job : world :=
  World [ODict [("prompt", VStr "a cat")];
         ODict [("output", VRef 2%nat)];
         ODict [("task_id", VStr "t-1"); ("task_status", VStr "RUNNING")];
         ODict [("output", VRef 4%nat)];
         ODict [("task_id", VStr "t-1"); ("task_status", VStr "FAILED");
                ("message", VStr "quota exceeded")]]
        [] 0.

(** ** Further descriptions: requests, replies and examples *)

(** ** Provider A: the request that creates the task *)

(** The [input] object of the request body, from the validated entries. *)
Definition aliyun_input (h : list obj) (dv : dict) : dict :=
  let neg := default VNone (dict_get "negative_prompt" dv) in
  let ref := default VNone (dict_get "ref_img" dv) in
  let input := [("prompt", default VNone (dict_get "prompt" dv))] in
  let input := if truthy h neg then dict_set "negative_prompt" neg input
               else input in
  if truthy h ref then dict_set "ref_image" ref input else input.

(** The first loop of [build_request_data]: the special parameters present. *)
Definition special_item (dv : dict) (ps : dict) (sp : string * string) : dict :=
  let '(param_name, api_param) := sp in
  match dict_get param_name dv with
  | Some v => dict_set api_param v ps
  | None => ps
  end.

Definition aliyun_request (h : list obj) (dv : dict) : Aliyun.request_data :=
  {| Aliyun.rq_model := default VNone (dict_get "model" dv);
     Aliyun.rq_input := aliyun_input h dv;
     Aliyun.rq_parameters :=
       fold_left forward_item dv
         (fold_left (special_item dv) Aliyun.special_params []) |}.

(** [api_url], with the fallback of [call_model]. *)
Definition aliyun_url (cfg : Config.Settings) : string :=
  if String.eqb (Config.ALIYUN_API_URL cfg) "" then
    "https://dashscope.aliyuncs.com/api/v1/services/aigc/text2image/image-synthesis"
  else Config.ALIYUN_API_URL cfg.

(** The task identifier [call_model] reads from the reply to the creation
    request, in the store [h]: [None] when the request fails, the status is
    an error status, the body is not a JSON object, or it carries no
    [output.task_id] that is true. *)
Definition aliyun_created (h : list obj) (reply : option response)
  : option pyval :=
  match reply with
  | Some r =>
      if success_code r then
        match json_body r with
        | Some (VRef a) =>
            match h !! a with
            | Some (ODict d) =>
                match dict_get "output" d with
                | Some (VRef o) =>
                    match h !! o with
                    | Some (ODict od) =>
                        match dict_get "task_id" od with
                        | Some v => if truthy h v then Some v else None
                        | None => None
                        end
                    | _ => None
                    end
                | _ => None
                end
            | _ => None
            end
        | _ => None
        end
      else None
  | None => None
  end.

(** A caller's mapping [d] that provider A accepts for [model]. *)
Definition aliyun_accepts (cfg : Config.Settings) (model : string) (d : dict)
  : bool :=
  existsb (String.eqb model) (Aliyun.supported_models cfg)
  && dict_has "prompt" d
  && coercible (dict_get "n" d) && coercible (dict_get "seed" d).

(** The store once the task is created: the validated copy and the empty
    dictionary made for [task_result.get("output", {})] are its newest
    objects. *)
Definition aliyun_store (model : string) (h : list obj) (d : dict) : list obj :=
  h ++ [ODict (AliyunNorm.norm model d).1; ODict []].

(** The request that creates the task. *)
Definition aliyun_post (cfg : Config.Settings) (model : string) (h : list obj)
    (d : dict) : event :=
  let dv := (AliyunNorm.norm model d).1 in
  EvPost [Lit (aliyun_url cfg)]
         (Aliyun.request_json (aliyun_request (h ++ [ODict dv]) dv)).

(** The message of a failed task, as [call_model] reads it from the status
    body [ts]: [output.message] first, then [message], then a fixed text.
    [None] where the body has another shape. *)
Definition aliyun_failure_message (h : list obj) (ts : pyval) : option pyval :=
  match ts with
  | VRef a =>
      match h !! a with
      | Some (ODict b) =>
          let top := default (VStr "Unknown error") (dict_get "message" b) in
          match dict_get "output" b with
          | None => Some top
          | Some (VRef o) =>
              match h !! o with
              | Some (ODict ob) => Some (default top (dict_get "message" ob))
              | _ => None
              end
          | Some _ => None
          end
      | _ => None
      end
  | _ => None
  end.

(** An exception other than the one [raise_for_status] raises. *)
Definition no_status (e : exn) : Prop := ∀ r, e ≠ Builtin (HTTPStatusError r).

(** ** Provider B: what validation leaves in the store *)

(** The entries validation leaves under [generateParams], from the caller's
    entries [d] and the entries [dg0] it finds there. *)
Definition liblibai_params (model : string) (d dg0 : dict) : dict :=
  let from k := default VNone (dict_get k d) in
  if String.eqb model "star-3-alpha-t2i" then
    setdefault "imgCount" (VInt 1)
      (aspect_default (setdefault "prompt" (from "prompt") dg0))
  else if String.eqb model "star-3-alpha-i2i" then
    setdefault "imgCount" (VInt 1)
      (setdefault "height" (VInt 1024)
         (setdefault "width" (VInt 768)
            (setdefault "sourceImage" (from "sourceImage")
               (setdefault "prompt" (from "prompt") dg0))))
  else if String.eqb model "liblib-custom" then
    setdefault "seed" (VInt (-1))
      (setdefault "imgCount" (VInt 1)
         (setdefault "height" (VInt 1024)
            (setdefault "width" (VInt 768)
               (setdefault "cfgScale" (VInt 7)
                  (setdefault "steps" (VInt 20)
                     (setdefault "sampler" (VInt 15)
                        (setdefault "prompt" (from "prompt")
                           (setdefault "checkPointId" (from "checkPointId")
                              dg0))))))))
  else dg0.

(** The template a model gets when the caller names none. *)
Definition liblibai_template (model : string) (dg0 : dict) (base : string)
  : string :=
  if String.eqb model "star-3-alpha-t2i" then "5d7e67009b344550bc1aa6ccbfa1d7f4"
  else if String.eqb model "star-3-alpha-i2i" then
    "07e00af4fc464c7ab55ff906f8acf1b7"
  else custom_template (denotes_f1 base) (dict_has "sourceImage" dg0).

(** The three models the provider has a branch for. *)
Definition liblibai_known (model : string) : bool :=
  existsb (String.eqb model)
    ["star-3-alpha-t2i"; "star-3-alpha-i2i"; "liblib-custom"].

(** From [w0] to [w] nothing was logged or drawn, and the objects of [w0]
    other than the one at [g] are as they were. *)
Definition gp_kept (w0 w : world) (g : addr) : Prop :=
  log w = log w0 ∧ tick w = tick w0
  ∧ ∀ x o, heap w0 !! x = Some o → x ≠ g → heap w !! x = Some o.

(** ** The configured model lists *)

(** A model name as it can be listed: neither its first nor its last
    character is white space, and it holds no comma. *)
Definition listable (name : string) : bool :=
  match chars name with
  | c :: _ => negb (is_space c.1)
  | [] => true
  end
  && match last (chars name) with
     | Some c => negb (is_space c.1)
     | None => true
     end
  && forallb (λ c, negb (Ascii.eqb c ","%char)) (String.list_ascii_of_string name).

(** ** Provider B: the request that creates the task *)

(** [api_base_url], with the fallback of [call_model]. *)
Definition liblibai_base (cfg : Config.Settings) : string :=
  if String.eqb (Config.LIBLIBAI_API_URL cfg) "" then
    "https://openapi.liblibai.cloud"
  else Config.LIBLIBAI_API_URL cfg.

(** The request that creates the task, signed when the clock and the random
    source stand at [t]. *)
Definition liblibai_post (cfg : Config.Settings) (env : Env)
    (endpoint : string) (t : nat) (template generate_params : pyval) : event :=
  EvPost [Lit (Liblibai.signed_url (liblibai_base cfg) endpoint
                 (signature_at cfg env endpoint t))]
         [("templateUuid", BVal template);
          ("generateParams", BVal generate_params)].

(** What [call_model] reads from the reply to the creation request, in the
    store [h] the reply is received in: the task identifier, or the reason
    it raises.  [Refused] is a body whose [code] is not 0, [Unnamed] one
    without a true [data.generateUuid]; [None] stands for the other
    failures.  The identifier is tested once the empty dictionary for
    [task_result.get("data", {})] is made. *)
Inductive creation :=
| Created (generate_uuid : pyval)
| Refused (error_msg : pyval)
| Unnamed (task_result : pyval).

Definition liblibai_created (h : list obj) (reply : option response)
  : option creation :=
  match reply with
  | Some r =>
      if success_code r then
        match json_body r with
        | Some (VRef a) =>
            match h !! a with
            | Some (ODict d) =>
                if eq_int (default VNone (dict_get "code" d)) 0 then
                  match dict_get "data" d with
                  | None => Some (Unnamed (VRef a))
                  | Some (VRef g) =>
                      match h !! g with
                      | Some (ODict dd) =>
                          let v := default VNone (dict_get "generateUuid" dd) in
                          Some (if truthy (h ++ [ODict []]) v then Created v
                                else Unnamed (VRef a))
                      | _ => None
                      end
                  | Some _ => None
                  end
                else Some (Refused (default (VStr "Unknown error")
                                            (dict_get "msg" d)))
            | _ => None
            end
        | _ => None
        end
      else None
  | None => None
  end.

(** ** A status query that fails *)

(** The exception of a status query that fails in transit or comes back
    with an error status; [None] for a query that is answered. *)
Definition query_failure (reply : option response) : option exn :=
  match reply with
  | None => Some (Builtin RequestError)
  | Some r =>
      if success_code r then None else Some (Builtin (HTTPStatusError r))
  end.

(** ** Decimal numerals *)




(** ** The download route: media types *)

(** The media types of the route, by lower-case extension. *)
Definition known_types : list (string * string) :=
  [(".png", "image/png"); (".jpg", "image/jpeg"); (".jpeg", "image/jpeg");
   (".gif", "image/gif"); (".webp", "image/webp"); (".svg", "image/svg+xml");
   (".bmp", "image/bmp")].

(** ** Settings, vendors and stores of the further examples *)

(** The default settings with credentials for both providers. *)
Definition example_settings : Config.Settings := {|
  Config.DATA_DIR := "/srv/data";
  Config.ALIYUN_SUPPORTED_MODELS :=
    "wanx2.1-t2i-turbo,wanx2.1-t2i-plus,wanx2.0-t2i-turbo";
  Config.LIBLIBAI_SUPPORTED_MODELS :=
    "star-3-alpha-t2i,star-3-alpha-i2i,liblib-custom";
  Config.ALIYUN_API_KEY := "sk-test";
  Config.ALIYUN_API_URL :=
    "https://dashscope.aliyuncs.com/api/v1/services/aigc/text2image/image-synthesis";
  Config.LIBLIBAI_ACCESS_KEY := "ak-test";
  Config.LIBLIBAI_SECRET_KEY := "sk-test";
  Config.LIBLIBAI_API_URL := "https://openapi.liblibai.cloud"
|}.

(** A vendor that answers the creation request with an error status, and
    no status query at all. *)
Definition example_refusing_vendor : Vendor := {|
  create_reply := Some (Response 401 None "denied");
  status_reply := λ _, None;
  download_ok := λ _ _, false
|}.

(** A vendor of provider A whose task never ends: every reply is the body
    at address 1. *)
Definition example_slow_vendor : Vendor := {|
  create_reply := Some (Response 200 (Some (VRef 1%nat)) "");
  status_reply := λ _, Some (Response 200 (Some (VRef 1%nat)) "");
  download_ok := λ _ _, true
|}.

(** The caller's mapping, and the body the slow vendor answers with. *)
Definition example_job : world :=
  World [ODict [("prompt", VStr "a cat")];
         ODict [("output", VRef 2%nat)];
         ODict [("task_id", VStr "t-1"); ("task_status", VStr "RUNNING")]]
        [] 0.

(** The same for provider B: the task is made and stays in progress. *)
Definition example_liblibai_job : world :=
  World [ODict [("prompt", VStr "a cat")];
         ODict [("code", VInt 0); ("data", VRef 2%nat)];
         ODict [("generateUuid", VStr "u-1"); ("generateStatus", VInt 2)]]
        [] 0.

(** A body by which the vendor of provider B refuses the request. *)
Definition example_liblibai_refusal : world :=
  World [ODict [("prompt", VStr "a cat")];
         ODict [("code", VInt 100021); ("msg", VStr "no points left")]]
        [] 0.

(* ================================================================== *)
(** * Theorems *)
(* ================================================================== *)

(** ** Dictionaries *)

Lemma dict_get_set k k' v d :
  dict_get k (dict_set k' v d) =
  if String.eqb k k' then Some v else dict_get k d.
Proof.
  induction d as [|[k0 v0] d IH]; simpl.
  - destruct (String.eqb k k'); reflexivity.
  - destruct (String.eqb k' k0) eqn:E0; simpl.
    + apply String.eqb_eq in E0; subst k0.
      destruct (String.eqb k k'); reflexivity.
    + destruct (String.eqb k k0) eqn:E1.
      * apply String.eqb_eq in E1; subst k0.
        rewrite String.eqb_sym, E0. reflexivity.
      * exact IH.
Qed.

Lemma dict_has_set k k' v d :
  dict_has k (dict_set k' v d) = String.eqb k k' || dict_has k d.
Proof.
  unfold dict_has. rewrite dict_get_set.
  destruct (String.eqb k k'); reflexivity.
Qed.

(** ** Running the primitives on a dictionary of the store *)

Section Run.
Context {A B : Type}.

Lemma bind_ok (m : M A) (f : A → M B) w w' a :
  m w = (w', Ok a) → bind m f w = f a w'.
Proof. unfold bind. intros ->. reflexivity. Qed.

Lemma bind_raise (m : M A) (f : A → M B) w w' e :
  m w = (w', Raise e) → bind m f w = (w', Raise e).
Proof. unfold bind. intros ->. reflexivity. Qed.

Lemma bind_cong (m m' : M A) (f : A → M B) w w' :
  m w = m' w' → bind m f w = bind m' f w'.
Proof. unfold bind. intros ->. reflexivity. Qed.

Lemma bind_assoc {C} (m : M A) (f : A → M B) (g : B → M C) w :
  bind (bind m f) g w = bind m (λ x, bind (f x) g) w.
Proof. unfold bind. destruct (m w) as [w' [a|e]]; reflexivity. Qed.

End Run.

Lemma contains_dict w a d k :
  heap w !! a = Some (ODict d) →
  py_contains k (VRef a) w = (w, Ok (dict_has k d)).
Proof. unfold py_contains. intros ->. reflexivity. Qed.

Lemma getitem_dict w a d k v :
  heap w !! a = Some (ODict d) → dict_get k d = Some v →
  py_getitem (VRef a) k w = (w, Ok v).
Proof. unfold py_getitem. intros -> ->. reflexivity. Qed.

Lemma setitem_dict w a d k v :
  heap w !! a = Some (ODict d) →
  py_setitem (VRef a) k v w =
  (set_heap (<[a := ODict (dict_set k v d)]> (heap w)) w, Ok tt).
Proof. unfold py_setitem. intros ->. reflexivity. Qed.

Lemma copy_obj w a o :
  heap w !! a = Some o →
  py_copy (VRef a) w = (set_heap (heap w ++ [o]) w, Ok (VRef (length (heap w)))).
Proof. unfold py_copy. intros ->. reflexivity. Qed.

(** The object at the top of the store. *)
Lemma lookup_top (h : list obj) o : (h ++ [o]) !! length h = Some o.
Proof. rewrite lookup_app_r by lia. rewrite Nat.sub_diag. reflexivity. Qed.

Lemma insert_top (h : list obj) o o' : <[length h := o']> (h ++ [o]) = h ++ [o'].
Proof.
  rewrite insert_app_r_alt by lia. rewrite Nat.sub_diag. reflexivity.
Qed.

Lemma contains_top h d l t k :
  py_contains k (VRef (length h)) (top h d l t) = (top h d l t, Ok (dict_has k d)).
Proof. apply contains_dict. apply lookup_top. Qed.

Lemma setitem_top h d l t k v :
  py_setitem (VRef (length h)) k v (top h d l t) = (top h (dict_set k v d) l t, Ok tt).
Proof.
  erewrite setitem_dict by apply lookup_top.
  unfold set_heap, top. simpl. rewrite insert_top. reflexivity.
Qed.

Lemma getitem_top h d l t k :
  py_getitem (VRef (length h)) k (top h d l t) =
  (top h d l t,
   match dict_get k d with Some v => Ok v | None => Raise (Builtin (KeyError k)) end).
Proof.
  unfold py_getitem, top. simpl. rewrite lookup_top. destruct (dict_get k d); reflexivity.
Qed.

Lemma setdefault_top {A} h d l t k v (rest : M A) :
  (has ← py_contains k (VRef (length h));
   when (negb has) (py_setitem (VRef (length h)) k v);; rest) (top h d l t)
  = rest (top h (setdefault k v d) l t).
Proof.
  erewrite bind_ok by apply contains_top.
  unfold setdefault. destruct (dict_has k d); simpl.
  - reflexivity.
  - erewrite bind_ok by apply setitem_top. reflexivity.
Qed.

Lemma setdefault_top_last h d l t k v :
  (has ← py_contains k (VRef (length h));
   when (negb has) (py_setitem (VRef (length h)) k v)) (top h d l t)
  = (top h (setdefault k v d) l t, Ok tt).
Proof.
  erewrite bind_ok by apply contains_top.
  unfold setdefault. destruct (dict_has k d); simpl.
  - reflexivity.
  - apply setitem_top.
Qed.

Lemma aliyun_validate_run cfg model p w d :
  heap w !! p = Some (ODict d) →
  existsb (String.eqb model) (Aliyun.supported_models cfg) = true →
  dict_has "prompt" d = true →
  Aliyun.validate_parameters cfg model (VRef p) w =
  (set_heap (heap w ++ [ODict (AliyunNorm.norm model d).1]) w,
   match (AliyunNorm.norm model d).2 with
   | Ok _ => Ok (VRef (length (heap w)))
   | Raise e => Raise e
   end).
Proof.
  intros Hp Hm Hprompt. unfold Aliyun.validate_parameters.
  rewrite Hm. cbn [negb].
  erewrite bind_ok by (eapply contains_dict; eassumption).
  rewrite Hprompt. cbn [negb].
  erewrite bind_ok by (eapply copy_obj; eassumption).
  destruct w as [h l t]. simpl heap. unfold set_heap. simpl.
  change (World (h ++ [ODict d]) l t) with (top h d l t).
  erewrite bind_ok by apply setitem_top.
  erewrite bind_ok by apply contains_top.
  unfold AliyunNorm.norm.
  set (d1 := dict_set "model" (VStr model) d).
  set (d2 := dict_set "size" _ d1).
  (* size *)
  erewrite (bind_ok _ _ _ (top h d2 l t) tt).
  2:{ subst d2. unfold dict_has. destruct (dict_get "size" d1) as [v|] eqn:E; simpl.
      - erewrite bind_ok by (rewrite getitem_top, E; reflexivity).
        apply setitem_top.
      - apply setitem_top. }
  (* n *)
  erewrite bind_ok by apply contains_top.
  unfold dict_has at 1. unfold AliyunNorm.norm. fold d1. fold d2.
  assert (Htail : ∀ d3,
    (has_neg ← py_contains "negative_prompt" (VRef (length h));
     when (negb has_neg)
       (py_setitem (VRef (length h)) "negative_prompt" (VStr ""));;
     has_style ← py_contains "style" (VRef (length h));
     when (negb has_style)
       (py_setitem (VRef (length h)) "style" (VStr "<auto>"));;
     has_ref ← py_contains "ref_img" (VRef (length h));
     when has_ref (
       has_strength ← py_contains "ref_strength" (VRef (length h));
       when (negb has_strength)
         (py_setitem (VRef (length h)) "ref_strength" (VFloat (FFinite 1 0)));;
       has_mode ← py_contains "ref_mode" (VRef (length h));
       when (negb has_mode)
         (py_setitem (VRef (length h)) "ref_mode" (VStr "repaint")));;
     has_seed ← py_contains "seed" (VRef (length h));
     when has_seed (
       v ← py_getitem (VRef (length h)) "seed";
       z ← lift (py_int v);
       py_setitem (VRef (length h)) "seed" (VInt z));;
     ret (VRef (length h))) (top h d3 l t)
    = let d4 := setdefault "negative_prompt" (VStr "") d3 in
      let d5 := setdefault "style" (VStr "<auto>") d4 in
      let d6 := if dict_has "ref_img" d5
                then setdefault "ref_mode" (VStr "repaint")
                       (setdefault "ref_strength" (VFloat (FFinite 1 0)) d5)
                else d5 in
      match dict_get "seed" d6 with
      | None => (top h d6 l t, Ok (VRef (length h)))
      | Some v =>
          match py_int v with
          | Ok s => (top h (dict_set "seed" (VInt s) d6) l t, Ok (VRef (length h)))
          | Raise e => (top h d6 l t, Raise e)
          end
      end).
  { intros d3. rewrite !setdefault_top. cbv zeta.
    set (d5 := setdefault "style" _ _).
    erewrite bind_ok by apply contains_top.
    set (d6 := if dict_has "ref_img" d5 then _ else _).
    erewrite (bind_ok _ _ _ (top h d6 l t) tt).
    2:{ subst d6. destruct (dict_has "ref_img" d5); [|reflexivity].
        unfold when at 1.
        rewrite setdefault_top.
        apply setdefault_top_last. }
    erewrite bind_ok by apply contains_top.
    unfold dict_has.
    destruct (dict_get "seed" d6) as [vs|] eqn:Es; [|reflexivity].
    unfold when. rewrite bind_assoc.
    erewrite bind_ok by (rewrite getitem_top, Es; reflexivity).
    rewrite bind_assoc. unfold lift.
    destruct (py_int vs) as [z|e].
    - erewrite bind_ok by reflexivity.
      erewrite bind_ok by apply setitem_top. reflexivity.
    - erewrite bind_raise by reflexivity. reflexivity. }
  destruct (dict_get "n" d2) as [vn|] eqn:En.
  - rewrite bind_assoc.
    erewrite bind_ok by (rewrite getitem_top, En; reflexivity).
    rewrite bind_assoc. unfold lift at 1.
    destruct (py_int vn) as [z|e].
    + erewrite bind_ok by reflexivity.
      erewrite bind_ok by apply setitem_top.
      rewrite Htail. cbv zeta. fold (AliyunNorm.clamp z).
      destruct (dict_get "seed" _) as [vs|]; [|reflexivity].
      destruct (py_int vs); reflexivity.
    + erewrite bind_raise by reflexivity. reflexivity.
  - erewrite bind_ok by apply setitem_top.
    rewrite Htail. cbv zeta.
    destruct (dict_get "seed" _) as [vs|]; [|reflexivity].
    destruct (py_int vs); reflexivity.
Qed.

(** ** Provider A: the dictionary returned by [validate_parameters] *)

Lemma dict_get_setdefault k k' v d :
  dict_get k (setdefault k' v d) =
  if String.eqb k k' then Some (default v (dict_get k d)) else dict_get k d.
Proof.
  unfold setdefault, dict_has.
  destruct (String.eqb k k') eqn:E.
  - apply String.eqb_eq in E; subst k'.
    destruct (dict_get k d) eqn:G; simpl.
    + exact G.
    + rewrite dict_get_set, String.eqb_refl. reflexivity.
  - destruct (dict_get k' d); [reflexivity|].
    rewrite dict_get_set, E. reflexivity.
Qed.

Lemma dict_has_setdefault k k' v d :
  dict_has k (setdefault k' v d) = String.eqb k k' || dict_has k d.
Proof.
  unfold dict_has at 1. rewrite dict_get_setdefault.
  unfold dict_has. destruct (String.eqb k k'); reflexivity.
Qed.

(** [int()] on strings, run: blanks and a sign around the digits, digits of
    other scripts, single underscores; the separators 28 to 31, which
    [strip()] removes, and a numeral of 4301 digits are refused. *)
Example int_of_string_examples :
  int_of_string " +42 " = Some 42
  ∧ int_of_string "1_000" = Some 1000
  ∧ int_of_string (utf8 0x663) = Some 3
  ∧ int_of_string (utf8 0x3000 +:+ "-" +:+ utf8 0xFF11 +:+ utf8 0x662) = Some (-12)
  ∧ int_of_string (utf8 31 +:+ "3" +:+ utf8 28) = None
  ∧ strip (utf8 31 +:+ "3" +:+ utf8 28) = "3"
  ∧ int_of_string "1__0" = None
  ∧ int_of_string "" = None
  ∧ int_of_string (String.string_of_list_ascii (repeat "1"%char 4300)) ≠ None
  ∧ int_of_string (String.string_of_list_ascii (repeat "1"%char 4301)) = None.
Proof.
  repeat (split; [vm_compute; reflexivity|]).
  split; [vm_compute; discriminate|vm_compute; reflexivity].
Qed.

Lemma py_int_builtin v e : py_int v = Raise e → ∃ b, e = Builtin b.
Proof.
  destruct v as [| b | z | f | s | a]; simpl; try (intros [= <-]; eauto); try discriminate.
  - destruct f; simpl; try discriminate; intros [= <-]; eauto.
  - destruct (int_of_string s); [discriminate|]. intros [= <-]; eauto.
Qed.

Ltac dict_simpl :=
  repeat first
    [ rewrite dict_get_set
    | rewrite dict_get_setdefault
    | rewrite dict_has_set
    | rewrite dict_has_setdefault ];
  cbn [String.eqb Ascii.eqb Bool.eqb orb andb].

Ltac norm_cases d :=
  unfold AliyunNorm.norm;
  repeat match goal with
  | |- context [match dict_get ?k ?x with _ => _ end] =>
      let E := fresh "E" in destruct (dict_get k x) eqn:E
  | |- context [match py_int ?v with _ => _ end] =>
      let E := fresh "E" in destruct (py_int v) eqn:E
  | |- context [if dict_has ?k ?x then _ else _] =>
      let E := fresh "E" in destruct (dict_has k x) eqn:E
  end; cbn [fst snd].

Ltac split_keys H :=
  unfold Aliyun.str_in, aliyun_recognized in H; cbn [existsb] in H;
  repeat (apply orb_false_elim in H; destruct H as [? H]).

Ltac use_keys :=
  repeat match goal with
  | H : String.eqb _ _ = false |- _ => rewrite H; clear H
  end.

(** A key the provider does not know keeps its value. *)
Lemma norm_other model d k :
  Aliyun.str_in k aliyun_recognized = false →
  dict_get k (AliyunNorm.norm model d).1 = dict_get k d.
Proof.
  intros H. split_keys H.
  norm_cases d; dict_simpl; use_keys; reflexivity.
Qed.

Lemma dict_set_keys k v d :
  map fst (dict_set k v d) =
  if dict_has k d then map fst d else map fst d ++ [k].
Proof.
  unfold dict_has. induction d as [|[k0 v0] d IH]; simpl; [reflexivity|].
  destruct (String.eqb k k0) eqn:E; simpl.
  - apply String.eqb_eq in E; subst. reflexivity.
  - rewrite IH. destruct (dict_get k d); reflexivity.
Qed.

Lemma dict_has_elem_of k d : dict_has k d = true ↔ k ∈ map fst d.
Proof.
  unfold dict_has. induction d as [|[k0 v0] d IH]; simpl.
  - split; [discriminate|]. intros H. inversion H.
  - destruct (String.eqb k k0) eqn:E.
    + apply String.eqb_eq in E; subst. split; [constructor|reflexivity].
    + apply String.eqb_neq in E. rewrite IH. split.
      * intros H. now constructor.
      * intros H. inversion H; subst; [congruence|assumption].
Qed.

Lemma dict_set_nodup k v d : NoDup (map fst d) → NoDup (map fst (dict_set k v d)).
Proof.
  intros H. rewrite dict_set_keys.
  destruct (dict_has k d) eqn:E; [exact H|].
  apply NoDup_app. split; [exact H|]. split.
  - intros x Hx Hx'. apply list_elem_of_singleton in Hx'; subst x.
    apply dict_has_elem_of in Hx. congruence.
  - apply NoDup_singleton.
Qed.

Lemma setdefault_nodup k v d :
  NoDup (map fst d) → NoDup (map fst (setdefault k v d)).
Proof.
  intros H. unfold setdefault. destruct (dict_has k d); [exact H|].
  now apply dict_set_nodup.
Qed.

Lemma norm_nodup model d :
  NoDup (map fst d) → NoDup (map fst (AliyunNorm.norm model d).1).
Proof.
  intros H. norm_cases d;
    repeat first [apply dict_set_nodup | apply setdefault_nodup]; exact H.
Qed.

(** Errors of [norm] are those of [int()]. *)
Lemma norm_raise model d e :
  (AliyunNorm.norm model d).2 = Raise e → ∃ b, e = Builtin b.
Proof.
  norm_cases d; try discriminate; intros [= <-]; eapply py_int_builtin; eassumption.
Qed.

Lemma norm_ok model d :
  coercible (dict_get "n" d) = true →
  coercible (dict_get "seed" d) = true →
  (AliyunNorm.norm model d).2 = Ok tt.
Proof.
  unfold coercible. intros Hn Hs.
  assert (Hn' : ∀ d', dict_get "n" (dict_set "size" d' (dict_set "model" (VStr model) d)) = dict_get "n" d).
  { intros. dict_simpl. reflexivity. }
  unfold AliyunNorm.norm. rewrite Hn'.
  destruct (dict_get "n" d) as [vn|].
  - destruct (py_int vn); [|discriminate].
    match goal with |- context [dict_get "seed" ?x] =>
      assert (Hs' : dict_get "seed" x = dict_get "seed" d) end.
    { destruct (dict_has "ref_img" _); dict_simpl; reflexivity. }
    rewrite Hs'. destruct (dict_get "seed" d) as [vs|]; [|reflexivity].
    destruct (py_int vs); [reflexivity|discriminate].
  - match goal with |- context [dict_get "seed" ?x] =>
      assert (Hs' : dict_get "seed" x = dict_get "seed" d) end.
    { destruct (dict_has "ref_img" _); dict_simpl; reflexivity. }
    rewrite Hs'. destruct (dict_get "seed" d) as [vs|]; [|reflexivity].
    destruct (py_int vs); [reflexivity|discriminate].
Qed.

Lemma norm_defaults model d :
  coercible (dict_get "n" d) = true →
  coercible (dict_get "seed" d) = true →
  aliyun_defaults_hold model d (AliyunNorm.norm model d).1.
Proof.
  unfold coercible. intros Hn Hs.
  assert (Hn' : ∀ d', dict_get "n" (dict_set "size" d' (dict_set "model" (VStr model) d)) = dict_get "n" d).
  { intros. dict_simpl. reflexivity. }
  unfold AliyunNorm.norm, AliyunNorm.clamp. rewrite Hn'.
  destruct (dict_get "n" d) as [vn|] eqn:En;
    [destruct (py_int vn) as [z|] eqn:Ez; [|discriminate]|];
    (match goal with |- context [dict_has "ref_img" ?x] =>
       assert (Href : dict_has "ref_img" x = dict_has "ref_img" d)
         by (dict_simpl; reflexivity) end;
     rewrite Href;
     destruct (dict_has "ref_img" d) eqn:Eref;
     (match goal with |- context [dict_get "seed" ?x] =>
        assert (Hs' : dict_get "seed" x = dict_get "seed" d)
          by (dict_simpl; reflexivity) end;
      rewrite Hs';
      destruct (dict_get "seed" d) as [vs|] eqn:Es;
        [destruct (py_int vs) as [zs|] eqn:Ezs; [|discriminate]|];
      cbn [fst]; unfold aliyun_defaults_hold;
      rewrite ?En, ?Ez, ?Es, ?Ezs, ?Eref;
      repeat split; dict_simpl; rewrite ?En, ?Ez, ?Es, ?Ezs, ?Eref;
      reflexivity)).
Qed.

(** ** Provider A: claims on [validate_parameters] *)

Lemma aliyun_validate_cases cfg model p w d :
  heap w !! p = Some (ODict d) →
  let r := Aliyun.validate_parameters cfg model (VRef p) w in
  (existsb (String.eqb model) (Aliyun.supported_models cfg) = false ∧
   r = (w, Raise (ValueError
          [Lit ("Model '" +:+ model +:+ "' not supported. Supported models: "
                +:+ join ", " (Aliyun.supported_models cfg))])))
  ∨ (existsb (String.eqb model) (Aliyun.supported_models cfg) = true ∧
     dict_has "prompt" d = false ∧
     r = (w, Raise (ValueError [Lit "Parameter 'prompt' is required"])))
  ∨ (existsb (String.eqb model) (Aliyun.supported_models cfg) = true ∧
     dict_has "prompt" d = true ∧
     r = (set_heap (heap w ++ [ODict (AliyunNorm.norm model d).1]) w,
          match (AliyunNorm.norm model d).2 with
          | Ok _ => Ok (VRef (length (heap w)))
          | Raise e => Raise e
          end)).
Proof.
  intros Hp r. subst r.
  destruct (existsb (String.eqb model) (Aliyun.supported_models cfg)) eqn:Hm.
  - destruct (dict_has "prompt" d) eqn:Hpr.
    + right; right. repeat split. now apply aliyun_validate_run.
    + right; left. repeat split.
      unfold Aliyun.validate_parameters. rewrite Hm. cbn [negb].
      erewrite bind_ok by (eapply contains_dict; eassumption).
      rewrite Hpr. reflexivity.
  - left. split; [reflexivity|].
    unfold Aliyun.validate_parameters. rewrite Hm. reflexivity.
Qed.

(** C10. Provider A's [validate_parameters] works on a fresh top-level copy:
    whether it returns or raises, every object of the store it was called
    in, the caller's mapping among them, is afterwards what it was before,
    and a returned dictionary is a new object. *)
Theorem aliyun_validate_keeps_caller_mapping cfg model p w d :
  heap w !! p = Some (ODict d) →
  let '(w', r) := Aliyun.validate_parameters cfg model (VRef p) w in
  heap w' !! p = Some (ODict d)
  ∧ (∀ a o, heap w !! a = Some o → heap w' !! a = Some o)
  ∧ log w' = log w
  ∧ (∀ v, r = Ok v → v = VRef (length (heap w)) ∧ heap w !! length (heap w) = None).
Proof.
  intros Hp.
  destruct (aliyun_validate_cases cfg model p w d Hp)
    as [[_ ->] | [(_ & _ & ->) | (_ & _ & ->)]].
  - repeat split; try assumption; try discriminate. auto.
  - repeat split; try assumption; try discriminate. auto.
  - assert (Hext : ∀ a o, heap w !! a = Some o →
                     (heap w ++ [ODict (AliyunNorm.norm model d).1]) !! a = Some o).
    { intros a o Ha. now apply lookup_app_l_Some. }
    split; [|split; [|split]].
    + simpl. now apply Hext.
    + exact Hext.
    + reflexivity.
    + intros v Hv. destruct (AliyunNorm.norm model d).2; [|discriminate].
      injection Hv as <-. split; [reflexivity|].
      apply lookup_ge_None. lia.
Qed.

Lemma aliyun_validate_keeps_caller_mapping_witness :
  let w := World [ODict [("prompt", VStr "x"); ("n", VInt 9)]] [] 0 in
  let d := [("prompt", VStr "x"); ("n", VInt 9)] in
  heap w !! 0%nat = Some (ODict d)
  ∧ let '(w', r) := Aliyun.validate_parameters (Config.defaults "/srv/data")
                      "wanx2.1-t2i-turbo" (VRef 0%nat) w in
    heap w' !! 0%nat = Some (ODict d)
    ∧ (∀ a o, heap w !! a = Some o → heap w' !! a = Some o)
    ∧ log w' = log w
    ∧ (∀ v, r = Ok v → v = VRef (length (heap w)) ∧ heap w !! length (heap w) = None).
Proof.
  intros w d. split; [reflexivity|].
  apply (aliyun_validate_keeps_caller_mapping (Config.defaults "/srv/data")
           "wanx2.1-t2i-turbo" 0%nat w d).
  reflexivity.
Defined.

(** C4, as amended.  For a supported model and a mapping that holds
    [prompt], whose [n] and [seed] (when supplied) [int()] accepts, provider
    A's [validate_parameters] returns a new dictionary in which: [size] is
    the caller's or ["1024*1024"]; [n] is 1 when absent and otherwise
    [int(n)] clamped into [1, 4]; [negative_prompt] is the caller's or [""];
    [style] is the caller's or ["<auto>"]; [seed], when present, is
    [int(seed)]; and [ref_strength = 1.0], [ref_mode = "repaint"] are
    filled in only when [ref_img] is supplied. *)
Theorem aliyun_validate_defaults cfg model p w d :
  heap w !! p = Some (ODict d) →
  existsb (String.eqb model) (Aliyun.supported_models cfg) = true →
  dict_has "prompt" d = true →
  coercible (dict_get "n" d) = true →
  coercible (dict_get "seed" d) = true →
  ∃ d',
    Aliyun.validate_parameters cfg model (VRef p) w =
      (set_heap (heap w ++ [ODict d']) w, Ok (VRef (length (heap w))))
    ∧ aliyun_defaults_hold model d d'
    ∧ (∃ n, dict_get "n" d' = Some (VInt n) ∧ 1 ≤ n ≤ 4).
Proof.
  intros Hp Hm Hpr Hn Hs.
  exists (AliyunNorm.norm model d).1. split; [|split].
  - rewrite (aliyun_validate_run cfg model p w d Hp Hm Hpr).
    rewrite (norm_ok model d Hn Hs). reflexivity.
  - now apply norm_defaults.
  - destruct (norm_defaults model d Hn Hs) as (_ & _ & _ & H & _).
    eexists. split; [exact H|].
    destruct (dict_get "n" d) as [v|]; [|lia].
    destruct (py_int v); lia.
Qed.

Lemma aliyun_validate_defaults_witness :
  let w := World [ODict [("prompt", VStr "x"); ("n", VInt 9)]] [] 0 in
  let d := [("prompt", VStr "x"); ("n", VInt 9)] in
  let cfg := Config.defaults "/srv/data" in
  heap w !! 0%nat = Some (ODict d)
  ∧ existsb (String.eqb "wanx2.1-t2i-turbo") (Aliyun.supported_models cfg) = true
  ∧ dict_has "prompt" d = true
  ∧ coercible (dict_get "n" d) = true
  ∧ coercible (dict_get "seed" d) = true
  ∧ ∃ d',
      Aliyun.validate_parameters cfg "wanx2.1-t2i-turbo" (VRef 0%nat) w =
        (set_heap (heap w ++ [ODict d']) w, Ok (VRef (length (heap w))))
      ∧ aliyun_defaults_hold "wanx2.1-t2i-turbo" d d'
      ∧ (∃ n, dict_get "n" d' = Some (VInt n) ∧ 1 ≤ n ≤ 4).
Proof.
  intros w d cfg. repeat (split; [reflexivity|]).
  apply (aliyun_validate_defaults cfg "wanx2.1-t2i-turbo" 0%nat w d);
    reflexivity.
Defined.

(** The scenario of the specification: [n = 9] is clamped to 4. *)
Example aliyun_n_9_clamped :
  aliyun_entry (Config.defaults "/srv/data") "wanx2.1-t2i-turbo"
    [("prompt", VStr "x"); ("n", VInt 9)] "n" = Some (VInt 4).
Proof. reflexivity. Qed.

(** The count given in the digits of another script is read as [int()]
    reads it; one that [int()] refuses makes validation raise. *)
Example aliyun_n_as_int_reads_it :
  aliyun_entry (Config.defaults "/srv/data") "wanx2.1-t2i-turbo"
    [("prompt", VStr "x"); ("n", VStr (utf8 0x663))] "n" = Some (VInt 3)
  ∧ (Aliyun.validate_parameters (Config.defaults "/srv/data")
       "wanx2.1-t2i-turbo" (VRef 0%nat)
       (World [ODict [("prompt", VStr "x");
                      ("n", VStr (utf8 31 +:+ "3" +:+ utf8 28))]] [] 0)).2
    = Raise (Builtin IntValueError).
Proof. split; vm_compute; reflexivity. Qed.

(** C4 as stated fails on [style]: the default is ["<auto>"], with its
    angle brackets, not ["auto"]. *)
Lemma aliyun_style_default_is_not_auto :
  aliyun_entry (Config.defaults "/srv/data") "wanx2.1-t2i-turbo"
    [("prompt", VStr "x")] "style" = Some (VStr "<auto>")
  ∧ aliyun_entry (Config.defaults "/srv/data") "wanx2.1-t2i-turbo"
    [("prompt", VStr "x")] "style" ≠ Some (VStr "auto").
Proof. split; [reflexivity|]. vm_compute. discriminate. Qed.

(** ** Provider A: the request body *)

Lemma get_dict w a d k dflt :
  heap w !! a = Some (ODict d) →
  py_get (VRef a) k dflt w = (w, Ok (default dflt (dict_get k d))).
Proof. unfold py_get. intros ->. destruct (dict_get k d); reflexivity. Qed.

Lemma items_dict w a d :
  heap w !! a = Some (ODict d) → py_items (VRef a) w = (w, Ok d).
Proof. unfold py_items. intros ->. reflexivity. Qed.

Lemma forward_absent k items ps :
  k ∉ map fst items →
  dict_get k (fold_left forward_item items ps) = dict_get k ps.
Proof.
  revert ps. induction items as [|[k0 v0] items IH]; intros ps Hk; [reflexivity|].
  simpl in Hk. apply not_elem_of_cons in Hk as [Hne Hk].
  simpl. rewrite IH by assumption.
  destruct (_ && _); [|reflexivity].
  rewrite dict_get_set. apply String.eqb_neq in Hne. rewrite Hne. reflexivity.
Qed.

Lemma forward_present k x items ps :
  NoDup (map fst items) →
  dict_get k items = Some x →
  Aliyun.str_in k aliyun_recognized = false →
  dict_get k (fold_left forward_item items ps) = Some x.
Proof.
  intros Hnd Hget Hk. revert ps Hnd Hget.
  induction items as [|[k0 v0] items IH]; intros ps Hnd Hget; [discriminate|].
  simpl in Hnd. apply NoDup_cons in Hnd as [Hnotin Hnd].
  simpl in Hget. destruct (String.eqb k k0) eqn:E.
  - apply String.eqb_eq in E; subst k0. injection Hget as ->.
    cbn [fold_left]. rewrite forward_absent by assumption.
    unfold forward_item.
    assert (Hkeep : negb (Aliyun.str_in k Aliyun.exclude_keys) &&
                    negb (Aliyun.str_in k (map fst Aliyun.special_params)) = true).
    { split_keys Hk. unfold Aliyun.str_in, Aliyun.exclude_keys. cbn [existsb map fst Aliyun.special_params].
      use_keys. reflexivity. }
    rewrite Hkeep. rewrite dict_get_set, String.eqb_refl. reflexivity.
  - cbn [fold_left]. apply IH; assumption.
Qed.

Lemma build_request_data_run w a d m pr :
  heap w !! a = Some (ODict d) →
  dict_get "model" d = Some m →
  dict_get "prompt" d = Some pr →
  ∃ input special,
    Aliyun.build_request_data (VRef a) w =
    (w, Ok {| Aliyun.rq_model := m; Aliyun.rq_input := input;
              Aliyun.rq_parameters := fold_left forward_item d special |}).
Proof.
  intros Ha Hm Hpr. unfold Aliyun.build_request_data.
  erewrite bind_ok by (eapply getitem_dict; eassumption).
  erewrite bind_ok by (eapply getitem_dict; eassumption).
  erewrite bind_ok by (eapply get_dict; eassumption).
  erewrite bind_ok by reflexivity.
  set (input1 := if truthy _ _ then _ else _).
  assert (H1 : ∃ i1, input1 w = (w, Ok i1)).
  { subst input1. destruct (dict_get "negative_prompt" d) as [v|] eqn:E; simpl.
    - destruct (truthy (heap w) v); [|eexists; reflexivity].
      erewrite bind_ok by (eapply getitem_dict; eassumption). eexists; reflexivity.
    - eexists; reflexivity. }
  destruct H1 as [i1 H1]. erewrite bind_ok by exact H1.
  erewrite bind_ok by (eapply get_dict; eassumption).
  erewrite bind_ok by reflexivity.
  set (input2 := if truthy _ _ then _ else _).
  assert (H2 : ∃ i2, input2 w = (w, Ok i2)).
  { subst input2. destruct (dict_get "ref_img" d) as [v|] eqn:E; simpl.
    - destruct (truthy (heap w) v); [|eexists; reflexivity].
      erewrite bind_ok by (eapply getitem_dict; eassumption). eexists; reflexivity.
    - eexists; reflexivity. }
  destruct H2 as [i2 H2]. erewrite bind_ok by exact H2.
  erewrite bind_ok by (eapply items_dict; eassumption).
  eexists _, _. reflexivity.
Qed.

(** C5. For provider A, a key the caller supplies that is not one of
    [model], [prompt], [negative_prompt], [ref_img], [size], [n], [style],
    [seed], [ref_strength], [ref_mode] is still in the validated dictionary
    with its value, and is in the [parameters] object of the request body
    built from it, with that same value. *)
Theorem aliyun_unrecognized_key_forwarded cfg model p w d k x w' v :
  heap w !! p = Some (ODict d) →
  NoDup (map fst d) →
  Aliyun.str_in k aliyun_recognized = false →
  dict_get k d = Some x →
  Aliyun.validate_parameters cfg model (VRef p) w = (w', Ok v) →
  (∃ a d', v = VRef a ∧ heap w' !! a = Some (ODict d') ∧ dict_get k d' = Some x)
  ∧ ∃ request_data,
      Aliyun.build_request_data v w' = (w', Ok request_data)
      ∧ dict_get k (Aliyun.rq_parameters request_data) = Some x.
Proof.
  intros Hp Hnd Hk Hx Hrun.
  destruct (aliyun_validate_cases cfg model p w d Hp)
    as [[_ H] | [(_ & _ & H) | (_ & Hpr & H)]];
    cbv zeta in H; rewrite Hrun in H; try discriminate.
  injection H as Hw Hr.
  destruct (AliyunNorm.norm model d).2 eqn:Hn2; [|discriminate].
  injection Hr as ->. destruct a.
  set (d' := (AliyunNorm.norm model d).1) in *.
  assert (Hd' : heap w' !! length (heap w) = Some (ODict d')).
  { rewrite Hw. simpl. apply lookup_top. }
  assert (Hkd' : dict_get k d' = Some x).
  { subst d'. rewrite norm_other by assumption. exact Hx. }
  split; [eauto|].
  assert (Hmodel : dict_get "model" d' = Some (VStr model)).
  { subst d'. norm_cases d; dict_simpl; reflexivity. }
  assert (Hprompt : ∃ pr, dict_get "prompt" d' = Some pr).
  { unfold dict_has in Hpr. destruct (dict_get "prompt" d) as [pr|] eqn:E; [|discriminate].
    exists pr. subst d'. norm_cases d; dict_simpl; assumption. }
  destruct Hprompt as [pr Hprompt].
  destruct (build_request_data_run w' _ d' _ _ Hd' Hmodel Hprompt)
    as (input & special & Hb).
  eexists. split; [exact Hb|]. simpl.
  apply forward_present; try assumption.
  subst d'. now apply norm_nodup.
Qed.

(** ** Computations that make no request *)

Create HintDb quiet.

Section Respects.
Context {A B : Type} (E : exn → Prop).

Lemma respects_ret (a : A) : respects E (ret a).
Proof. intros w. split; [reflexivity|discriminate]. Qed.

Lemma respects_raise (e : exn) : E e → respects E (raise e : M A).
Proof. intros He w. split; [reflexivity|]. intros e' [= <-]. exact He. Qed.

Lemma respects_bind (m : M A) (f : A → M B) :
  respects E m → (∀ a, respects E (f a)) → respects E (bind m f).
Proof.
  intros Hm Hf w. unfold bind. specialize (Hm w).
  destruct (m w) as [w' [a|e]]; simpl in *.
  - destruct Hm as [Hl _]. destruct (Hf a w') as [Hl' He]. rewrite Hl', Hl. auto.
  - destruct Hm as [Hl He]. split; [exact Hl|]. intros e' [= <-]. now apply He.
Qed.

Lemma respects_if (b : bool) (m1 m2 : M A) :
  respects E m1 → respects E m2 → respects E (if b then m1 else m2).
Proof. destruct b; auto. Qed.

Lemma respects_weaken (E' : exn → Prop) (m : M A) :
  (∀ e, E' e → E e) → respects E' m → respects E m.
Proof. intros H Hm w. destruct (Hm w). split; auto. Qed.

End Respects.

Lemma respects_when E b m : respects E m → respects E (when b m).
Proof. intros H. unfold when. destruct b; [exact H|apply respects_ret]. Qed.

Ltac quiet_prim :=
  let w := fresh "w" in
  intros w; cbv beta delta [py_contains py_getitem py_setitem py_get py_copy
    py_items py_iter py_truthy alloc lift draw];
  repeat match goal with
  | |- context [match ?x with _ => _ end] => destruct x
  end; simpl; (split; [reflexivity|]);
  try discriminate; intros ? [= <-]; eexists; reflexivity.

Lemma quiet_contains k c : respects is_builtin (py_contains k c).
Proof. quiet_prim. Qed.
Lemma quiet_getitem c k : respects is_builtin (py_getitem c k).
Proof. quiet_prim. Qed.
Lemma quiet_setitem c k v : respects is_builtin (py_setitem c k v).
Proof. quiet_prim. Qed.
Lemma quiet_get c k v : respects is_builtin (py_get c k v).
Proof. quiet_prim. Qed.
Lemma quiet_copy c : respects is_builtin (py_copy c).
Proof. quiet_prim. Qed.
Lemma quiet_alloc o : respects is_builtin (alloc o).
Proof. quiet_prim. Qed.
Lemma quiet_truthy v : respects is_builtin (py_truthy v).
Proof. quiet_prim. Qed.
Lemma quiet_lower v : respects is_builtin (py_lower v).
Proof.
  destruct v; try (apply respects_raise; eexists; reflexivity).
  apply respects_ret.
Qed.
Lemma quiet_int v : respects is_builtin (lift (py_int v)).
Proof.
  intros w. split; [reflexivity|]. simpl. apply py_int_builtin.
Qed.

#[export] Hint Resolve respects_ret respects_bind respects_if respects_when
  quiet_contains quiet_getitem quiet_setitem quiet_get quiet_copy quiet_alloc
  quiet_truthy quiet_lower quiet_int : quiet.

Ltac quiet := repeat (first
  [ assumption
  | apply respects_ret | (apply respects_bind; [|intros ?])
  | apply respects_when
  | apply respects_if | apply quiet_contains | apply quiet_getitem
  | apply quiet_setitem | apply quiet_get | apply quiet_copy
  | apply quiet_alloc | apply quiet_truthy | apply quiet_lower
  | apply quiet_int ]).

(** ** Provider B: running [validate_parameters] *)

Lemma gp_state_update_g w a dv g dg dg' :
  gp_state w a dv g dg →
  gp_state (set_heap (<[g := ODict dg']> (heap w)) w) a dv g dg'.
Proof.
  intros (Hne & Ha & Hg & Hgp). repeat split; try assumption; simpl.
  - rewrite list_lookup_insert_ne by congruence. exact Ha.
  - apply list_lookup_insert_eq. eapply lookup_lt_Some; eassumption.
Qed.

Lemma gp_state_update_a w a dv g dg k v :
  gp_state w a dv g dg → String.eqb "generateParams" k = false →
  gp_state (set_heap (<[a := ODict (dict_set k v dv)]> (heap w)) w)
           a (dict_set k v dv) g dg.
Proof.
  intros (Hne & Ha & Hg & Hgp) Hk. repeat split; try assumption; simpl.
  - apply list_lookup_insert_eq. eapply lookup_lt_Some; eassumption.
  - rewrite list_lookup_insert_ne by congruence. exact Hg.
  - rewrite dict_get_set, Hk. exact Hgp.
Qed.

Lemma generateParams_run w a dv g dg :
  gp_state w a dv g dg → Liblibai.generateParams (VRef a) w = (w, Ok (VRef g)).
Proof.
  intros (_ & Ha & _ & Hgp). unfold Liblibai.generateParams.
  eapply getitem_dict; eassumption.
Qed.

Lemma default_param_run w a dv g dg k rhs v :
  gp_state w a dv g dg →
  (∀ w', gp_state w' a dv g dg → rhs w' = (w', Ok v)) →
  ∃ w1, Liblibai.default_param (VRef a) k rhs w = (w1, Ok tt)
        ∧ gp_state w1 a dv g (setdefault k v dg).
Proof.
  intros Hst Hrhs. unfold Liblibai.default_param.
  erewrite bind_ok by (eapply generateParams_run; eassumption).
  erewrite bind_ok by (eapply contains_dict; apply Hst).
  unfold setdefault. destruct (dict_has k dg); simpl.
  - eexists. split; [reflexivity|assumption].
  - erewrite bind_ok by (apply Hrhs; assumption).
    erewrite bind_ok by (eapply generateParams_run; eassumption).
    erewrite setitem_dict by apply Hst.
    eexists. split; [reflexivity|]. eapply gp_state_update_g; eassumption.
Qed.

Lemma default_template_run w a dv g dg rhs v :
  gp_state w a dv g dg →
  (dict_has "templateUuid" dv = false → rhs w = (w, Ok v)) →
  ∃ w1, Liblibai.default_template (VRef a) rhs w = (w1, Ok tt)
        ∧ gp_state w1 a (setdefault "templateUuid" v dv) g dg.
Proof.
  intros Hst Hrhs. unfold Liblibai.default_template.
  erewrite bind_ok by (eapply contains_dict; apply Hst).
  unfold setdefault. destruct (dict_has "templateUuid" dv); simpl.
  - eexists. split; [reflexivity|assumption].
  - erewrite bind_ok by (apply Hrhs; reflexivity).
    erewrite setitem_dict by apply Hst.
    eexists. split; [reflexivity|]. now apply gp_state_update_a.
Qed.

Lemma require_run w a d k msg :
  heap w !! a = Some (ODict d) →
  Liblibai.require (VRef a) k msg w =
  (w, if dict_has k d then Ok tt else Raise (ValueError [Lit msg])).
Proof.
  intros Ha. unfold Liblibai.require.
  erewrite bind_ok by (eapply contains_dict; eassumption).
  destruct (dict_has k d); reflexivity.
Qed.

(** The common opening: copy, [model], and [generateParams] made sure of. *)
Lemma ensure_generateParams_run h l t d dg :
  gp_input (World h l t) d dg →
  ∃ w1 g dv,
    Liblibai.ensure_generateParams (VRef (length h)) (top h d l t) = (w1, Ok tt)
    ∧ gp_state w1 (length h) dv g dg
    ∧ log w1 = l
    ∧ (∀ k, String.eqb k "generateParams" = false → dict_get k dv = dict_get k d).
Proof.
  unfold gp_input. intros Hin. unfold Liblibai.ensure_generateParams.
  erewrite bind_ok by apply contains_top.
  unfold dict_has. destruct (dict_get "generateParams" d) as [v|] eqn:E; simpl.
  - destruct Hin as (g & -> & Hg). simpl in Hg.
    exists (top h d l t), g, d. repeat split; try assumption.
    + apply lookup_lt_Some in Hg. lia.
    + apply lookup_top.
    + simpl. now apply lookup_app_l_Some.
  - subst dg. erewrite bind_ok by reflexivity.
    assert (Hlen : length (h ++ [ODict d]) = S (length h))
      by (rewrite length_app; simpl; lia).
    assert (Ha : ((h ++ [ODict d]) ++ [ODict []]) !! length h = Some (ODict d)).
    { rewrite lookup_app_l by lia. apply lookup_top. }
    erewrite setitem_dict by exact Ha.
    cbn [top heap set_heap log tick]. rewrite Hlen.
    exists (World (<[length h := ODict (dict_set "generateParams" (VRef (S (length h))) d)]>
                     ((h ++ [ODict d]) ++ [ODict []])) l t),
           (S (length h)),
           (dict_set "generateParams" (VRef (S (length h))) d).
    split; [reflexivity|].
    split; [|split; [reflexivity|]].
    split; [lia|]. cbn [heap]. split; [|split].
    + rewrite list_lookup_insert_eq; [reflexivity|].
      rewrite length_app. simpl. lia.
    + rewrite list_lookup_insert_ne by lia.
      rewrite <- Hlen. apply lookup_top.
    + rewrite dict_get_set. reflexivity.
    + intros k Hk. rewrite dict_get_set, Hk. reflexivity.
Qed.

Lemma gp_input_set_model w d dg model :
  gp_input w d dg → gp_input w (dict_set "model" (VStr model) d) dg.
Proof. unfold gp_input. rewrite dict_get_set. simpl. auto. Qed.

Lemma aspect_run {A} w a dv g dg (rest : M A) :
  gp_state w a dv g dg →
  ∃ w1,
    (g0 ← Liblibai.generateParams (VRef a);
     has_aspect ← py_contains "aspectRatio" g0;
     neither ← (if negb has_aspect then
                  g' ← Liblibai.generateParams (VRef a);
                  has_size ← py_contains "imageSize" g';
                  ret (negb has_size)
                else ret false);
     when neither (
       g' ← Liblibai.generateParams (VRef a);
       py_setitem g' "aspectRatio" (VStr "portrait"));;
     rest) w = rest w1
    ∧ gp_state w1 a dv g (aspect_default dg).
Proof.
  intros Hst. unfold aspect_default.
  erewrite bind_ok by (eapply generateParams_run; eassumption).
  erewrite bind_ok by (eapply contains_dict; apply Hst).
  destruct (dict_has "aspectRatio" dg); cbn [negb orb].
  - erewrite bind_ok by reflexivity. cbn [when].
    erewrite bind_ok by reflexivity. eauto.
  - rewrite bind_assoc.
    erewrite bind_ok by (eapply generateParams_run; eassumption).
    rewrite bind_assoc.
    erewrite bind_ok by (eapply contains_dict; apply Hst).
    erewrite bind_ok by reflexivity.
    destruct (dict_has "imageSize" dg); cbn [negb when].
    + erewrite bind_ok by reflexivity. eauto.
    + rewrite bind_assoc.
      erewrite bind_ok by (eapply generateParams_run; eassumption).
      erewrite bind_ok by (eapply setitem_dict; apply Hst).
      eexists. split; [reflexivity|]. eapply gp_state_update_g; eassumption.
Qed.

Ltac liblibai_open Hp Hm :=
  unfold Liblibai.validate_parameters; rewrite Hm; cbn [negb];
  erewrite bind_ok by (eapply copy_obj; exact Hp);
  match goal with
  | |- context [set_heap (heap ?w ++ [ODict ?d]) ?w] =>
      change (set_heap (heap w ++ [ODict d]) w)
        with (top (heap w) d (log w) (tick w))
  end;
  erewrite bind_ok by apply setitem_top.

(** C6. For provider B and the model [star-3-alpha-t2i], on a mapping that
    holds [prompt] and whose [generateParams] is absent or a dictionary,
    validation returns a dictionary whose [generateParams] holds the prompt
    (["a cat"] for [{prompt: "a cat"}]), [imgCount = 1] unless supplied,
    [aspectRatio = "portrait"] exactly when neither [aspectRatio] nor
    [imageSize] was there already, and whose [templateUuid] is
    ["5d7e67009b344550bc1aa6ccbfa1d7f4"] unless supplied. *)
Theorem liblibai_t2i_normalized cfg p w d dg0 :
  heap w !! p = Some (ODict d) →
  existsb (String.eqb "star-3-alpha-t2i") (Liblibai.supported_models cfg) = true →
  dict_has "prompt" d = true →
  gp_input w d dg0 →
  ∃ w' a g dv dg,
    Liblibai.validate_parameters cfg "star-3-alpha-t2i" (VRef p) w
      = (w', Ok (VRef a))
    ∧ heap w' !! a = Some (ODict dv)
    ∧ dict_get "generateParams" dv = Some (VRef g)
    ∧ heap w' !! g = Some (ODict dg)
    ∧ t2i_normalized d dg0 dv dg.
Proof.
  intros Hp Hm Hpr Hin.
  liblibai_open Hp Hm.
  set (d1 := dict_set "model" _ d).
  cbn [String.eqb Ascii.eqb Bool.eqb andb].
  assert (Hpr1 : dict_has "prompt" d1 = true).
  { subst d1. rewrite dict_has_set. simpl. exact Hpr. }
  rewrite bind_assoc.
  erewrite bind_ok
    by (rewrite require_run with (d := d1) by apply lookup_top;
        rewrite Hpr1; reflexivity).
  destruct (ensure_generateParams_run (heap w) (log w) (tick w) d1 dg0)
    as (w1 & g & dv & Hrun & Hst & _ & Hdv).
  { apply gp_input_set_model. destruct w; exact Hin. }
  rewrite bind_assoc. erewrite bind_ok by exact Hrun.
  unfold dict_has in Hpr. destruct (dict_get "prompt" d) as [vp|] eqn:Evp; [|discriminate].
  assert (Hvp : dict_get "prompt" dv = Some vp).
  { rewrite Hdv by reflexivity. subst d1. rewrite dict_get_set. simpl. exact Evp. }
  destruct (default_param_run w1 _ dv g dg0 "prompt"
              (py_getitem (VRef (length (heap w))) "prompt") vp Hst)
    as (w2 & Hrun2 & Hst2).
  { intros w' Hw'. eapply getitem_dict; [apply Hw'|exact Hvp]. }
  rewrite bind_assoc. erewrite bind_ok by exact Hrun2.
  destruct (aspect_run w2 _ dv g _
    (Liblibai.default_param (VRef (length (heap w))) "imgCount" (ret (VInt 1));;
     Liblibai.default_template (VRef (length (heap w)))
       (ret (VStr "5d7e67009b344550bc1aa6ccbfa1d7f4"))) Hst2) as (w3 & Hrun3 & Hst3).
  rewrite (bind_cong _ _ _ _ _ Hrun3).
  destruct (default_param_run w3 _ dv g _ "imgCount" (ret (VInt 1)) (VInt 1) Hst3)
    as (w4 & Hrun4 & Hst4); [reflexivity|].
  rewrite bind_assoc. erewrite bind_ok by exact Hrun4.
  destruct (default_template_run w4 _ dv g _
              (ret (VStr "5d7e67009b344550bc1aa6ccbfa1d7f4"))
              (VStr "5d7e67009b344550bc1aa6ccbfa1d7f4") Hst4)
    as (w5 & Hrun5 & Hst5); [reflexivity|].
  erewrite bind_ok by exact Hrun5.
  destruct Hst5 as (_ & Ha5 & Hg5 & Hgp5).
  eexists _, _, _, _, _. split; [reflexivity|].
  split; [exact Ha5|]. split; [exact Hgp5|]. split; [exact Hg5|].
  unfold t2i_normalized, aspect_default. rewrite Evp. cbn [default].
  assert (Ht : dict_get "templateUuid" dv = dict_get "templateUuid" d).
  { rewrite Hdv by reflexivity. subst d1. rewrite dict_get_set. reflexivity. }
  repeat split.
  - destruct (_ || _); dict_simpl; reflexivity.
  - rewrite !dict_has_setdefault. cbn [String.eqb Ascii.eqb Bool.eqb orb].
    destruct (_ || _); dict_simpl; reflexivity.
  - destruct (_ || _); dict_simpl; reflexivity.
  - destruct (_ || _); dict_simpl; reflexivity.
  - dict_simpl. rewrite Ht. reflexivity.
Qed.

Lemma liblibai_t2i_normalized_witness :
  let w := World [ODict [("prompt", VStr "a cat")]] [] 0 in
  let d := [("prompt", VStr "a cat")] in
  let cfg := Config.defaults "/srv/data" in
  heap w !! 0%nat = Some (ODict d)
  ∧ existsb (String.eqb "star-3-alpha-t2i") (Liblibai.supported_models cfg) = true
  ∧ dict_has "prompt" d = true
  ∧ gp_input w d []
  ∧ ∃ w' a g dv dg,
      Liblibai.validate_parameters cfg "star-3-alpha-t2i" (VRef 0%nat) w
        = (w', Ok (VRef a))
      ∧ heap w' !! a = Some (ODict dv)
      ∧ dict_get "generateParams" dv = Some (VRef g)
      ∧ heap w' !! g = Some (ODict dg)
      ∧ t2i_normalized d [] dv dg.
Proof.
  intros w d cfg. repeat (split; [reflexivity|]).
  apply (liblibai_t2i_normalized cfg 0%nat w d []); reflexivity.
Defined.

(** The scenario of the specification, run. *)
Example liblibai_t2i_scenario :
  Liblibai.validate_parameters (Config.defaults "/srv/data")
    "star-3-alpha-t2i" (VRef 0%nat)
    (World [ODict [("prompt", VStr "a cat")]] [] 0)
  = (World [ODict [("prompt", VStr "a cat")];
            ODict [("prompt", VStr "a cat");
                   ("model", VStr "star-3-alpha-t2i");
                   ("generateParams", VRef 2%nat);
                   ("templateUuid", VStr "5d7e67009b344550bc1aa6ccbfa1d7f4")];
            ODict [("prompt", VStr "a cat");
                   ("aspectRatio", VStr "portrait");
                   ("imgCount", VInt 1)]] [] 0,
     Ok (VRef 1%nat)).
Proof. reflexivity. Qed.

(** Unlike provider A, provider B writes into the caller's own
    [generateParams]: the copy is shallow. *)
Example liblibai_writes_callers_generateParams :
  heap (Liblibai.validate_parameters (Config.defaults "/srv/data")
          "star-3-alpha-t2i" (VRef 1%nat)
          (World [ODict [("imageSize", VStr "big")];
                  ODict [("prompt", VStr "a cat");
                         ("generateParams", VRef 0%nat)]] [] 0)).1 !! 0%nat
  = Some (ODict [("imageSize", VStr "big"); ("prompt", VStr "a cat");
                 ("imgCount", VInt 1)]).
Proof. reflexivity. Qed.






(** The custom model, run: F.1 family, image-to-image. *)
Example liblibai_custom_scenario :
  Liblibai.validate_parameters (Config.defaults "/srv/data")
    "liblib-custom" (VRef 1%nat)
    (World [ODict [("sourceImage", VStr "http://img"); ("steps", VInt 30)];
            ODict [("checkPointId", VStr "ckpt-1"); ("prompt", VStr "a dog");
                   ("baseModelType", VStr "F.1");
                   ("generateParams", VRef 0%nat)]] [] 0)
  = (World [ODict [("sourceImage", VStr "http://img"); ("steps", VInt 30);
                   ("checkPointId", VStr "ckpt-1"); ("prompt", VStr "a dog");
                   ("sampler", VInt 15); ("cfgScale", VInt 7);
                   ("width", VInt 768); ("height", VInt 1024);
                   ("imgCount", VInt 1); ("seed", VInt (-1))];
            ODict [("checkPointId", VStr "ckpt-1"); ("prompt", VStr "a dog");
                   ("baseModelType", VStr "F.1");
                   ("generateParams", VRef 0%nat)];
            ODict [("checkPointId", VStr "ckpt-1"); ("prompt", VStr "a dog");
                   ("baseModelType", VStr "F.1");
                   ("generateParams", VRef 0%nat);
                   ("model", VStr "liblib-custom");
                   ("templateUuid", VStr "63b72710c9574457ba303d9d9b8df8bd")]]
       [] 0,
     Ok (VRef 2%nat)).
Proof. reflexivity. Qed.

(** ** Validation errors of both providers *)

Lemma first_missing_some keys d k :
  first_missing keys d = Some k → k ∈ keys ∧ dict_has k d = false.
Proof.
  unfold first_missing. intros H. apply find_some in H as [Hin Hk].
  split; [now apply list_elem_of_In|]. now apply negb_true_iff.
Qed.

Lemma first_missing_none keys d :
  first_missing keys d = None → ∀ k, k ∈ keys → dict_has k d = true.
Proof.
  unfold first_missing. intros H k Hk.
  apply list_elem_of_In in Hk. eapply find_none in H; [|exact Hk].
  now apply negb_false_iff.
Qed.

Lemma quiet_default_param v k rhs :
  respects is_builtin rhs → respects is_builtin (Liblibai.default_param v k rhs).
Proof.
  intros H. unfold Liblibai.default_param, Liblibai.generateParams. quiet.
Qed.

Lemma quiet_default_template v rhs :
  respects is_builtin rhs → respects is_builtin (Liblibai.default_template v rhs).
Proof. intros H. unfold Liblibai.default_template. quiet. Qed.

Lemma quiet_ensure v : respects is_builtin (Liblibai.ensure_generateParams v).
Proof. unfold Liblibai.ensure_generateParams. quiet. Qed.

Ltac quiet_b := repeat (first
  [ apply quiet_default_param | apply quiet_default_template
  | apply quiet_ensure | unfold Liblibai.generateParams; progress quiet ]).

Ltac req Hreq k d :=
  let E := fresh "E" in
  cbn [find negb];
  destruct (dict_has k d) eqn:E; cbn [find negb];
  [ rewrite bind_assoc;
    erewrite bind_ok by ((rewrite Hreq by reflexivity); rewrite E; reflexivity)
  | rewrite bind_assoc;
    erewrite bind_raise
      by ((rewrite Hreq by reflexivity); rewrite E; reflexivity);
    split; reflexivity ].

Ltac finish_quiet Hlog :=
  match goal with
  | |- log (?m ?w0).1 = _ ∧ _ =>
      let Hq := fresh "Hq" in
      assert (Hq : respects is_builtin m) by quiet_b;
      destruct (Hq w0) as [? ?]; split; [congruence | assumption]
  end.

Lemma liblibai_validate_cases cfg model p w d :
  heap w !! p = Some (ODict d) →
  existsb (String.eqb model) (Liblibai.supported_models cfg) = true →
  let r := Liblibai.validate_parameters cfg model (VRef p) w in
  log r.1 = log w
  ∧ match first_missing (required_keys ProviderB model) d with
    | Some k => r.2 = Raise (ValueError [Lit (missing_message ProviderB model k)])
    | None => ∀ e, r.2 = Raise e → is_builtin e
    end.
Proof.
  intros Hp Hm r. subst r. liblibai_open Hp Hm.
  set (d1 := dict_set "model" _ d).
  assert (Hd1 : ∀ k, String.eqb k "model" = false → dict_has k d1 = dict_has k d).
  { intros k Hk. subst d1. rewrite dict_has_set, Hk. reflexivity. }
  set (wt := top (heap w) d1 (log w) (tick w)).
  assert (Hreq : ∀ k msg, String.eqb k "model" = false →
            Liblibai.require (VRef (length (heap w))) k msg wt =
            (wt, if dict_has k d then Ok tt else Raise (ValueError [Lit msg]))).
  { intros k msg Hk. rewrite require_run with (d := d1) by apply lookup_top.
    rewrite Hd1 by exact Hk. reflexivity. }
  unfold required_keys, missing_message, first_missing.
  assert (Hlog : log wt = log w) by reflexivity.
  destruct (String.eqb model "star-3-alpha-t2i") eqn:E1;
    [|destruct (String.eqb model "star-3-alpha-i2i") eqn:E2;
      [|destruct (String.eqb model "liblib-custom") eqn:E3]].
  - req Hreq "prompt" d. finish_quiet Hlog.
  - req Hreq "prompt" d. req Hreq "sourceImage" d. finish_quiet Hlog.
  - req Hreq "checkPointId" d. req Hreq "prompt" d. finish_quiet Hlog.
  - finish_quiet Hlog.
Qed.

Lemma aliyun_call_model_validation_error cfg vendor env model parameters w w' e :
  Aliyun.validate_parameters cfg model parameters w = (w', Raise e) →
  Aliyun.call_model cfg vendor env model parameters w = (w', Raise e).
Proof. intros H. unfold Aliyun.call_model. now erewrite bind_raise by exact H. Qed.

Lemma liblibai_call_model_validation_error
    cfg vendor env base_dir model parameters w w' e :
  Liblibai.validate_parameters cfg model parameters w = (w', Raise e) →
  Liblibai.call_model cfg vendor env base_dir model parameters w = (w', Raise e).
Proof. intros H. unfold Liblibai.call_model. now erewrite bind_raise by exact H. Qed.

Lemma liblibai_validate_unsupported cfg model parameters w :
  existsb (String.eqb model) (Liblibai.supported_models cfg) = false →
  Liblibai.validate_parameters cfg model parameters w =
  (w, Raise (ValueError
        [Lit (unsupported_message model (Liblibai.supported_models cfg))])).
Proof.
  intros H. unfold Liblibai.validate_parameters. rewrite H. reflexivity.
Qed.

(** C3. For either provider and a parameter mapping [d]:
    an unsupported model is refused with the unsupported-model error;
    for a supported model, validation raises the error naming a missing
    key exactly when a required key is absent (A: [prompt]; B
    text-to-image: [prompt]; B image-to-image: [prompt], [sourceImage];
    B custom: [checkPointId], [prompt]), and it names the first absent
    one; when none is absent every exception is one of the interpreter's
    own.  Validation makes no request, and [call_model] stops with the
    validation error before making any. *)
Theorem validation_errors_before_network pr cfg model p w d :
  heap w !! p = Some (ODict d) →
  let '(w', r) := validate pr cfg model (VRef p) w in
  log w' = log w
  ∧ (existsb (String.eqb model) (supported pr cfg) = false →
     r = Raise (ValueError [Lit (unsupported_message model (supported pr cfg))]))
  ∧ (existsb (String.eqb model) (supported pr cfg) = true →
     match first_missing (required_keys pr model) d with
     | Some k =>
         k ∈ required_keys pr model ∧ dict_has k d = false
         ∧ r = Raise (ValueError [Lit (missing_message pr model k)])
     | None =>
         (∀ k, k ∈ required_keys pr model → dict_has k d = true)
         ∧ ∀ e, r = Raise e → is_builtin e
     end)
  ∧ (∀ e vendor env base_dir,
       r = Raise e →
       match pr with
       | ProviderA =>
           Aliyun.call_model cfg vendor env model (VRef p) w = (w', Raise e)
       | ProviderB =>
           Liblibai.call_model cfg vendor env base_dir model (VRef p) w
           = (w', Raise e)
       end).
Proof.
  intros Hp.
  destruct (validate pr cfg model (VRef p) w) as [w' r] eqn:Hrun.
  assert (Hfm : ∀ k, first_missing (required_keys pr model) d = Some k →
                  k ∈ required_keys pr model ∧ dict_has k d = false)
    by (intros k; apply first_missing_some).
  assert (Hfn : first_missing (required_keys pr model) d = None →
                ∀ k, k ∈ required_keys pr model → dict_has k d = true)
    by apply first_missing_none.
  destruct pr; cbn [validate supported] in *.
  - (* provider A *)
    destruct (aliyun_validate_cases cfg model p w d Hp)
      as [[Hm H] | [(Hm & Hpr & H) | (Hm & Hpr & H)]];
      cbv zeta in H; rewrite Hrun in H; injection H as -> ->.
    + split; [reflexivity|]. split; [intros _; reflexivity|].
      split; [congruence|].
      intros e vendor env _ He.
      apply aliyun_call_model_validation_error. rewrite Hrun, He. reflexivity.
    + split; [reflexivity|]. split; [congruence|]. split.
      * intros _. unfold required_keys, first_missing in *. cbn [find] in *.
        rewrite Hpr in *. cbn [negb] in *.
        destruct (Hfm "prompt" eq_refl). repeat split; assumption.
      * intros e vendor env _ He.
        apply aliyun_call_model_validation_error. rewrite Hrun, He. reflexivity.
    + split; [reflexivity|]. split; [congruence|]. split.
      * intros _. unfold required_keys, first_missing in *. cbn [find] in *.
        rewrite Hpr in *. cbn [negb] in *. split; [auto|].
        intros e He. destruct (AliyunNorm.norm model d).2 eqn:Hn; [discriminate|].
        injection He as <-. eapply norm_raise. exact Hn.
      * intros e vendor env _ He.
        apply aliyun_call_model_validation_error. rewrite Hrun, He. reflexivity.
  - (* provider B *)
    destruct (existsb (String.eqb model) (Liblibai.supported_models cfg)) eqn:Hm.
    + pose proof (liblibai_validate_cases cfg model p w d Hp Hm) as H.
      cbv zeta in H. rewrite Hrun in H. cbn [fst snd] in H.
      destruct H as [Hlog H].
      split; [exact Hlog|]. split; [congruence|]. split.
      * intros _.
        destruct (first_missing (required_keys ProviderB model) d) as [k|].
        -- destruct (Hfm k eq_refl). repeat split; assumption.
        -- split; [auto|exact H].
      * intros e vendor env base_dir He.
        apply liblibai_call_model_validation_error. rewrite Hrun, He. reflexivity.
    + rewrite liblibai_validate_unsupported in Hrun by exact Hm.
      injection Hrun as <- <-.
      split; [reflexivity|]. split; [intros _; reflexivity|].
      split; [congruence|].
      intros e vendor env base_dir He.
      apply liblibai_call_model_validation_error.
      rewrite liblibai_validate_unsupported by exact Hm. rewrite He. reflexivity.
Qed.

Lemma validation_errors_before_network_witness :
  let w := World [ODict [("prompt", VStr "x")]] [] 0 in
  let d := [("prompt", VStr "x")] in
  let cfg := Config.defaults "/srv/data" in
  heap w !! 0%nat = Some (ODict d)
  ∧ let '(w', r) := validate ProviderB cfg "star-3-alpha-i2i" (VRef 0%nat) w in
    log w' = log w
    ∧ (existsb (String.eqb "star-3-alpha-i2i") (supported ProviderB cfg) = false →
       r = Raise (ValueError
             [Lit (unsupported_message "star-3-alpha-i2i" (supported ProviderB cfg))]))
    ∧ (existsb (String.eqb "star-3-alpha-i2i") (supported ProviderB cfg) = true →
       match first_missing (required_keys ProviderB "star-3-alpha-i2i") d with
       | Some k =>
           k ∈ required_keys ProviderB "star-3-alpha-i2i" ∧ dict_has k d = false
           ∧ r = Raise (ValueError
                   [Lit (missing_message ProviderB "star-3-alpha-i2i" k)])
       | None =>
           (∀ k, k ∈ required_keys ProviderB "star-3-alpha-i2i" →
                 dict_has k d = true)
           ∧ ∀ e, r = Raise e → is_builtin e
       end)
    ∧ (∀ e vendor env base_dir,
         r = Raise e →
         Liblibai.call_model cfg vendor env base_dir "star-3-alpha-i2i"
           (VRef 0%nat) w = (w', Raise e)).
Proof.
  intros w d cfg. split; [reflexivity|].
  apply (validation_errors_before_network ProviderB cfg "star-3-alpha-i2i"
           0%nat w d).
  reflexivity.
Defined.

(** The error of the witness, run: the missing key is named. *)
Example liblibai_i2i_missing_source :
  (Liblibai.validate_parameters (Config.defaults "/srv/data")
     "star-3-alpha-i2i" (VRef 0%nat)
     (World [ODict [("prompt", VStr "x")]] [] 0)).2
  = Raise (ValueError
      [Lit "Parameter 'sourceImage' is required for Star-3 Alpha image-to-image"]).
Proof. reflexivity. Qed.

(** ** The artifact locator *)

(** C9, as amended.  [download_file] looks in the flat images directory
    first, then in [aliyun], then in [liblibai], by exact name, and only
    then searches the whole data directory; it serves the first match in
    that order.  It answers 404 exactly when every probe completes and none
    finds a match; when a probe raises before a match is found the search
    stops there and the route answers 500. *)
Theorem download_file_search_order fs data_dir file_name :
  let images_dir := data_dir ++ ["images"] in
  let flat := images_dir ++ [file_name] in
  let aliyun := images_dir ++ ["aliyun"; file_name] in
  let liblibai := images_dir ++ ["liblibai"; file_name] in
  let pattern := "**/" +:+ file_name in
  let exists_ := Download.exists_ fs in
  let matching := Download.glob fs data_dir pattern in
  let '(probes, out) := Download.download_file fs data_dir file_name in
  match exists_ flat with
  | Raise e => out = Download.failure e ∧ probes = [Download.Exists flat]
  | Ok true => out = Download.Found flat ∧ probes = [Download.Exists flat]
  | Ok false =>
      match exists_ aliyun with
      | Raise e =>
          out = Download.failure e
          ∧ probes = [Download.Exists flat; Download.Exists aliyun]
      | Ok true =>
          out = Download.Found aliyun
          ∧ probes = [Download.Exists flat; Download.Exists aliyun;
                      Download.Exists aliyun]
      | Ok false =>
          match exists_ liblibai with
          | Raise e =>
              out = Download.failure e
              ∧ probes = [Download.Exists flat; Download.Exists aliyun;
                          Download.Exists liblibai]
          | Ok true =>
              out = Download.Found liblibai
              ∧ probes = [Download.Exists flat; Download.Exists aliyun;
                          Download.Exists liblibai; Download.Exists liblibai]
          | Ok false =>
              probes = [Download.Exists flat; Download.Exists aliyun;
                        Download.Exists liblibai; Download.Exists flat;
                        Download.Glob data_dir pattern]
              ∧ out = match matching with
                      | Raise e => Download.failure e
                      | Ok [] =>
                          Download.NotFound ("File not found: " +:+ file_name)
                      | Ok (first :: _) => Download.Found first
                      end
          end
      end
  end
  ∧ ((∃ detail, out = Download.NotFound detail) ↔
     exists_ flat = Ok false ∧ exists_ aliyun = Ok false
     ∧ exists_ liblibai = Ok false ∧ matching = Ok [])
  ∧ ((∃ detail, out = Download.ServerError detail) ↔
     ∃ e, exists_ flat = Raise e
          ∨ exists_ flat = Ok false
            ∧ (exists_ aliyun = Raise e
               ∨ exists_ aliyun = Ok false
                 ∧ (exists_ liblibai = Raise e
                    ∨ exists_ liblibai = Ok false ∧ matching = Raise e))).
Proof.
  cbv zeta. unfold Download.download_file. cbn [Download.scan_providers].
  destruct (Download.exists_ fs ((data_dir ++ ["images"]) ++ [file_name]))
    as [[]|e0] eqn:E0.
  - split; [auto|]. split.
    + split; [intros [? [=]]|intros (? & _); discriminate].
    + split; [intros [? [=]]|].
      intros (e & [H|[H _]]); discriminate.
  - destruct (Download.exists_ fs ((data_dir ++ ["images"]) ++ ["aliyun"; file_name]))
      as [[]|e1] eqn:E1.
    + rewrite E1. cbn [app]. split; [auto|]. split.
      * split; [intros [? [=]]|intros (_ & ? & _); discriminate].
      * split; [intros [? [=]]|].
        intros (e & [H|[_ [H|[H _]]]]); discriminate.
    + destruct (Download.exists_ fs ((data_dir ++ ["images"]) ++ ["liblibai"; file_name]))
        as [[]|e2] eqn:E2.
      * rewrite E2. cbn [app]. split; [auto|]. split.
        -- split; [intros [? [=]]|intros (_ & _ & ? & _); discriminate].
        -- split; [intros [? [=]]|].
           intros (e & [H|[_ [H|[_ [H|[H _]]]]]]); discriminate.
      * rewrite E0. cbn [app].
        destruct (Download.glob fs data_dir ("**/" +:+ file_name))
          as [[|first rest]|eg] eqn:G.
        -- split; [auto|]. split.
           ++ split; [auto|]. eauto.
           ++ split; [intros [? [=]]|].
              intros (e & [H|[_ [H|[_ [H|[_ H]]]]]]); discriminate.
        -- split; [auto|]. split.
           ++ split; [intros [? [=]]|intros (_ & _ & _ & ?); discriminate].
           ++ split; [intros [? [=]]|].
              intros (e & [H|[_ [H|[_ [H|[_ H]]]]]]); discriminate.
        -- split; [auto|]. split.
           ++ split; [intros [? [=]]|intros (_ & _ & _ & ?); discriminate].
           ++ split; [|unfold Download.failure; eauto].
              intros _. exists eg. right. split; [reflexivity|].
              right. split; [reflexivity|]. right. split; reflexivity.
      * cbn [app]. split; [auto|]. split.
        -- split; [intros [? [=]]|intros (_ & _ & ? & _); discriminate].
        -- split; [|unfold Download.failure; eauto].
           intros _. exists e2. right. split; [reflexivity|].
           right. split; [reflexivity|]. left. reflexivity.
    + cbn [app]. split; [auto|]. split.
      * split; [intros [? [=]]|intros (_ & ? & _); discriminate].
      * split; [|unfold Download.failure; eauto].
        intros _. exists e1. right. split; [reflexivity|]. left. reflexivity.
  - split; [auto|]. split.
    + split; [intros [? [=]]|intros (? & _); discriminate].
    + split; [|unfold Download.failure; eauto].
      intros _. exists e0. left. reflexivity.
Qed.

(** C9 as stated fails when a probe raises: in a store that holds no file
    at all, a name too long for the file system is answered 500, not 404,
    though none of the three locations holds a match. *)
Lemma probe_failure_is_not_404 :
  let file_name := String.string_of_list_ascii (repeat "a"%char 300) in
  Download.download_file (Download.fs_of_files []) ["data"] file_name
  = ([Download.Exists ["data"; "images"; file_name]],
     Download.ServerError
       [Lit "Failed to process download request: "; Msg OSError])
  ∧ ∀ detail,
      (Download.download_file (Download.fs_of_files []) ["data"] file_name).2
      ≠ Download.NotFound detail.
Proof. split; [vm_compute; reflexivity|]. intros detail. vm_compute. discriminate. Qed.

(** A file stored by provider B is found in its directory before any
    search of the tree; a name that is nowhere gets the 404. *)
Example download_file_finds_provider_file :
  Download.download_file
    (Download.fs_of_files [["data"; "images"; "liblibai"; "a.png"]])
    ["data"] "a.png"
  = ([Download.Exists ["data"; "images"; "a.png"];
      Download.Exists ["data"; "images"; "aliyun"; "a.png"];
      Download.Exists ["data"; "images"; "liblibai"; "a.png"];
      Download.Exists ["data"; "images"; "liblibai"; "a.png"]],
     Download.Found ["data"; "images"; "liblibai"; "a.png"]).
Proof. reflexivity. Qed.

Example download_file_recursive_fallback :
  (Download.download_file
     (Download.fs_of_files [["data"; "other"; "deep"; "b.png"]])
     ["data"] "b.png").2
  = Download.Found ["data"; "other"; "deep"; "b.png"]
  ∧ (Download.download_file
       (Download.fs_of_files [["data"; "other"; "deep"; "b.png"]])
       ["data"] "c.png").2
    = Download.NotFound "File not found: c.png".
Proof. split; reflexivity. Qed.

(** ** The signer of provider B *)

Lemma rstrip_eq_no_padding_left s : ends_with "="%char (Base64.rstrip_eq s) = false.
Proof.
  induction s as [|c r IH]; [reflexivity|]. cbn [Base64.rstrip_eq].
  destruct (Base64.rstrip_eq r) as [|x y] eqn:E.
  - destruct (Ascii.eqb c "="%char) eqn:Ec; [reflexivity|]. simpl. exact Ec.
  - exact IH.
Qed.

Lemma append_nil_l s : "" +:+ s = s.
Proof. reflexivity. Qed.

Lemma append_cons c s t : String c s +:+ t = String c (s +:+ t).
Proof. reflexivity. Qed.

Lemma rstrip_eq_removes_padding s :
  ∃ pad, s = Base64.rstrip_eq s +:+ pad ∧ all_padding pad = true.
Proof.
  induction s as [|c r (pad & Hr & Hpad)]; [exists ""; split; reflexivity|].
  cbn [Base64.rstrip_eq].
  destruct (Base64.rstrip_eq r) as [|x y] eqn:E;
    rewrite ?append_nil_l, ?append_cons in Hr.
  - destruct (Ascii.eqb c "="%char) eqn:Ec.
    + exists (String c pad). split.
      * rewrite append_nil_l. congruence.
      * simpl. rewrite Ec. exact Hpad.
    + exists pad. split; [|exact Hpad].
      rewrite append_cons, append_nil_l. congruence.
  - exists pad. split; [|exact Hpad]. rewrite !append_cons. congruence.
Qed.

(** SHA-1 and HMAC-SHA-1 on the standard test vectors. *)
Example sha1_abc :
  Sha1.sha1 (encode "abc") =
  [0xa9; 0x99; 0x3e; 0x36; 0x47; 0x06; 0x81; 0x6a; 0xba; 0x3e;
   0x25; 0x71; 0x78; 0x50; 0xc2; 0x6c; 0x9c; 0xd0; 0xd8; 0x9d].
Proof. vm_compute. reflexivity. Qed.

Example hmac_sha1_fox :
  Hmac.hmac_sha1 (encode "key")
    (encode "The quick brown fox jumps over the lazy dog") =
  [0xde; 0x7c; 0x9b; 0x85; 0xb8; 0xb7; 0x8a; 0xa6; 0xbc; 0x8a;
   0x7a; 0x36; 0xf7; 0x0a; 0x90; 0x70; 0x1c; 0x9d; 0xb4; 0xd9].
Proof. vm_compute. reflexivity. Qed.

Example signature_fox :
  spec_signature "key" "The quick brown fox jumps over" "the lazy" "dog"
  = "IfB7j9_wl2-SNA51OHFaXJ8Nguc".
Proof. vm_compute. reflexivity. Qed.

(** C8. With both credentials configured, [generate_signature] returns
    the access key, the millisecond timestamp, the nonce, and as signature
    the HMAC of [uri & "&" & timestamp & "&" & nonce] under the secret key,
    URL-safe base64 with every trailing ['='] removed (the encoding is the
    signature followed by padding only, and the signature does not end in
    ['=']); with either credential empty it raises the missing-credentials
    error and draws nothing. *)
Theorem liblibai_generate_signature cfg env uri w :
  let access_key := Config.LIBLIBAI_ACCESS_KEY cfg in
  let secret_key := Config.LIBLIBAI_SECRET_KEY cfg in
  let timestamp := pretty (time_ms env (tick w)) in
  let nonce := uuid_str (uuid4_hex env (S (tick w))) in
  let signature := spec_signature secret_key uri timestamp nonce in
  (access_key ≠ "" ∧ secret_key ≠ "" →
   Liblibai.generate_signature cfg env uri w =
     (World (heap w) (log w) (S (S (tick w))),
      Ok {| Liblibai.AccessKey := access_key;
            Liblibai.Signature := signature;
            Liblibai.Timestamp := timestamp;
            Liblibai.SignatureNonce := nonce |})
   ∧ ends_with "="%char signature = false
   ∧ ∃ pad,
       Base64.urlsafe_b64encode
         (Hmac.hmac_sha1 (encode secret_key)
            (encode (uri +:+ "&" +:+ timestamp +:+ "&" +:+ nonce)))
       = signature +:+ pad
       ∧ all_padding pad = true)
  ∧ (access_key = "" ∨ secret_key = "" →
     Liblibai.generate_signature cfg env uri w =
       (w, Raise (ValueError [Lit "LiblibAI API keys not configured"]))).
Proof.
  cbv zeta. unfold Liblibai.generate_signature. split.
  - intros [Ha Hs].
    apply String.eqb_neq in Ha, Hs. rewrite Ha, Hs. cbn [orb].
    split; [reflexivity|]. split.
    + apply rstrip_eq_no_padding_left.
    + apply rstrip_eq_removes_padding.
  - intros [H | H]; rewrite H.
    + reflexivity.
    + rewrite orb_true_r. reflexivity.
Qed.

(** A signature, run: the clock reads 1700000000000 ms. *)
Example liblibai_signature_example :
  let cfg := {| Config.DATA_DIR := "/srv/data";
                Config.ALIYUN_SUPPORTED_MODELS := "";
                Config.LIBLIBAI_SUPPORTED_MODELS := "";
                Config.ALIYUN_API_KEY := "";
                Config.ALIYUN_API_URL := "";
                Config.LIBLIBAI_ACCESS_KEY := "ak-test";
                Config.LIBLIBAI_SECRET_KEY := "sk-test";
                Config.LIBLIBAI_API_URL := "" |} in
  let env := {| time_ms := λ _, 1700000000000;
                uuid4_hex := λ _, "0123456789abcdef0123456789abcdef";
                strftime := λ _ _, "";
                makedirs_ok := λ _, true |} in
  (Liblibai.generate_signature cfg env "/api/generate/webui/status"
     (World [] [] 0)).2
  = Ok {| Liblibai.AccessKey := "ak-test";
          Liblibai.Signature := "sW5evyYnRLtG1eR58oySiXBSfv0";
          Liblibai.Timestamp := "1700000000000";
          Liblibai.SignatureNonce := "01234567-89ab-cdef-0123-456789abcdef" |}.
Proof. vm_compute. reflexivity. Qed.

Lemma aliyun_unrecognized_key_forwarded_witness :
  let d := [("prompt", VStr "x"); ("watermark", VBool false); ("n", VInt 2)] in
  let w := World [ODict d] [] 0 in
  let cfg := Config.defaults "/srv/data" in
  let w' := (Aliyun.validate_parameters cfg "wanx2.1-t2i-plus" (VRef 0%nat) w).1 in
  heap w !! 0%nat = Some (ODict d)
  ∧ NoDup (map fst d)
  ∧ Aliyun.str_in "watermark" aliyun_recognized = false
  ∧ dict_get "watermark" d = Some (VBool false)
  ∧ Aliyun.validate_parameters cfg "wanx2.1-t2i-plus" (VRef 0%nat) w
    = (w', Ok (VRef 1%nat))
  ∧ (∃ a d', VRef 1%nat = VRef a ∧ heap w' !! a = Some (ODict d')
             ∧ dict_get "watermark" d' = Some (VBool false))
  ∧ ∃ request_data,
      Aliyun.build_request_data (VRef 1%nat) w' = (w', Ok request_data)
      ∧ dict_get "watermark" (Aliyun.rq_parameters request_data)
        = Some (VBool false).
Proof.
  intros d w cfg w'.
  assert (Hnd : NoDup (map fst d)).
  { apply (bool_decide_unpack _). reflexivity. }
  split; [reflexivity|]. split; [exact Hnd|].
  split; [reflexivity|]. split; [reflexivity|]. split; [reflexivity|].
  apply (aliyun_unrecognized_key_forwarded cfg "wanx2.1-t2i-plus" 0%nat w d
           "watermark" (VBool false) w' (VRef 1%nat));
    first [exact Hnd | reflexivity].
Defined.

(** The request body of the witness, run. *)
Example aliyun_request_body :
  (bind (Aliyun.validate_parameters (Config.defaults "/srv/data")
           "wanx2.1-t2i-plus" (VRef 0%nat))
        Aliyun.build_request_data
     (World [ODict [("prompt", VStr "x"); ("watermark", VBool false);
                    ("n", VInt 2)]] [] 0)).2
  = Ok {| Aliyun.rq_model := VStr "wanx2.1-t2i-plus";
          Aliyun.rq_input := [("prompt", VStr "x")];
          Aliyun.rq_parameters :=
            [("size", VStr "1024*1024"); ("n", VInt 2);
             ("style", VStr "<auto>"); ("watermark", VBool false)] |}.
Proof. reflexivity. Qed.

(** ** Counting status queries *)

Lemma queries_app evs evs' : queries (evs ++ evs') = (queries evs + queries evs')%nat.
Proof. unfold queries. rewrite List.filter_app, length_app. reflexivity. Qed.

Section AtMost.
Context {A B : Type}.

Lemma at_most_quiet E (m : M A) : respects E m → at_most 0 m.
Proof.
  intros H w. destruct (H w) as [Hl _]. exists [].
  rewrite app_nil_r. split; [exact Hl|reflexivity].
Qed.

Lemma at_most_weaken k k' (m : M A) : (k ≤ k')%nat → at_most k m → at_most k' m.
Proof. intros Hk H w. destruct (H w) as (evs & ? & ?). exists evs. split; [assumption|lia]. Qed.

Lemma at_most_bind k1 k2 (m : M A) (f : A → M B) :
  at_most k1 m → (∀ a, at_most k2 (f a)) → at_most (k1 + k2) (bind m f).
Proof.
  intros Hm Hf w. unfold bind. destruct (Hm w) as (evs & Hl & Hq).
  destruct (m w) as [w' [a|e]]; simpl in *.
  - destruct (Hf a w') as (evs' & Hl' & Hq').
    exists (evs ++ evs'). rewrite Hl', Hl, app_assoc, queries_app. split; [reflexivity|lia].
  - exists evs. split; [exact Hl|lia].
Qed.

Lemma at_most_bind0 k (m : M A) (f : A → M B) :
  at_most 0 m → (∀ a, at_most k (f a)) → at_most k (bind m f).
Proof. intros. change k with (0 + k)%nat. now apply at_most_bind. Qed.

Lemma at_most_if k (b : bool) (m1 m2 : M A) :
  at_most k m1 → at_most k m2 → at_most k (if b then m1 else m2).
Proof. destruct b; auto. Qed.

Lemma at_most_ret k (a : A) : at_most k (ret a).
Proof. intros w. exists []. rewrite app_nil_r. split; [reflexivity|unfold queries; simpl; lia]. Qed.

Lemma at_most_raise k (e : exn) : at_most k (raise e : M A).
Proof. intros w. exists []. rewrite app_nil_r. split; [reflexivity|unfold queries; simpl; lia]. Qed.

End AtMost.

Lemma at_most_emit ev : at_most (if is_query ev then 1 else 0) (emit ev).
Proof.
  intros w. exists [ev]. split; [reflexivity|].
  unfold queries. simpl. destruct (is_query ev); simpl; lia.
Qed.

Lemma at_most_draw k : at_most k draw.
Proof. intros w. exists []. rewrite app_nil_r. split; [reflexivity|unfold queries; simpl; lia]. Qed.

Lemma at_most_request ev r : at_most 1 (request ev r).
Proof.
  unfold request. change 1%nat with (1 + 0)%nat. apply at_most_bind.
  - eapply at_most_weaken; [|apply at_most_emit]. destruct (is_query ev); lia.
  - intros _. destruct r; [apply at_most_ret|apply at_most_raise].
Qed.

Lemma quiet_iter c : respects is_builtin (py_iter c).
Proof. quiet_prim. Qed.
Lemma quiet_items c : respects is_builtin (py_items c).
Proof. quiet_prim. Qed.
Lemma quiet_raise_for_status r : respects is_builtin (raise_for_status r).
Proof.
  unfold raise_for_status. destruct (_ && _); [apply respects_ret|].
  apply respects_raise. eexists; reflexivity.
Qed.
Lemma quiet_response_json r : respects is_builtin (response_json r).
Proof.
  unfold response_json. destruct (json_body r); [apply respects_ret|].
  apply respects_raise. eexists; reflexivity.
Qed.

(** Steps that make no request. *)
Ltac no_query := repeat (first
  [ apply at_most_ret | apply at_most_raise | apply at_most_draw
  | (apply at_most_bind0; [|intros ?])
  | apply at_most_if
  | (eapply at_most_quiet; first
      [ apply quiet_contains | apply quiet_getitem | apply quiet_get
      | apply quiet_truthy | apply quiet_alloc | apply quiet_iter
      | apply quiet_items | apply quiet_setitem | apply quiet_copy
      | apply quiet_raise_for_status | apply quiet_response_json
      | apply quiet_lower | apply quiet_int ])
  | match goal with
    | |- at_most _ (match ?x with _ => _ end) => destruct x
    | |- at_most _ (let '(_, _) := ?x in _) => destruct x
    end ]).

Lemma aliyun_download_images_no_query cfg vendor env items :
  ∀ i acc, at_most 0 (Aliyun.download_images cfg vendor env i items acc).
Proof.
  induction items as [|it items IH]; intros i acc; cbn [Aliyun.download_images].
  - apply at_most_ret.
  - no_query; try apply IH.
    unfold Aliyun.download_image. no_query. apply (at_most_emit (EvDownload _ _)).
Qed.

Lemma aliyun_format_no_query cfg vendor env api_response original_params :
  at_most 0 (Aliyun._format_response_and_download_images cfg vendor env
               api_response original_params).
Proof.
  unfold Aliyun._format_response_and_download_images, Aliyun.find_results,
    Aliyun.size_fields.
  no_query; try apply aliyun_download_images_no_query.
Qed.

(** ** Provider A: the polling loop *)

Lemma aliyun_read_status_run w ts v :
  aliyun_status_value (heap w) ts = Some v →
  Aliyun.read_status ts w = (w, Ok v).
Proof.
  unfold aliyun_status_value, Aliyun.read_status.
  destruct ts as [| | | | |a]; try discriminate.
  destruct (heap w !! a) as [[d|]|] eqn:Ha; try discriminate.
  cbv zeta. intros H.
  erewrite bind_ok by (eapply get_dict; exact Ha).
  erewrite bind_ok by reflexivity.
  destruct (truthy (heap w) _) eqn:Et; cbn [negb andb] in *.
  - erewrite bind_ok by reflexivity. injection H as <-. reflexivity.
  - erewrite bind_ok by (eapply contains_dict; exact Ha).
    destruct (dict_has "output" d) eqn:Eo.
    + destruct (dict_get "output" d) as [[| | | | |o]|] eqn:Ego; try discriminate.
      destruct (heap w !! o) as [[od|]|] eqn:Hod; try discriminate.
      injection H as <-.
      erewrite bind_ok by (eapply getitem_dict; eassumption).
      eapply get_dict. exact Hod.
    + injection H as <-. reflexivity.
Qed.

Lemma aliyun_observed_inv h reply ts vd :
  aliyun_observed h reply = Some (ts, vd) →
  ∃ r v, reply = Some r ∧ success_code r = true ∧ json_body r = Some ts
         ∧ aliyun_status_value h ts = Some v ∧ aliyun_verdict v = vd.
Proof.
  unfold aliyun_observed. destruct reply as [r|]; [|discriminate].
  destruct (success_code r) eqn:Hc; [|discriminate].
  destruct (json_body r) as [ts'|] eqn:Hj; [|discriminate].
  destruct (aliyun_status_value h ts') as [v|] eqn:Hv; [|discriminate].
  intros [= <- <-]. exists r, v. repeat split; try assumption; reflexivity.
Qed.

(** One cycle of the loop whose query is answered with a readable status. *)
Lemma aliyun_poll_step cfg vendor env task_id vp i n w ts vd :
  aliyun_observed (heap w) (status_reply vendor i) = Some (ts, vd) →
  let w' := World (heap w) (log w ++ aliyun_cycle task_id) (tick w) in
  Aliyun.poll cfg vendor env task_id vp i (S n) w =
  match vd with
  | Pending => Aliyun.poll cfg vendor env task_id vp (S i) n w'
  | Succeeded =>
      Aliyun._format_response_and_download_images cfg vendor env ts vp w'
  | Failed =>
      (error_msg ← Aliyun.read_error ts;
       raise (ValueError [Lit "Task failed: "; Val error_msg])) w'
  end.
Proof.
  intros Hobs w'.
  apply aliyun_observed_inv in Hobs as (r & v & Hr & Hc & Hj & Hv & Hvd).
  cbn [Aliyun.poll].
  erewrite bind_ok by reflexivity.
  unfold request. rewrite Hr. rewrite bind_assoc.
  erewrite bind_ok by reflexivity. erewrite bind_ok by reflexivity.
  unfold raise_for_status. fold (success_code r). rewrite Hc.
  erewrite bind_ok by reflexivity.
  unfold response_json. rewrite Hj. erewrite bind_ok by reflexivity.
  assert (Hw' : add_event (EvGet [Lit "https://dashscope.aliyuncs.com/api/v1/tasks/"; Val task_id])
                  (add_event (EvSleep Aliyun.retry_interval) w) = w').
  { subst w'. unfold add_event, aliyun_cycle. cbn [heap log tick].
    rewrite <- app_assoc. reflexivity. }
  rewrite Hw'.
  erewrite bind_ok by (apply aliyun_read_status_run; exact Hv).
  subst vd. unfold aliyun_verdict, Aliyun.succeeded_names, Aliyun.failed_names.
  destruct (in_strs v ["SUCCEEDED"; "COMPLETE"; "SUCCESS"]); [reflexivity|].
  destruct (in_strs v ["FAILED"; "CANCELLED"; "ERROR"]); reflexivity.
Qed.

(** Every cycle pending: the loop runs out and raises the timeout. *)
Lemma aliyun_poll_timeout cfg vendor env task_id vp n :
  ∀ i w,
    (∀ j, (j < n)%nat →
       ∃ ts, aliyun_observed (heap w) (status_reply vendor (i + j)) = Some (ts, Pending)) →
    Aliyun.poll cfg vendor env task_id vp i n w =
    (World (heap w) (log w ++ aliyun_cycles task_id n) (tick w),
     Raise (timeout_error task_id)).
Proof.
  induction n as [|n IH]; intros i w Hall.
  - cbn [Aliyun.poll aliyun_cycles]. rewrite app_nil_r. destruct w; reflexivity.
  - destruct (Hall 0%nat ltac:(lia)) as [ts Hobs]. rewrite Nat.add_0_r in Hobs.
    rewrite (aliyun_poll_step cfg vendor env task_id vp i n w ts Pending Hobs).
    cbv zeta. rewrite IH.
    + cbn [heap log tick aliyun_cycles]. rewrite <- app_assoc. reflexivity.
    + intros j Hj. cbn [heap]. destruct (Hall (S j) ltac:(lia)) as [ts' H'].
      exists ts'. rewrite <- H'. f_equal. f_equal. lia.
Qed.

(** The loop never makes more queries than it has cycles. *)
Lemma aliyun_poll_at_most cfg vendor env task_id vp n :
  ∀ i, at_most n (Aliyun.poll cfg vendor env task_id vp i n).
Proof.
  induction n as [|n IH]; intros i; cbn [Aliyun.poll].
  - apply at_most_raise.
  - apply at_most_bind0; [apply (at_most_emit (EvSleep _))|intros _].
    change (S n) with (1 + n)%nat.
    apply at_most_bind; [apply at_most_request|intros r].
    apply at_most_bind0; [eapply at_most_quiet, quiet_raise_for_status|intros _].
    apply at_most_bind0; [eapply at_most_quiet, quiet_response_json|intros ts].
    apply at_most_bind0.
    { unfold Aliyun.read_status. no_query. }
    intros v.
    destruct (in_strs v Aliyun.succeeded_names).
    { eapply at_most_weaken; [|apply aliyun_format_no_query]. lia. }
    destruct (in_strs v Aliyun.failed_names); [|apply IH].
    unfold Aliyun.read_error. no_query.
Qed.

Lemma queries_aliyun_cycles task_id n : queries (aliyun_cycles task_id n) = n.
Proof.
  induction n as [|n IH]; [reflexivity|].
  cbn [aliyun_cycles]. rewrite queries_app, IH. reflexivity.
Qed.

(** The first terminal status, read at cycle [k], ends the loop there. *)
Lemma aliyun_poll_stops cfg vendor env task_id vp k :
  ∀ n i w ts vd,
    (k < n)%nat →
    (∀ j, (j < k)%nat →
       ∃ ts', aliyun_observed (heap w) (status_reply vendor (i + j)) = Some (ts', Pending)) →
    aliyun_observed (heap w) (status_reply vendor (i + k)) = Some (ts, vd) →
    vd ≠ Pending →
    Aliyun.poll cfg vendor env task_id vp i n w =
    aliyun_conclude cfg vendor env ts vp vd
      (World (heap w) (log w ++ aliyun_cycles task_id (S k)) (tick w)).
Proof.
  induction k as [|k IH]; intros n i w ts vd Hk Hpend Hobs Hvd;
    (destruct n as [|n]; [lia|]).
  - rewrite Nat.add_0_r in Hobs.
    rewrite (aliyun_poll_step cfg vendor env task_id vp i n w ts vd Hobs).
    cbn [aliyun_cycles]. rewrite app_nil_r.
    destruct vd; [congruence|reflexivity|reflexivity].
  - destruct (Hpend 0%nat ltac:(lia)) as [ts0 H0]. rewrite Nat.add_0_r in H0.
    rewrite (aliyun_poll_step cfg vendor env task_id vp i n w ts0 Pending H0).
    cbv zeta. rewrite (IH n (S i) _ ts vd).
    + cbn [heap log tick]. f_equal. f_equal.
      cbn [aliyun_cycles]. rewrite <- !app_assoc. reflexivity.
    + lia.
    + intros j Hj. cbn [heap]. destruct (Hpend (S j) ltac:(lia)) as [ts' H'].
      exists ts'. rewrite <- H'. f_equal. f_equal. lia.
    + cbn [heap]. rewrite <- Hobs. f_equal. f_equal. lia.
    + exact Hvd.
Qed.

Lemma aliyun_conclude_no_query cfg vendor env ts vp vd :
  at_most 0 (aliyun_conclude cfg vendor env ts vp vd).
Proof.
  destruct vd; cbn [aliyun_conclude];
    try apply aliyun_format_no_query; unfold Aliyun.read_error; no_query.
Qed.

Lemma aliyun_conclude_failed cfg vendor env ts vp w :
  ∃ e, (aliyun_conclude cfg vendor env ts vp Failed w).2 = Raise e
       ∧ vendor_failure e.
Proof.
  cbn [aliyun_conclude]. unfold bind.
  destruct (Aliyun.read_error ts w) as [w' [msg|e]] eqn:E.
  - eexists. split; [reflexivity|]. left. eexists. reflexivity.
  - assert (H : is_builtin e).
    { assert (Hq : respects is_builtin (Aliyun.read_error ts))
        by (unfold Aliyun.read_error; quiet).
      destruct (Hq w) as [_ He]. apply He. rewrite E. reflexivity. }
    eexists. split; [reflexivity|]. right. exact H.
Qed.

(** ** Provider B: the polling loop *)

Lemma generate_signature_run cfg env uri w :
  keys_configured cfg = true →
  Liblibai.generate_signature cfg env uri w =
  (World (heap w) (log w) (S (S (tick w))), Ok (signature_at cfg env uri (tick w))).
Proof.
  unfold keys_configured, Liblibai.generate_signature. intros H.
  apply negb_true_iff in H. rewrite H. reflexivity.
Qed.

Lemma liblibai_status_value_stable h ext ts x :
  liblibai_status_value h ts = Some x →
  liblibai_status_value (h ++ ext) ts = Some x.
Proof.
  unfold liblibai_status_value.
  destruct ts as [| | | | |a]; try discriminate.
  destruct (h !! a) as [[d|]|] eqn:Ha; try discriminate.
  rewrite (lookup_app_l_Some _ _ _ _ Ha).
  destruct (eq_int _ 0); [|discriminate].
  destruct (dict_get "data" d) as [[| | | | |g]|]; try discriminate; [|auto].
  destruct (h !! g) as [[dd|]|] eqn:Hg; try discriminate.
  rewrite (lookup_app_l_Some _ _ _ _ Hg). auto.
Qed.

Lemma liblibai_observed_stable h ext reply x :
  liblibai_observed h reply = Some x →
  liblibai_observed (h ++ ext) reply = Some x.
Proof.
  unfold liblibai_observed.
  destruct reply as [r|]; [|discriminate].
  destruct (success_code r); [|discriminate].
  destruct (json_body r) as [ts|]; [|discriminate].
  destruct (liblibai_status_value h ts) as [[td v]|] eqn:E; [|discriminate].
  rewrite (liblibai_status_value_stable _ ext _ _ E). auto.
Qed.

Lemma liblibai_observed_inv h reply td vd :
  liblibai_observed h reply = Some (td, vd) →
  ∃ r ts v, reply = Some r ∧ success_code r = true ∧ json_body r = Some ts
            ∧ liblibai_status_value h ts = Some (td, v)
            ∧ liblibai_verdict v = vd.
Proof.
  unfold liblibai_observed. destruct reply as [r|]; [|discriminate].
  destruct (success_code r) eqn:Hc; [|discriminate].
  destruct (json_body r) as [ts|] eqn:Hj; [|discriminate].
  destruct (liblibai_status_value h ts) as [[td' v]|] eqn:Hv; [|discriminate].
  intros [= <- <-]. exists r, ts, v. repeat split; try assumption; reflexivity.
Qed.

(** One cycle of the loop whose query is answered with a readable status. *)
Lemma liblibai_poll_step cfg vendor env base_dir base task_id vp i n w td vd :
  keys_configured cfg = true →
  liblibai_observed (heap w) (status_reply vendor i) = Some (td, vd) →
  let w' := World (heap w ++ [ODict []])
                  (log w ++ liblibai_cycle cfg env base task_id (tick w))
                  (S (S (tick w))) in
  Liblibai.poll cfg vendor env base_dir base task_id vp i (S n) w =
  match vd with
  | Pending => Liblibai.poll cfg vendor env base_dir base task_id vp (S i) n w'
  | _ => liblibai_conclude vendor env base_dir td vp vd w'
  end.
Proof.
  intros Hkeys Hobs w'.
  apply liblibai_observed_inv in Hobs as (r & ts & v & Hr & Hc & Hj & Hv & Hvd).
  cbn [Liblibai.poll].
  erewrite bind_ok by reflexivity.
  erewrite bind_ok by (apply generate_signature_run; exact Hkeys).
  unfold request. rewrite Hr. rewrite bind_assoc.
  erewrite bind_ok by reflexivity. erewrite bind_ok by reflexivity.
  unfold raise_for_status. fold (success_code r). rewrite Hc.
  erewrite bind_ok by reflexivity.
  unfold response_json. rewrite Hj. erewrite bind_ok by reflexivity.
  unfold add_event. cbn [heap log tick].
  rewrite <- app_assoc.
  change ([EvSleep Liblibai.retry_interval] ++
          [EvPost [Lit (Liblibai.signed_url base Liblibai.status_endpoint
                          (signature_at cfg env Liblibai.status_endpoint (tick w)))]
                  [("generateUuid", BVal task_id)]])
    with (liblibai_cycle cfg env base task_id (tick w)).
  unfold liblibai_status_value in Hv.
  destruct ts as [| | | | |a]; try discriminate.
  destruct (heap w !! a) as [[d|]|] eqn:Ha; try discriminate.
  destruct (eq_int (default VNone (dict_get "code" d)) 0) eqn:Ecode; [|discriminate].
  unfold Liblibai.check_code.
  rewrite bind_assoc.
  erewrite bind_ok by (eapply get_dict; exact Ha).
  rewrite Ecode. cbn [negb when].
  erewrite bind_ok by reflexivity.
  erewrite bind_ok by reflexivity.
  cbn [heap log tick set_heap].
  assert (Ha' : (heap w ++ [ODict []]) !! a = Some (ODict d))
    by (now apply lookup_app_l_Some).
  erewrite bind_ok by (eapply get_dict; exact Ha').
  fold w'.
  destruct (dict_get "data" d) as [[| | | | |g]|] eqn:Ed; try discriminate.
  - destruct (heap w !! g) as [[dd|]|] eqn:Hg; try discriminate.
    injection Hv as <- <-. cbn [default].
    assert (Hg' : heap w' !! g = Some (ODict dd))
      by (now apply lookup_app_l_Some).
    erewrite bind_ok by (eapply get_dict; exact Hg').
    subst vd. unfold liblibai_verdict.
    destruct (eq_int _ 5); [reflexivity|].
    destruct (eq_int _ 6 || eq_int _ 7); reflexivity.
  - injection Hv as <- <-. cbn [default].
    erewrite bind_ok by (eapply get_dict; apply lookup_top).
    subst vd. reflexivity.
Qed.

Lemma queries_liblibai_cycles cfg env base task_id n :
  ∀ t, queries (liblibai_cycles cfg env base task_id t n) = n.
Proof.
  induction n as [|n IH]; intros t; [reflexivity|].
  cbn [liblibai_cycles]. rewrite queries_app, IH. reflexivity.
Qed.

(** Every cycle pending: the loop runs out and raises the timeout. *)
Lemma liblibai_poll_timeout cfg vendor env base_dir base task_id vp n :
  keys_configured cfg = true →
  ∀ i w,
    (∀ j, (j < n)%nat →
       ∃ td, liblibai_observed (heap w) (status_reply vendor (i + j))
             = Some (td, Pending)) →
    Liblibai.poll cfg vendor env base_dir base task_id vp i n w =
    (World (heap w ++ repeat (ODict []) n)
           (log w ++ liblibai_cycles cfg env base task_id (tick w) n)
           (tick w + 2 * n),
     Raise (timeout_error task_id)).
Proof.
  intros Hkeys. induction n as [|n IH]; intros i w Hall.
  - cbn [Liblibai.poll liblibai_cycles repeat]. rewrite !app_nil_r, Nat.add_0_r.
    destruct w; reflexivity.
  - destruct (Hall 0%nat ltac:(lia)) as [td Hobs]. rewrite Nat.add_0_r in Hobs.
    rewrite (liblibai_poll_step cfg vendor env base_dir base task_id vp i n w
               td Pending Hkeys Hobs).
    cbv zeta. rewrite IH.
    + cbn [heap log tick]. f_equal. f_equal.
      * rewrite <- app_assoc. reflexivity.
      * cbn [liblibai_cycles]. rewrite <- !app_assoc. reflexivity.
      * lia.
    + intros j Hj. cbn [heap]. destruct (Hall (S j) ltac:(lia)) as [td' H'].
      exists td'. apply liblibai_observed_stable.
      rewrite <- H'. f_equal. f_equal. lia.
Qed.

(** The first terminal status, read at cycle [k], ends the loop there. *)
Lemma liblibai_poll_stops cfg vendor env base_dir base task_id vp k :
  keys_configured cfg = true →
  ∀ n i w td vd,
    (k < n)%nat →
    (∀ j, (j < k)%nat →
       ∃ td', liblibai_observed (heap w) (status_reply vendor (i + j))
              = Some (td', Pending)) →
    liblibai_observed (heap w) (status_reply vendor (i + k)) = Some (td, vd) →
    vd ≠ Pending →
    Liblibai.poll cfg vendor env base_dir base task_id vp i n w =
    liblibai_conclude vendor env base_dir td vp vd
      (World (heap w ++ repeat (ODict []) (S k))
             (log w ++ liblibai_cycles cfg env base task_id (tick w) (S k))
             (tick w + 2 * S k)).
Proof.
  intros Hkeys.
  induction k as [|k IH]; intros n i w td vd Hk Hpend Hobs Hvd;
    (destruct n as [|n]; [lia|]).
  - rewrite Nat.add_0_r in Hobs.
    rewrite (liblibai_poll_step cfg vendor env base_dir base task_id vp i n w
               td vd Hkeys Hobs).
    cbn [liblibai_cycles repeat]. rewrite app_nil_r.
    replace (tick w + 2 * 1)%nat with (S (S (tick w))) by lia.
    destruct vd; [congruence|reflexivity|reflexivity].
  - destruct (Hpend 0%nat ltac:(lia)) as [td0 H0]. rewrite Nat.add_0_r in H0.
    rewrite (liblibai_poll_step cfg vendor env base_dir base task_id vp i n w
               td0 Pending Hkeys H0).
    cbv zeta. rewrite (IH n (S i) _ td vd).
    + cbn [heap log tick]. f_equal. f_equal.
      * rewrite <- app_assoc. reflexivity.
      * cbn [liblibai_cycles]. rewrite <- !app_assoc. reflexivity.
      * lia.
    + lia.
    + intros j Hj. cbn [heap]. destruct (Hpend (S j) ltac:(lia)) as [td' H'].
      exists td'. apply liblibai_observed_stable.
      rewrite <- H'. f_equal. f_equal. lia.
    + cbn [heap]. apply liblibai_observed_stable.
      rewrite <- Hobs. f_equal. f_equal. lia.
    + exact Hvd.
Qed.

Lemma liblibai_download_images_no_query vendor env base_dir items :
  ∀ i acc, at_most 0 (Liblibai.download_images vendor env base_dir i items acc).
Proof.
  induction items as [|it items IH]; intros i acc; cbn [Liblibai.download_images].
  - apply at_most_ret.
  - no_query; try apply IH.
    unfold Liblibai.download_image. no_query. apply (at_most_emit (EvDownload _ _)).
Qed.

Lemma liblibai_format_no_query vendor env base_dir api_response original_params :
  at_most 0 (Liblibai._format_response_and_download_images vendor env base_dir
               api_response original_params).
Proof.
  unfold Liblibai._format_response_and_download_images, Liblibai.size_fields.
  no_query; try apply liblibai_download_images_no_query.
Qed.

Lemma liblibai_conclude_no_query vendor env base_dir td vp vd :
  at_most 0 (liblibai_conclude vendor env base_dir td vp vd).
Proof.
  destruct vd; cbn [liblibai_conclude];
    try apply liblibai_format_no_query; no_query.
Qed.

Lemma liblibai_generate_signature_no_query cfg env uri :
  at_most 0 (Liblibai.generate_signature cfg env uri).
Proof. unfold Liblibai.generate_signature. no_query. Qed.

(** The loop never makes more queries than it has cycles. *)
Lemma liblibai_poll_at_most cfg vendor env base_dir base task_id vp n :
  ∀ i, at_most n (Liblibai.poll cfg vendor env base_dir base task_id vp i n).
Proof.
  induction n as [|n IH]; intros i; cbn [Liblibai.poll].
  - apply at_most_raise.
  - apply at_most_bind0; [apply (at_most_emit (EvSleep _))|intros _].
    apply at_most_bind0; [apply liblibai_generate_signature_no_query|intros sp].
    change (S n) with (1 + n)%nat.
    apply at_most_bind; [apply at_most_request|intros r].
    apply at_most_bind0; [eapply at_most_quiet, quiet_raise_for_status|intros _].
    apply at_most_bind0; [eapply at_most_quiet, quiet_response_json|intros ts].
    apply at_most_bind0.
    { unfold Liblibai.check_code, when. no_query. }
    intros _.
    apply at_most_bind0; [eapply at_most_quiet, quiet_alloc|intros empty].
    apply at_most_bind0; [eapply at_most_quiet, quiet_get|intros td].
    apply at_most_bind0; [eapply at_most_quiet, quiet_get|intros gs].
    destruct (eq_int gs 5).
    { eapply at_most_weaken; [|apply liblibai_format_no_query]. lia. }
    destruct (eq_int gs 6 || eq_int gs 7); [|apply IH].
    no_query.
Qed.

Lemma liblibai_conclude_failed vendor env base_dir td vp w :
  ∃ e, (liblibai_conclude vendor env base_dir td vp Failed w).2 = Raise e
       ∧ vendor_failure e.
Proof.
  cbn [liblibai_conclude]. unfold bind.
  destruct (py_get td "generateMsg" (VStr "Task failed or timed out") w)
    as [w' [msg|e]] eqn:E.
  - eexists. split; [reflexivity|]. left. eexists. reflexivity.
  - assert (H : is_builtin e).
    { destruct (quiet_get td "generateMsg" (VStr "Task failed or timed out") w)
        as [_ He]. apply He. rewrite E. reflexivity. }
    eexists. split; [reflexivity|]. right. exact H.
Qed.

(** ** The polling loops of both providers *)

(** C1. For either provider, the polling loop makes at most 120 status
    queries, each after a sleep of 15; when every one of the 120 replies
    carries a non-terminal status it raises the timeout error, after
    exactly 120 queries; and when the first terminal status is read at
    cycle [k] it makes exactly [k + 1] queries and none after: it formats
    the result on success and raises the vendor's failure otherwise.  The
    terminal statuses are those of the specification: for provider A the
    names [SUCCEEDED], [COMPLETE], [SUCCESS] and [FAILED], [CANCELLED],
    [ERROR], for provider B the codes 5 and 6, 7.  (For provider B the
    credentials are configured, as they are whenever the loop is
    reached.) *)
Theorem polling_is_bounded_and_stops
    cfg vendor env base_dir base task_id vp w :
  (let run := Aliyun.poll cfg vendor env task_id vp 0 Aliyun.max_retries w in
   (∃ evs, log run.1 = log w ++ evs ∧ (queries evs ≤ 120)%nat)
   ∧ ((∀ j, (j < 120)%nat →
         ∃ ts, aliyun_observed (heap w) (status_reply vendor j) = Some (ts, Pending)) →
      run = (World (heap w) (log w ++ aliyun_cycles task_id 120) (tick w),
             Raise (timeout_error task_id))
      ∧ queries (aliyun_cycles task_id 120) = 120%nat)
   ∧ (∀ k ts vd,
        (k < 120)%nat →
        (∀ j, (j < k)%nat →
           ∃ ts', aliyun_observed (heap w) (status_reply vendor j) = Some (ts', Pending)) →
        aliyun_observed (heap w) (status_reply vendor k) = Some (ts, vd) →
        vd ≠ Pending →
        run = aliyun_conclude cfg vendor env ts vp vd
                (World (heap w) (log w ++ aliyun_cycles task_id (S k)) (tick w))
        ∧ (∃ evs, log run.1 = log w ++ aliyun_cycles task_id (S k) ++ evs
                  ∧ queries evs = 0%nat)
        ∧ queries (aliyun_cycles task_id (S k)) = S k
        ∧ (vd = Failed → ∃ e, run.2 = Raise e ∧ vendor_failure e)))
  ∧
  (keys_configured cfg = true →
   let run := Liblibai.poll cfg vendor env base_dir base task_id vp 0
                Liblibai.max_retries w in
   (∃ evs, log run.1 = log w ++ evs ∧ (queries evs ≤ 120)%nat)
   ∧ ((∀ j, (j < 120)%nat →
         ∃ td, liblibai_observed (heap w) (status_reply vendor j) = Some (td, Pending)) →
      run = (World (heap w ++ repeat (ODict []) 120)
                   (log w ++ liblibai_cycles cfg env base task_id (tick w) 120)
                   (tick w + 240),
             Raise (timeout_error task_id))
      ∧ queries (liblibai_cycles cfg env base task_id (tick w) 120) = 120%nat)
   ∧ (∀ k td vd,
        (k < 120)%nat →
        (∀ j, (j < k)%nat →
           ∃ td', liblibai_observed (heap w) (status_reply vendor j) = Some (td', Pending)) →
        liblibai_observed (heap w) (status_reply vendor k) = Some (td, vd) →
        vd ≠ Pending →
        let w' := World (heap w ++ repeat (ODict []) (S k))
                    (log w ++ liblibai_cycles cfg env base task_id (tick w) (S k))
                    (tick w + 2 * S k) in
        run = liblibai_conclude vendor env base_dir td vp vd w'
        ∧ (∃ evs, log run.1 = log w' ++ evs ∧ queries evs = 0%nat)
        ∧ queries (liblibai_cycles cfg env base task_id (tick w) (S k)) = S k
        ∧ (vd = Failed → ∃ e, run.2 = Raise e ∧ vendor_failure e))).
Proof.
  split.
  - cbv zeta. unfold Aliyun.max_retries. split; [|split].
    + apply aliyun_poll_at_most.
    + intros Hall. split; [|apply queries_aliyun_cycles].
      apply aliyun_poll_timeout. exact Hall.
    + intros k ts vd Hk Hpend Hobs Hvd.
      rewrite (aliyun_poll_stops cfg vendor env task_id vp k 120 0%nat w ts vd
                 Hk Hpend Hobs Hvd).
      split; [reflexivity|]. split; [|split].
      * destruct (aliyun_conclude_no_query cfg vendor env ts vp vd
                    (World (heap w) (log w ++ aliyun_cycles task_id (S k)) (tick w)))
          as (evs & Hl & Hq).
        exists evs. cbn [log] in Hl. rewrite Hl, <- app_assoc.
        split; [reflexivity|lia].
      * apply queries_aliyun_cycles.
      * intros ->.
        destruct (aliyun_conclude_failed cfg vendor env ts vp
                    (World (heap w) (log w ++ aliyun_cycles task_id (S k)) (tick w)))
          as (e & He & Hne).
        exists e. split; [exact He|exact Hne].
  - intros Hkeys. cbv zeta. unfold Liblibai.max_retries. split; [|split].
    + apply liblibai_poll_at_most.
    + intros Hall. split; [|apply queries_liblibai_cycles].
      rewrite (liblibai_poll_timeout cfg vendor env base_dir base task_id vp 120
                 Hkeys 0%nat w Hall).
      reflexivity.
    + intros k td vd Hk Hpend Hobs Hvd.
      rewrite (liblibai_poll_stops cfg vendor env base_dir base task_id vp k
                 Hkeys 120 0%nat w td vd Hk Hpend Hobs Hvd).
      split; [reflexivity|]. split; [|split].
      * match goal with |- context [liblibai_conclude _ _ _ _ _ _ ?w'] =>
          destruct (liblibai_conclude_no_query vendor env base_dir td vp vd w')
            as (evs & Hl & Hq)
        end.
        exists evs. split; [exact Hl|lia].
      * apply queries_liblibai_cycles.
      * intros ->.
        match goal with |- context [liblibai_conclude _ _ _ _ _ _ ?w'] =>
          destruct (liblibai_conclude_failed vendor env base_dir td vp w')
            as (e & He & Hne)
        end.
        exists e. split; [exact He|exact Hne].
Qed.

Lemma polling_is_bounded_and_stops_witness :
  let cfg := Config.defaults "/srv/data" in
  ((∀ j, (j < 120)%nat →
      ∃ ts, aliyun_observed (heap example_running) (status_reply example_vendor j)
            = Some (ts, Pending))
   ∧ Aliyun.poll cfg example_vendor example_env (VStr "t-1") (VRef 0%nat) 0
       Aliyun.max_retries example_running
     = (World (heap example_running)
              (log example_running ++ aliyun_cycles (VStr "t-1") 120)
              (tick example_running),
        Raise (timeout_error (VStr "t-1")))
   ∧ queries (aliyun_cycles (VStr "t-1") 120) = 120%nat)
  ∧ ((2 < 120)%nat
     ∧ (∀ j, (j < 2)%nat →
          ∃ ts, aliyun_observed (heap example_failing_job)
                  (status_reply example_failing_vendor j) = Some (ts, Pending))
     ∧ aliyun_observed (heap example_failing_job)
         (status_reply example_failing_vendor 2) = Some (VRef 3%nat, Failed)
     ∧ Failed ≠ Pending
     ∧ Aliyun.poll cfg example_failing_vendor example_env (VStr "t-1")
         (VRef 0%nat) 0 Aliyun.max_retries example_failing_job
       = (World (heap example_failing_job)
                (log example_failing_job ++ aliyun_cycles (VStr "t-1") 3)
                (tick example_failing_job),
          Raise (ValueError [Lit "Task failed: "; Val (VStr "quota exceeded")]))
     ∧ queries (aliyun_cycles (VStr "t-1") 3) = 3%nat).
Proof.
  intros cfg. split.
  - assert (H : ∀ j, (j < 120)%nat →
              ∃ ts, aliyun_observed (heap example_running)
                      (status_reply example_vendor j) = Some (ts, Pending)).
    { intros j _. exists (VRef 0%nat). reflexivity. }
    split; [exact H|].
    exact (proj1 (proj2 (proj1 (polling_is_bounded_and_stops cfg example_vendor
             example_env "" "" (VStr "t-1") (VRef 0%nat) example_running))) H).
  - assert (Hk : (2 < 120)%nat) by lia.
    assert (Hpend : ∀ j, (j < 2)%nat →
              ∃ ts, aliyun_observed (heap example_failing_job)
                      (status_reply example_failing_vendor j) = Some (ts, Pending)).
    { intros [|[|j]] Hj; [exists (VRef 1%nat); reflexivity ..|lia]. }
    assert (Hvd : Failed ≠ Pending) by discriminate.
    split; [exact Hk|]. split; [exact Hpend|]. split; [reflexivity|].
    split; [exact Hvd|].
    destruct (proj2 (proj2 (proj1 (polling_is_bounded_and_stops cfg
                example_failing_vendor example_env "" "" (VStr "t-1")
                (VRef 0%nat) example_failing_job)))
                2%nat (VRef 3%nat) Failed Hk Hpend eq_refl Hvd)
      as (Hrun & _ & Hq & _).
    split; [rewrite Hrun; reflexivity|exact Hq].
Defined.

(** The loop, run on a task that never ends: 120 queries, then the
    timeout; and on a task already succeeded: one query, no more. *)
Example aliyun_poll_times_out :
  let run := Aliyun.poll (Config.defaults "/srv/data") example_vendor
               example_env (VStr "t-1") (VRef 0%nat) 0 Aliyun.max_retries
               example_running in
  run.2 = Raise (timeout_error (VStr "t-1")) ∧ queries (log run.1) = 120%nat.
Proof. vm_compute. split; reflexivity. Qed.

Example aliyun_poll_stops_at_success :
  let run := Aliyun.poll (Config.defaults "/srv/data") example_vendor
               example_env (VStr "t-1") (VRef 5%nat) 0 Aliyun.max_retries
               example_success in
  queries (log run.1) = 1%nat
  ∧ match run.2 with
    | Ok fr => length (Aliyun.images fr) = 2%nat
    | Raise _ => False
    end.
Proof. vm_compute. split; reflexivity. Qed.

(** ** Materializing the result *)







Lemma truthy_run w v : py_truthy v w = (w, Ok (truthy (heap w) v)).
Proof. reflexivity. Qed.




Lemma dict_has_get k d : dict_has k d = true → ∃ v, dict_get k d = Some v.
Proof. unfold dict_has. destruct (dict_get k d); [eauto|discriminate]. Qed.










(** The task of the witness, run: two artifacts, the second without a
    local path. *)
Example aliyun_partial_download_run :
  match (Aliyun._format_response_and_download_images (Config.defaults "/srv/data")
           example_vendor example_env (VRef 0%nat) (VRef 5%nat)
           example_success).2 with
  | Ok fr =>
      map Aliyun.local_path (Aliyun.images fr) =
        ["/srv/data/images/aliyun/20240101_000000_0_01234567.png"; ""]
      ∧ Aliyun.width fr = Some (VInt 1024)
      ∧ Aliyun.height fr = Some (VInt 1024)
  | Raise _ => False
  end.
Proof. vm_compute. repeat split. Qed.


(** Outside the conditions of the amended claim a succeeded job can still
    end in an error.  A [size] given as the integer 1024 passes validation,
    and the formatter raises after the images are downloaded. *)
Example integer_size_raises_after_downloads :
  let cfg := Config.defaults "/srv/data" in
  let w := World [ODict [("request_id", VStr "r-1"); ("output", VRef 1%nat)];
                  ODict [("task_status", VStr "SUCCEEDED");
                         ("results", VRef 2%nat)];
                  OList [VRef 3%nat];
                  ODict [("url", VStr "http://img/1.png")];
                  ODict [("prompt", VStr "x"); ("size", VInt 1024)]] [] 0 in
  match Aliyun.validate_parameters cfg "wanx2.1-t2i-turbo" (VRef 4%nat) w with
  | (w1, Ok vp) =>
      let run := Aliyun._format_response_and_download_images cfg example_vendor
                   example_env (VRef 0%nat) vp w1 in
      run.2 = Raise (Builtin AttributeError)
      ∧ List.filter (λ ev, match ev with EvDownload _ _ => true | _ => false end)
          (log run.1)
        = [EvDownload (VStr "http://img/1.png")
             "/srv/data/images/aliyun/20240101_000000_0_01234567.png"]
  | _ => False
  end.
Proof. vm_compute. split; reflexivity. Qed.

(** And when the image directory cannot be made, the formatter raises
    before any download. *)
Example unmade_directory_raises :
  let env := {| time_ms := time_ms example_env;
                uuid4_hex := uuid4_hex example_env;
                strftime := strftime example_env;
                makedirs_ok := λ _, false |} in
  Aliyun._format_response_and_download_images (Config.defaults "/srv/data")
    example_vendor env (VRef 0%nat) (VRef 5%nat) example_success
  = (World (heap example_success ++ [ODict []; OList []]) [] 2,
     Raise (Builtin OSError)).
Proof. vm_compute. reflexivity. Qed.

(* ================================================================== *)
(** * Further properties of the code *)
(* ================================================================== *)

Lemma at_most_try {A} k (m : M A) (h : exn → M A) :
  at_most k m → (∀ e, at_most 0 (h e)) → at_most k (try_except m h).
Proof.
  intros Hm Hh w. unfold try_except.
  destruct (Hm w) as (evs & Hl & Hq).
  destruct (m w) as [w1 [a|e]] eqn:E; cbn [fst] in *.
  - exists evs. split; [exact Hl|exact Hq].
  - destruct (Hh e w1) as (evs' & Hl' & Hq').
    exists (evs ++ evs'). rewrite Hl', Hl, <- app_assoc. split; [reflexivity|].
    rewrite queries_app. lia.
Qed.

Lemma aliyun_handle_errors_no_query {A} e :
  at_most 0 (Aliyun.handle_errors e : M A).
Proof. unfold Aliyun.handle_errors. no_query. Qed.

Lemma liblibai_handle_errors_no_query {A} e :
  at_most 0 (Liblibai.handle_errors e : M A).
Proof. unfold Liblibai.handle_errors. no_query. Qed.

Lemma aliyun_validate_no_query cfg model parameters :
  at_most 0 (Aliyun.validate_parameters cfg model parameters).
Proof.
  unfold Aliyun.validate_parameters, when. no_query.
Qed.

Lemma aliyun_build_no_query vp : at_most 0 (Aliyun.build_request_data vp).
Proof. unfold Aliyun.build_request_data. no_query. Qed.

Lemma liblibai_validate_no_query cfg model parameters :
  at_most 0 (Liblibai.validate_parameters cfg model parameters).
Proof.
  unfold Liblibai.validate_parameters, Liblibai.require, Liblibai.ensure_generateParams,
    Liblibai.default_param, Liblibai.default_template, Liblibai.generateParams, when.
  no_query.
Qed.

Lemma liblibai_check_code_no_query b : at_most 0 (Liblibai.check_code b).
Proof. unfold Liblibai.check_code, when. no_query. Qed.

Lemma liblibai_endpoint_no_query model vp : at_most 0 (Liblibai.api_endpoint_of model vp).
Proof. unfold Liblibai.api_endpoint_of. no_query. Qed.

(** X1. one call of either provider makes at most 121 requests to the
    vendor's API, whatever the vendor answers: the request that creates the
    task and at most 120 status queries. *)
Theorem call_model_request_bound cfg vendor env base_dir model parameters :
  at_most 121 (Aliyun.call_model cfg vendor env model parameters)
  ∧ at_most 121 (Liblibai.call_model cfg vendor env base_dir model parameters).
Proof.
  split.
  - unfold Aliyun.call_model.
    apply at_most_bind0; [apply aliyun_validate_no_query|intros vp].
    apply at_most_if; [apply at_most_raise|].
    apply at_most_try; [|intros e; apply aliyun_handle_errors_no_query].
    apply at_most_bind0; [apply aliyun_build_no_query|intros rd].
    apply (at_most_bind 1 120); [apply at_most_request|intros r].
    apply at_most_bind0; [eapply at_most_quiet, quiet_raise_for_status|intros _].
    apply at_most_bind0; [eapply at_most_quiet, quiet_response_json|intros tr].
    apply at_most_bind0; [eapply at_most_quiet, quiet_alloc|intros em].
    apply at_most_bind0; [eapply at_most_quiet, quiet_get|intros out].
    apply at_most_bind0; [eapply at_most_quiet, quiet_get|intros tid].
    apply at_most_bind0; [eapply at_most_quiet, quiet_truthy|intros t].
    apply at_most_if; [apply at_most_raise|].
    apply aliyun_poll_at_most.
  - unfold Liblibai.call_model.
    apply at_most_bind0; [apply liblibai_validate_no_query|intros vp].
    apply at_most_bind0; [apply liblibai_endpoint_no_query|intros ep].
    apply at_most_bind0; [apply liblibai_generate_signature_no_query|intros sp].
    apply at_most_try; [|intros e; apply liblibai_handle_errors_no_query].
    apply at_most_bind0; [eapply at_most_quiet, quiet_getitem|intros tpl].
    apply at_most_bind0; [eapply at_most_quiet, quiet_getitem|intros g].
    apply (at_most_bind 1 120); [apply at_most_request|intros r].
    apply at_most_bind0; [eapply at_most_quiet, quiet_raise_for_status|intros _].
    apply at_most_bind0; [eapply at_most_quiet, quiet_response_json|intros tr].
    apply at_most_bind0; [apply liblibai_check_code_no_query|intros _].
    apply at_most_bind0; [eapply at_most_quiet, quiet_alloc|intros em].
    apply at_most_bind0; [eapply at_most_quiet, quiet_get|intros data].
    apply at_most_bind0; [eapply at_most_quiet, quiet_get|intros gid].
    apply at_most_bind0; [eapply at_most_quiet, quiet_truthy|intros t].
    apply at_most_if; [apply at_most_raise|].
    apply liblibai_poll_at_most.
Qed.

(** Steps that leave the log as it is, whatever they raise. *)
Ltac calm := repeat (first
  [ apply respects_ret | (apply respects_raise; exact I)
  | (apply respects_bind; [|intros ?])
  | apply respects_when | apply respects_if
  | (eapply respects_weaken; [intros ? _; exact I|]; first
      [ apply quiet_contains | apply quiet_getitem | apply quiet_get
      | apply quiet_truthy | apply quiet_alloc | apply quiet_iter
      | apply quiet_items | apply quiet_setitem | apply quiet_copy
      | apply quiet_lower | apply quiet_int ])
  | match goal with
    | |- respects _ (match ?x with _ => _ end) => destruct x
    end ]).

Lemma aliyun_validate_calm cfg model parameters :
  respects (λ _, True) (Aliyun.validate_parameters cfg model parameters).
Proof. unfold Aliyun.validate_parameters. calm. Qed.

Lemma liblibai_validate_calm cfg model parameters :
  respects (λ _, True) (Liblibai.validate_parameters cfg model parameters).
Proof.
  unfold Liblibai.validate_parameters, Liblibai.require, Liblibai.ensure_generateParams,
    Liblibai.default_param, Liblibai.default_template, Liblibai.generateParams.
  calm.
Qed.

Lemma liblibai_endpoint_calm model vp :
  respects (λ _, True) (Liblibai.api_endpoint_of model vp).
Proof. unfold Liblibai.api_endpoint_of. calm. Qed.

(** X2. without credentials neither provider sends anything: [call_model]
    raises with the log of requests as it was, and once the parameters have
    passed validation (and, for provider B, the endpoint is chosen) the
    error is the one that names the missing key. *)
Theorem call_model_without_credentials
    cfg vendor env base_dir model parameters w :
  (Config.ALIYUN_API_KEY cfg = "" →
   let run := Aliyun.call_model cfg vendor env model parameters w in
   log run.1 = log w
   ∧ ∃ e, run.2 = Raise e
          ∧ ∀ w1 vp,
              Aliyun.validate_parameters cfg model parameters w = (w1, Ok vp) →
              e = ValueError [Lit "Aliyun API key not configured"])
  ∧ (keys_configured cfg = false →
     let run := Liblibai.call_model cfg vendor env base_dir model parameters w in
     log run.1 = log w
     ∧ ∃ e, run.2 = Raise e
            ∧ ∀ w1 vp w2 endpoint,
                Liblibai.validate_parameters cfg model parameters w = (w1, Ok vp) →
                Liblibai.api_endpoint_of model vp w1 = (w2, Ok endpoint) →
                e = ValueError [Lit "LiblibAI API keys not configured"]).
Proof.
  split.
  - intros Hkey. cbv zeta. unfold Aliyun.call_model. rewrite Hkey.
    cbn [String.eqb]. unfold bind.
    destruct (aliyun_validate_calm cfg model parameters w) as [Hl _].
    destruct (Aliyun.validate_parameters cfg model parameters w) as [w1 [vp|e]];
      cbn [fst snd] in *.
    + split; [exact Hl|]. eexists. split; [reflexivity|]. reflexivity.
    + split; [exact Hl|]. exists e. split; [reflexivity|]. intros ? ? [=].
  - intros Hkeys. cbv zeta. unfold Liblibai.call_model, bind.
    destruct (liblibai_validate_calm cfg model parameters w) as [Hl _].
    destruct (Liblibai.validate_parameters cfg model parameters w) as [w1 [vp|e]];
      cbn [fst snd] in *.
    + destruct (liblibai_endpoint_calm model vp w1) as [Hl1 _].
      destruct (Liblibai.api_endpoint_of model vp w1) as [w2 [ep|e]] eqn:Eep;
        cbn [fst snd] in *.
      * unfold Liblibai.generate_signature. unfold keys_configured in Hkeys.
        apply negb_false_iff in Hkeys. rewrite Hkeys. cbn.
        split; [congruence|]. eexists. split; [reflexivity|]. reflexivity.
      * split; [congruence|]. exists e. split; [reflexivity|].
        intros ? ? ? ? [= <- <-] Hep. congruence.
    + split; [exact Hl|]. exists e. split; [reflexivity|]. intros ? ? ? ? [=].
Qed.

Lemma call_model_without_credentials_witness :
  let cfg := Config.defaults "/srv/data" in
  let w := World [ODict [("prompt", VStr "a cat")]] [] 0 in
  Config.ALIYUN_API_KEY cfg = ""
  ∧ (Aliyun.call_model cfg example_vendor example_env "wanx2.1-t2i-turbo"
       (VRef 0%nat) w).2
    = Raise (ValueError [Lit "Aliyun API key not configured"])
  ∧ log (Aliyun.call_model cfg example_vendor example_env "wanx2.1-t2i-turbo"
           (VRef 0%nat) w).1 = [].
Proof.
  intros cfg w.
  pose proof (proj1 (call_model_without_credentials cfg example_vendor example_env
                       "" "wanx2.1-t2i-turbo" (VRef 0%nat) w) eq_refl) as H.
  split; [reflexivity|]. split; [reflexivity|]. exact (proj1 H).
Defined.

Lemma build_request_data_exact w a dv :
  heap w !! a = Some (ODict dv) →
  dict_has "model" dv = true →
  dict_has "prompt" dv = true →
  Aliyun.build_request_data (VRef a) w = (w, Ok (aliyun_request (heap w) dv)).
Proof.
  intros Ha Hm Hpr. unfold Aliyun.build_request_data, aliyun_request, aliyun_input.
  apply dict_has_get in Hm as [m Hm]. apply dict_has_get in Hpr as [pr Hpr].
  erewrite bind_ok by (eapply getitem_dict; eassumption).
  erewrite bind_ok by (eapply getitem_dict; eassumption).
  erewrite bind_ok by (eapply get_dict; eassumption).
  erewrite bind_ok by apply truthy_run.
  rewrite Hm, Hpr. cbn [default from_option id].
  destruct (dict_get "negative_prompt" dv) as [neg|] eqn:En; cbn [default from_option id].
  - destruct (truthy (heap w) neg) eqn:Tn.
    + erewrite bind_ok by (erewrite bind_ok by (eapply getitem_dict; eassumption); reflexivity).
      erewrite bind_ok by (eapply get_dict; eassumption).
      erewrite bind_ok by apply truthy_run.
      destruct (dict_get "ref_img" dv) as [ref|] eqn:Er; cbn [default from_option id].
      * destruct (truthy (heap w) ref) eqn:Tr.
        -- erewrite bind_ok by (erewrite bind_ok by (eapply getitem_dict; eassumption); reflexivity).
           erewrite bind_ok by (eapply items_dict; eassumption). reflexivity.
        -- erewrite bind_ok by reflexivity.
           erewrite bind_ok by (eapply items_dict; eassumption). reflexivity.
      * cbn [truthy]. erewrite bind_ok by reflexivity.
        erewrite bind_ok by (eapply items_dict; eassumption). reflexivity.
    + erewrite bind_ok by reflexivity.
      erewrite bind_ok by (eapply get_dict; eassumption).
      erewrite bind_ok by apply truthy_run.
      destruct (dict_get "ref_img" dv) as [ref|] eqn:Er; cbn [default from_option id].
      * destruct (truthy (heap w) ref) eqn:Tr.
        -- erewrite bind_ok by (erewrite bind_ok by (eapply getitem_dict; eassumption); reflexivity).
           erewrite bind_ok by (eapply items_dict; eassumption). reflexivity.
        -- erewrite bind_ok by reflexivity.
           erewrite bind_ok by (eapply items_dict; eassumption). reflexivity.
      * cbn [truthy]. erewrite bind_ok by reflexivity.
        erewrite bind_ok by (eapply items_dict; eassumption). reflexivity.
  - cbn [truthy]. erewrite bind_ok by reflexivity.
    erewrite bind_ok by (eapply get_dict; eassumption).
    erewrite bind_ok by apply truthy_run.
    destruct (dict_get "ref_img" dv) as [ref|] eqn:Er; cbn [default from_option id].
    + destruct (truthy (heap w) ref) eqn:Tr.
      * erewrite bind_ok by (erewrite bind_ok by (eapply getitem_dict; eassumption); reflexivity).
        erewrite bind_ok by (eapply items_dict; eassumption). reflexivity.
      * erewrite bind_ok by reflexivity.
        erewrite bind_ok by (eapply items_dict; eassumption). reflexivity.
    + cbn [truthy]. erewrite bind_ok by reflexivity.
      erewrite bind_ok by (eapply items_dict; eassumption). reflexivity.
Qed.

Lemma special_get dv k : ∀ sp acc,
  Forall (λ ab : string * string, ab.1 = ab.2) sp →
  dict_get k (fold_left (special_item dv) sp acc) =
  if Aliyun.str_in k (map fst sp)
  then match dict_get k dv with Some v => Some v | None => dict_get k acc end
  else dict_get k acc.
Proof.
  induction sp as [|[a b] sp IH]; intros acc Hsp; [reflexivity|].
  inversion Hsp as [|? ? Hab Hrest]; subst. cbn [fst snd] in Hab. subst b.
  cbn [fold_left map fst]. rewrite IH by exact Hrest.
  unfold Aliyun.str_in. cbn [existsb]. fold (Aliyun.str_in k (map fst sp)).
  unfold special_item.
  destruct (String.eqb_spec k a) as [->|Hne]; cbn [orb].
  - destruct (dict_get a dv) as [v|] eqn:E.
    + rewrite dict_get_set, String.eqb_refl. destruct (Aliyun.str_in a _); reflexivity.
    + destruct (Aliyun.str_in a _); reflexivity.
  - apply String.eqb_neq in Hne.
    destruct (dict_get a dv) as [v|] eqn:E; [|reflexivity].
    rewrite dict_get_set, Hne. reflexivity.
Qed.

Lemma forward_skip k : ∀ items ps,
  Aliyun.str_in k aliyun_recognized = true →
  dict_get k (fold_left forward_item items ps) = dict_get k ps.
Proof.
  induction items as [|[k0 v0] items IH]; intros ps Hk; [reflexivity|].
  cbn [fold_left]. rewrite IH by exact Hk. unfold forward_item.
  destruct (negb (Aliyun.str_in k0 Aliyun.exclude_keys) &&
            negb (Aliyun.str_in k0 (map fst Aliyun.special_params))) eqn:E;
    [|reflexivity].
  rewrite dict_get_set.
  destruct (String.eqb_spec k k0) as [->|]; [|reflexivity].
  exfalso. apply andb_true_iff in E as [E1 E2].
  apply negb_true_iff in E1, E2.
  change aliyun_recognized
    with (Aliyun.exclude_keys ++ map fst Aliyun.special_params) in Hk.
  unfold Aliyun.str_in in *. rewrite existsb_app, E1, E2 in Hk. discriminate.
Qed.

Lemma dict_get_not_in k (d : dict) : k ∉ map fst d → dict_get k d = None.
Proof.
  induction d as [|[k0 v0] d IH]; [reflexivity|].
  cbn [map fst]. intros Hk. apply not_elem_of_cons in Hk as [Hne Hk].
  cbn [dict_get]. apply String.eqb_neq in Hne. rewrite Hne. now apply IH.
Qed.

Lemma dict_get_in k (d : dict) : k ∈ map fst d → ∃ v, dict_get k d = Some v.
Proof.
  intros Hk. apply dict_has_elem_of in Hk. now apply dict_has_get.
Qed.

(** The [parameters] object of the request body, key by key. *)
Lemma request_parameters_get h dv k :
  NoDup (map fst dv) →
  dict_get k (Aliyun.rq_parameters (aliyun_request h dv)) =
  if Aliyun.str_in k Aliyun.exclude_keys then None else dict_get k dv.
Proof.
  intros Hnd. cbn [aliyun_request Aliyun.rq_parameters].
  assert (Hsp : Forall (λ ab : string * string, ab.1 = ab.2) Aliyun.special_params).
  { unfold Aliyun.special_params. repeat constructor. }
  destruct (Aliyun.str_in k aliyun_recognized) eqn:Hrec.
  - rewrite forward_skip by exact Hrec.
    rewrite special_get by exact Hsp. cbn [dict_get].
    change aliyun_recognized
      with (Aliyun.exclude_keys ++ map fst Aliyun.special_params) in Hrec.
    unfold Aliyun.str_in in *. rewrite existsb_app in Hrec.
    destruct (existsb (String.eqb k) Aliyun.exclude_keys) eqn:Eex.
    + assert (existsb (String.eqb k) (map fst Aliyun.special_params) = false)
        as ->; [|reflexivity].
      unfold Aliyun.exclude_keys in Eex. cbn [existsb] in Eex.
      repeat (apply orb_true_iff in Eex as [Eex|Eex];
              [apply String.eqb_eq in Eex; subst k; reflexivity|]).
      discriminate.
    + cbn [orb] in Hrec. rewrite Hrec. destruct (dict_get k dv); reflexivity.
  - assert (Hex : Aliyun.str_in k Aliyun.exclude_keys = false).
    { change aliyun_recognized
        with (Aliyun.exclude_keys ++ map fst Aliyun.special_params) in Hrec.
      unfold Aliyun.str_in in *. rewrite existsb_app in Hrec.
      now apply orb_false_iff in Hrec as [? _]. }
    rewrite Hex.
    destruct (dict_get k dv) as [x|] eqn:Ex.
    + apply forward_present; assumption.
    + rewrite forward_absent.
      * rewrite special_get by exact Hsp. cbn [dict_get].
        rewrite Ex.
        destruct (Aliyun.str_in k (map fst Aliyun.special_params)); reflexivity.
      * intros Hin. apply dict_get_in in Hin as [v Hv]. congruence.
Qed.

(** X3. the request body of provider A.  Its [parameters] object is the
    validated mapping without the four keys [model], [prompt],
    [negative_prompt] and [ref_img]: these never appear in it, and every
    other key appears with its value.  Its [input] holds the prompt, the
    negative prompt only when it is non-empty, and the reference image,
    renamed [ref_image], only when one is given. *)
Theorem aliyun_request_body_shape w a dv :
  heap w !! a = Some (ODict dv) →
  NoDup (map fst dv) →
  dict_has "model" dv = true →
  dict_has "prompt" dv = true →
  ∃ rd,
    Aliyun.build_request_data (VRef a) w = (w, Ok rd)
    ∧ Some (Aliyun.rq_model rd) = dict_get "model" dv
    ∧ (∀ k, dict_get k (Aliyun.rq_parameters rd) =
            if Aliyun.str_in k Aliyun.exclude_keys then None else dict_get k dv)
    ∧ dict_get "prompt" (Aliyun.rq_input rd) = dict_get "prompt" dv
    ∧ dict_get "negative_prompt" (Aliyun.rq_input rd) =
        match dict_get "negative_prompt" dv with
        | Some v => if truthy (heap w) v then Some v else None
        | None => None
        end
    ∧ dict_get "ref_image" (Aliyun.rq_input rd) =
        match dict_get "ref_img" dv with
        | Some v => if truthy (heap w) v then Some v else None
        | None => None
        end
    ∧ (∀ k, k ≠ "prompt" → k ≠ "negative_prompt" → k ≠ "ref_image" →
            dict_get k (Aliyun.rq_input rd) = None).
Proof.
  intros Ha Hnd Hm Hpr. exists (aliyun_request (heap w) dv).
  split; [now apply build_request_data_exact|].
  split.
  { cbn. apply dict_has_get in Hm as [m ->]. reflexivity. }
  split; [intros k; now apply request_parameters_get|].
  cbn [aliyun_request Aliyun.rq_input]. unfold aliyun_input.
  apply dict_has_get in Hpr as [pr Hpr]. rewrite Hpr. cbn [default from_option id].
  destruct (dict_get "negative_prompt" dv) as [neg|]; cbn [default from_option id truthy];
    [destruct (truthy (heap w) neg)|];
    (destruct (dict_get "ref_img" dv) as [ref|]; cbn [default from_option id truthy];
     [destruct (truthy (heap w) ref)|]);
    (repeat split; try reflexivity;
     intros k H1 H2 H3; apply String.eqb_neq in H1, H2, H3;
     cbn [dict_set dict_get String.eqb Ascii.eqb Bool.eqb]; cbn [dict_get];
     rewrite ?H1, ?H2, ?H3; reflexivity).
Qed.

Lemma dict_set_same k v d : dict_get k d = Some v → dict_set k v d = d.
Proof.
  induction d as [|[k0 v0] d IH]; [discriminate|].
  cbn [dict_get dict_set].
  destruct (String.eqb_spec k k0) as [->|Hne].
  - now intros [= ->].
  - intros H. now rewrite IH.
Qed.

Lemma setdefault_same k v d : dict_has k d = true → setdefault k v d = d.
Proof. unfold setdefault. now intros ->. Qed.

(** A validated mapping is a fixed point of the normalization. *)
Lemma norm_fixed_point model d :
  coercible (dict_get "n" d) = true →
  coercible (dict_get "seed" d) = true →
  AliyunNorm.norm model (AliyunNorm.norm model d).1
  = ((AliyunNorm.norm model d).1, Ok tt).
Proof.
  intros Hn Hs.
  destruct (norm_defaults model d Hn Hs)
    as (Hmodel & _ & Hsize & Hnn & Hneg & Hstyle & Hseed & Href & Hrr).
  set (dv := (AliyunNorm.norm model d).1) in *.
  unfold AliyunNorm.norm at 1.
  rewrite (dict_set_same "model" _ dv Hmodel).
  rewrite Hsize. cbn [default from_option id].
  rewrite (dict_set_same "size" _ dv Hsize).
  rewrite Hnn. cbn [py_int].
  set (z := match dict_get "n" d with Some _ => _ | None => _ end) in *.
  assert (Hz : AliyunNorm.clamp z = z).
  { unfold AliyunNorm.clamp. subst z.
    destruct (dict_get "n" d) as [v|]; [destruct (py_int v)|]; lia. }
  rewrite Hz, (dict_set_same "n" _ dv Hnn).
  rewrite (setdefault_same "negative_prompt") by (unfold dict_has; now rewrite Hneg).
  rewrite (setdefault_same "style") by (unfold dict_has; now rewrite Hstyle).
  assert (Hd6 : (if dict_has "ref_img" dv
                 then setdefault "ref_mode" (VStr "repaint")
                        (setdefault "ref_strength" (VFloat (FFinite 1 0)) dv)
                 else dv) = dv).
  { unfold dict_has at 1. rewrite Href. fold (dict_has "ref_img" d).
    destruct (dict_has "ref_img" d); [|reflexivity].
    destruct Hrr as [H1 H2].
    rewrite (setdefault_same "ref_strength") by (unfold dict_has; now rewrite H1).
    rewrite (setdefault_same "ref_mode") by (unfold dict_has; now rewrite H2).
    reflexivity. }
  rewrite Hd6, Hseed.
  unfold coercible in Hs.
  destruct (dict_get "seed" d) as [v|]; [|reflexivity].
  destruct (py_int v) as [s|]; [|discriminate].
  cbn [py_int]. rewrite dict_set_same; [reflexivity|].
  rewrite Hseed. reflexivity.
Qed.

(** X4. validation by provider A is idempotent.  Validating a mapping that
    [validate_parameters] has returned yields a copy with the very same
    entries, in the same order: no default is applied twice and [n] is not
    clamped further. *)
Theorem aliyun_validation_idempotent cfg model p w d :
  heap w !! p = Some (ODict d) →
  existsb (String.eqb model) (Aliyun.supported_models cfg) = true →
  dict_has "prompt" d = true →
  coercible (dict_get "n" d) = true →
  coercible (dict_get "seed" d) = true →
  ∃ dv,
    Aliyun.validate_parameters cfg model (VRef p) w =
      (set_heap (heap w ++ [ODict dv]) w, Ok (VRef (length (heap w))))
    ∧ ∀ w' q,
        heap w' !! q = Some (ODict dv) →
        Aliyun.validate_parameters cfg model (VRef q) w' =
          (set_heap (heap w' ++ [ODict dv]) w', Ok (VRef (length (heap w')))).
Proof.
  intros Hp Hm Hpr Hn Hs.
  exists (AliyunNorm.norm model d).1. split.
  - rewrite (aliyun_validate_run cfg model p w d Hp Hm Hpr).
    rewrite (norm_ok model d Hn Hs). reflexivity.
  - intros w' q Hq.
    assert (Hpr' : dict_has "prompt" (AliyunNorm.norm model d).1 = true).
    { destruct (norm_defaults model d Hn Hs) as (_ & H & _).
      unfold dict_has in *. now rewrite H. }
    rewrite (aliyun_validate_run cfg model q w' _ Hq Hm Hpr').
    rewrite norm_fixed_point by assumption. reflexivity.
Qed.

Lemma aliyun_validation_idempotent_witness :
  let d := [("prompt", VStr "x"); ("n", VStr "9"); ("seed", VStr " 42 ")] in
  let w := World [ODict d] [] 0 in
  let cfg := Config.defaults "/srv/data" in
  heap w !! 0%nat = Some (ODict d)
  ∧ existsb (String.eqb "wanx2.1-t2i-turbo") (Aliyun.supported_models cfg) = true
  ∧ dict_has "prompt" d = true
  ∧ coercible (dict_get "n" d) = true
  ∧ coercible (dict_get "seed" d) = true
  ∧ ∃ dv,
      Aliyun.validate_parameters cfg "wanx2.1-t2i-turbo" (VRef 0%nat) w =
        (set_heap (heap w ++ [ODict dv]) w, Ok (VRef (length (heap w))))
      ∧ ∀ w' q,
          heap w' !! q = Some (ODict dv) →
          Aliyun.validate_parameters cfg "wanx2.1-t2i-turbo" (VRef q) w' =
            (set_heap (heap w' ++ [ODict dv]) w', Ok (VRef (length (heap w')))).
Proof.
  intros d w cfg. repeat (split; [reflexivity|]).
  apply (aliyun_validation_idempotent cfg "wanx2.1-t2i-turbo" 0%nat w d);
    reflexivity.
Defined.

(** The witness, run twice: the string ["9"] is clamped to 4 and the second
    pass changes nothing. *)
Example aliyun_validation_twice :
  let d := [("prompt", VStr "x"); ("n", VStr "9"); ("seed", VStr " 42 ")] in
  let dv := [("prompt", VStr "x"); ("n", VInt 4); ("seed", VInt 42);
             ("model", VStr "wanx2.1-t2i-turbo"); ("size", VStr "1024*1024");
             ("negative_prompt", VStr ""); ("style", VStr "<auto>")] in
  let cfg := Config.defaults "/srv/data" in
  Aliyun.validate_parameters cfg "wanx2.1-t2i-turbo" (VRef 0%nat)
    (World [ODict d] [] 0)
  = (World [ODict d; ODict dv] [] 0, Ok (VRef 1%nat))
  ∧ Aliyun.validate_parameters cfg "wanx2.1-t2i-turbo" (VRef 1%nat)
      (World [ODict d; ODict dv] [] 0)
    = (World [ODict d; ODict dv; ODict dv] [] 0, Ok (VRef 2%nat)).
Proof. split; reflexivity. Qed.

Lemma aliyun_accepts_inv cfg model d :
  aliyun_accepts cfg model d = true →
  existsb (String.eqb model) (Aliyun.supported_models cfg) = true
  ∧ dict_has "prompt" d = true
  ∧ coercible (dict_get "n" d) = true ∧ coercible (dict_get "seed" d) = true.
Proof.
  unfold aliyun_accepts. intros H.
  apply andb_true_iff in H as [H H4]. apply andb_true_iff in H as [H H3].
  apply andb_true_iff in H as [H1 H2]. auto.
Qed.

(** [call_model] up to the reply to the creation request. *)
Lemma aliyun_call_model_post cfg vendor env model p w d :
  heap w !! p = Some (ODict d) →
  aliyun_accepts cfg model d = true →
  Config.ALIYUN_API_KEY cfg ≠ "" →
  let dv := (AliyunNorm.norm model d).1 in
  let vp := VRef (length (heap w)) in
  let w1 := World (heap w ++ [ODict dv]) (log w ++ [aliyun_post cfg model (heap w) d])
                  (tick w) in
  Aliyun.call_model cfg vendor env model (VRef p) w =
  try_except (
    response ← lift (match create_reply vendor with
                     | Some x => Ok x
                     | None => Raise (Builtin RequestError)
                     end);
    raise_for_status response;;
    task_result ← response_json response;
    empty ← alloc (ODict []);
    output ← py_get task_result "output" empty;
    task_id ← py_get output "task_id" VNone;
    t ← py_truthy task_id;
    if negb t then
      raise (ValueError
        [Lit "Failed to get task_id from response: "; Val task_result])
    else
      Aliyun.poll cfg vendor env task_id vp 0 Aliyun.max_retries
  ) Aliyun.handle_errors w1.
Proof.
  intros Hp Hacc Hkey dv vp w1.
  apply aliyun_accepts_inv in Hacc as (Hm & Hpr & Hn & Hs).
  unfold Aliyun.call_model.
  erewrite bind_ok
    by (rewrite (aliyun_validate_run cfg model p w d Hp Hm Hpr);
        rewrite (norm_ok model d Hn Hs); reflexivity).
  apply String.eqb_neq in Hkey. rewrite Hkey.
  unfold try_except.
  set (w0 := set_heap (heap w ++ [ODict dv]) w).
  assert (Hdv : heap w0 !! length (heap w) = Some (ODict dv)) by apply lookup_top.
  destruct (norm_defaults model d Hn Hs) as (Hmodel & Hprompt & _).
  assert (H1 : dict_has "model" dv = true) by (unfold dict_has; subst dv; now rewrite Hmodel).
  assert (H2 : dict_has "prompt" dv = true).
  { unfold dict_has in *. subst dv. now rewrite Hprompt. }
  erewrite bind_ok by (apply build_request_data_exact; eassumption).
  unfold request at 1. rewrite !bind_assoc.
  unfold emit at 1. unfold bind at 1.
  unfold bind at 1.
  destruct (create_reply vendor) as [r|]; reflexivity.
Qed.

Lemma lookup_app_old (h ext : list obj) a o :
  h !! a = Some o → (h ++ ext) !! a = Some o.
Proof. intros H. now apply lookup_app_l_Some. Qed.

(** [call_model] from the reply to the creation request on, when the reply
    carries a task identifier. *)
Lemma aliyun_call_model_created cfg vendor env model p w d tid :
  heap w !! p = Some (ODict d) →
  aliyun_accepts cfg model d = true →
  Config.ALIYUN_API_KEY cfg ≠ "" →
  aliyun_created (aliyun_store model (heap w) d) (create_reply vendor) = Some tid →
  Aliyun.call_model cfg vendor env model (VRef p) w =
  try_except
    (Aliyun.poll cfg vendor env tid (VRef (length (heap w))) 0 Aliyun.max_retries)
    Aliyun.handle_errors
    (World (aliyun_store model (heap w) d)
           (log w ++ [aliyun_post cfg model (heap w) d]) (tick w)).
Proof.
  intros Hp Hacc Hkey Hc.
  rewrite (aliyun_call_model_post cfg vendor env model p w d Hp Hacc Hkey).
  cbv zeta. unfold aliyun_created in Hc.
  destruct (create_reply vendor) as [r|]; [|discriminate].
  destruct (success_code r) eqn:Hsc; [|discriminate].
  destruct (json_body r) as [[| | | | |a]|] eqn:Hj; try discriminate.
  destruct (aliyun_store model (heap w) d !! a) as [[body|]|] eqn:Ha; try discriminate.
  destruct (dict_get "output" body) as [[| | | | |o]|] eqn:Ho; try discriminate.
  destruct (aliyun_store model (heap w) d !! o) as [[od|]|] eqn:Hod; try discriminate.
  destruct (dict_get "task_id" od) as [v|] eqn:Hv; [|discriminate].
  destruct (truthy (aliyun_store model (heap w) d) v) eqn:Ht; [|discriminate].
  injection Hc as ->.
  unfold try_except. f_equal.
  erewrite bind_ok by reflexivity.
  unfold raise_for_status. unfold success_code in Hsc. rewrite Hsc.
  erewrite bind_ok by reflexivity.
  unfold response_json. rewrite Hj.
  erewrite bind_ok by reflexivity.
  erewrite bind_ok by reflexivity.
  set (w3 := set_heap _ _).
  assert (Hh : heap w3 = aliyun_store model (heap w) d).
  { subst w3. unfold aliyun_store. cbn. rewrite <- app_assoc. reflexivity. }
  erewrite bind_ok by (eapply get_dict; rewrite Hh; exact Ha).
  rewrite Ho. cbn [default from_option id].
  erewrite bind_ok by (eapply get_dict; rewrite Hh; exact Hod).
  rewrite Hv. cbn [default from_option id].
  erewrite bind_ok by apply truthy_run.
  rewrite Hh, Ht. cbn [negb].
  f_equal. subst w3. unfold set_heap. cbn [heap log tick] in *. cbn in Hh.
  rewrite Hh. reflexivity.
Qed.

Lemma get_not_dict w c k dflt :
  (∀ a d, c = VRef a → heap w !! a = Some (ODict d) → False) →
  py_get c k dflt w = (w, Raise (Builtin AttributeError)).
Proof.
  intros H. unfold py_get. destruct c as [| | | | |a]; try reflexivity.
  destruct (heap w !! a) as [[d|l]|] eqn:E; try reflexivity.
  destruct (H a d eq_refl E).
Qed.

(** The steps of [call_model] between the creation request and the loop,
    when the reply carries no task identifier: they raise, and log nothing. *)
Lemma aliyun_not_created cfg vendor env vp r w1 :
  aliyun_created (heap w1 ++ [ODict []]) (Some r) = None →
  ∃ w' e,
    (raise_for_status r;;
     task_result ← response_json r;
     empty ← alloc (ODict []);
     output ← py_get task_result "output" empty;
     task_id ← py_get output "task_id" VNone;
     t ← py_truthy task_id;
     if negb t then
       raise (ValueError
         [Lit "Failed to get task_id from response: "; Val task_result])
     else Aliyun.poll cfg vendor env task_id vp 0 Aliyun.max_retries) w1
    = (w', Raise e)
    ∧ log w' = log w1
    ∧ (success_code r = false → e = Builtin (HTTPStatusError r))
    ∧ (success_code r = true → ∀ r', e ≠ Builtin (HTTPStatusError r'))
    ∧ (∀ a body,
         success_code r = true → json_body r = Some (VRef a) →
         heap w1 !! a = Some (ODict body) → dict_get "output" body = None →
         e = ValueError [Lit "Failed to get task_id from response: ";
                         Val (VRef a)]).
Proof.
  intros Hc. unfold aliyun_created in Hc.
  unfold raise_for_status. fold (success_code r).
  destruct (success_code r) eqn:Hsc.
  2:{ erewrite bind_raise by reflexivity. eexists _, _.
      split; [reflexivity|]. split; [reflexivity|]. split; [reflexivity|].
      split; [discriminate|]. intros ? ? [=]. }
  erewrite bind_ok by reflexivity.
  unfold response_json.
  destruct (json_body r) as [tr|] eqn:Hj.
  2:{ erewrite bind_raise by reflexivity. eexists _, _.
      split; [reflexivity|]. split; [reflexivity|]. split; [discriminate|].
      split; [intros _ ?; discriminate|]. intros ? ? _ [=]. }
  erewrite bind_ok by reflexivity.
  erewrite bind_ok by reflexivity.
  set (w2 := set_heap (heap w1 ++ [ODict []]) w1).
  change (heap w1 ++ [ODict []]) with (heap w2) in Hc.
  assert (Hlog : log w2 = log w1) by reflexivity.
  assert (Hold : ∀ a o, heap w1 !! a = Some o → heap w2 !! a = Some o).
  { intros a o H. subst w2. cbn. now apply lookup_app_old. }
  assert (Hnew : heap w2 !! length (heap w1) = Some (ODict [])).
  { subst w2. cbn. apply lookup_top. }
  clearbody w2.
  (* the body is not an object of the store *)
  assert (Hbody : (∃ a body, tr = VRef a ∧ heap w2 !! a = Some (ODict body))
                  ∨ (∀ a body, tr = VRef a → heap w2 !! a = Some (ODict body) → False)).
  { destruct tr as [| | | | |a]; try solve [right; intros ? ? [=]].
    destruct (heap w2 !! a) as [[body|l]|] eqn:E.
    - left. eauto.
    - right. intros ? ? [= <-] H. congruence.
    - right. intros ? ? [= <-] H. congruence. }
  destruct Hbody as [(a & body & -> & Ha)|Hbody].
  2:{ erewrite bind_raise by (apply get_not_dict; exact Hbody).
      eexists _, _. split; [reflexivity|]. split; [exact Hlog|].
      split; [discriminate|]. split; [intros _ ?; discriminate|].
      intros a body _ [= ->] Hb _. exfalso. eapply Hbody; eauto. }
  rewrite Ha in Hc.
  erewrite bind_ok by (eapply get_dict; exact Ha).
  destruct (dict_get "output" body) as [out|] eqn:Ho; cbn [default from_option id].
  - (* an [output] is given *)
    assert (Hout : (∃ o od, out = VRef o ∧ heap w2 !! o = Some (ODict od))
                   ∨ (∀ o od, out = VRef o → heap w2 !! o = Some (ODict od) → False)).
    { destruct out as [| | | | |o]; try solve [right; intros ? ? [=]].
      destruct (heap w2 !! o) as [[od|l]|] eqn:E.
      - left. eauto.
      - right. intros ? ? [= <-] H. congruence.
      - right. intros ? ? [= <-] H. congruence. }
    destruct Hout as [(o & od & -> & Hod)|Hout].
    2:{ erewrite bind_raise by (apply get_not_dict; exact Hout).
        eexists _, _. split; [reflexivity|]. split; [exact Hlog|].
        split; [discriminate|]. split; [intros _ ?; discriminate|].
        intros a' body' _ Heq Hb Hno. assert (a' = a) as -> by congruence.
        apply Hold in Hb. pose proof (eq_trans (eq_sym Ha) Hb) as Hbb.
        injection Hbb as <-. congruence. }
    rewrite Hod in Hc.
    erewrite bind_ok by (eapply get_dict; exact Hod).
    erewrite bind_ok by apply truthy_run.
    assert (Ht : truthy (heap w2) (default VNone (dict_get "task_id" od)) = false).
    { destruct (dict_get "task_id" od) as [v|]; [|reflexivity].
      cbn [default from_option id].
      destruct (truthy (heap w2) v); [discriminate|reflexivity]. }
    rewrite Ht. cbn [negb].
    eexists _, _. split; [reflexivity|]. split; [exact Hlog|].
    split; [discriminate|]. split; [intros _ ?; discriminate|].
    intros a' body' _ Heq Hb Hno. assert (a' = a) as -> by congruence.
        apply Hold in Hb. pose proof (eq_trans (eq_sym Ha) Hb) as Hbb.
        injection Hbb as <-. congruence.
  - (* no [output]: the empty dictionary stands for it *)
    erewrite bind_ok by (eapply get_dict; exact Hnew).
    erewrite bind_ok by apply truthy_run.
    cbn [dict_get default from_option id truthy negb].
    eexists _, _. split; [reflexivity|]. split; [exact Hlog|].
    split; [discriminate|]. split; [intros _ ?; discriminate|].
    intros a' body' _ [= <-] _ _. reflexivity.
Qed.

(** X5. when the reply to the creation request carries no task identifier,
    provider A raises after that one request and never polls.  A failed
    request, an error status, and a body without [output] each have their
    own message; the last two keep the vendor's body in it. *)
Theorem aliyun_creation_failure cfg vendor env model p w d :
  heap w !! p = Some (ODict d) →
  aliyun_accepts cfg model d = true →
  Config.ALIYUN_API_KEY cfg ≠ "" →
  aliyun_created (aliyun_store model (heap w) d) (create_reply vendor) = None →
  ∃ w' msg,
    Aliyun.call_model cfg vendor env model (VRef p) w = (w', Raise (ValueError msg))
    ∧ log w' = log w ++ [aliyun_post cfg model (heap w) d]
    ∧ (create_reply vendor = None →
       msg = [Lit "Aliyun API error: "; Msg RequestError])
    ∧ (∀ r, create_reply vendor = Some r → success_code r = false →
         ∃ detail, msg = [Lit "Aliyun API HTTP error: ";
                          Val (VInt (status_code r)); Lit ", "; Val detail])
    ∧ (∀ r, create_reply vendor = Some r → success_code r = true →
         ∃ rest, msg = Lit "Aliyun API error: " :: rest)
    ∧ (∀ r a body,
         create_reply vendor = Some r → success_code r = true →
         json_body r = Some (VRef a) → heap w !! a = Some (ODict body) →
         dict_get "output" body = None →
         msg = [Lit "Aliyun API error: ";
                Lit "Failed to get task_id from response: "; Val (VRef a)]).
Proof.
  intros Hp Hacc Hkey Hc.
  rewrite (aliyun_call_model_post cfg vendor env model p w d Hp Hacc Hkey).
  cbv zeta. unfold try_except.
  set (w1 := World _ _ _).
  destruct (create_reply vendor) as [r|] eqn:Hr.
  2:{ erewrite bind_raise by reflexivity. cbn.
      eexists _, _. split; [reflexivity|]. split; [reflexivity|].
      split; [reflexivity|]. split; [intros ? [=]|]. split; [intros ? [=]|].
      intros ? ? ? [=]. }
  erewrite bind_ok by reflexivity.
  destruct (aliyun_not_created cfg vendor env (VRef (length (heap w))) r w1)
    as (w' & e & Hrun & Hlog & Hbad & Hgood & Hmiss).
  { subst w1. cbn [heap]. unfold aliyun_store in Hc. rewrite <- app_assoc. exact Hc. }
  rewrite Hrun.
  destruct (success_code r) eqn:Hsc.
  - assert (He : Aliyun.handle_errors (A := Aliyun.formatted_response) e w' =
                 (w', Raise (ValueError (Lit "Aliyun API error: " :: exn_str e)))).
    { destruct e as [m|[]]; try reflexivity. destruct (Hgood eq_refl r0 eq_refl). }
    rewrite He. eexists _, _. split; [reflexivity|].
    split; [rewrite Hlog; reflexivity|].
    split; [discriminate|]. split; [intros ? [= <-]; congruence|].
    split; [eauto|].
    intros r0 a body [= <-] _ Hj Ha Hno.
    rewrite (Hmiss a body eq_refl Hj) ; [reflexivity| |exact Hno].
    subst w1. cbn [heap]. now apply lookup_app_old.
  - rewrite (Hbad eq_refl). cbn [Aliyun.handle_errors].
    destruct (json_body r) as [v|].
    + erewrite bind_ok by reflexivity. eexists _, _. split; [reflexivity|].
      split; [rewrite Hlog; reflexivity|]. split; [discriminate|].
      split; [intros ? [= <-] _; eauto|].
      split; [intros ? [= <-]; congruence|]. intros ? ? ? [= <-]; congruence.
    + erewrite bind_ok by reflexivity. eexists _, _. split; [reflexivity|].
      split; [cbn; rewrite Hlog; reflexivity|]. split; [discriminate|].
      split; [intros ? [= <-] _; eauto|].
      split; [intros ? [= <-]; congruence|]. intros ? ? ? [= <-]; congruence.
Qed.

Ltac plain_prim :=
  let w := fresh "w" in
  intros w; cbv beta delta [py_contains py_getitem py_setitem py_get py_copy
    py_items py_iter py_truthy alloc lift draw];
  repeat match goal with
  | |- context [match ?x with _ => _ end] => destruct x
  end; simpl; (split; [reflexivity|]);
  try discriminate; intros ? [= <-] ?; discriminate.

Lemma plain_contains k c : respects no_status (py_contains k c).
Proof. plain_prim. Qed.
Lemma plain_getitem c k : respects no_status (py_getitem c k).
Proof. plain_prim. Qed.
Lemma plain_get c k v : respects no_status (py_get c k v).
Proof. plain_prim. Qed.

Lemma aliyun_read_error_plain ts : respects no_status (Aliyun.read_error ts).
Proof.
  unfold Aliyun.read_error.
  repeat first
    [ apply respects_ret | (apply respects_bind; [|intros ?])
    | apply respects_if | apply plain_contains | apply plain_getitem
    | apply plain_get ].
Qed.

Lemma aliyun_read_error_run w ts m :
  aliyun_failure_message (heap w) ts = Some m →
  Aliyun.read_error ts w = (w, Ok m).
Proof.
  unfold aliyun_failure_message, Aliyun.read_error.
  destruct ts as [| | | | |a]; try discriminate.
  destruct (heap w !! a) as [[b|]|] eqn:Ha; try discriminate.
  erewrite bind_ok by (eapply get_dict; exact Ha).
  erewrite bind_ok by (eapply contains_dict; exact Ha).
  unfold dict_has.
  destruct (dict_get "output" b) as [[| | | | |o]|] eqn:Ho; try discriminate.
  - destruct (heap w !! o) as [[ob|]|] eqn:Hob; try discriminate.
    intros [= <-].
    erewrite bind_ok
      by (erewrite bind_ok by (eapply getitem_dict; eassumption);
          eapply contains_dict; exact Hob).
    unfold dict_has.
    destruct (dict_get "message" ob) as [v|] eqn:Hv; cbn [default from_option id].
    + erewrite bind_ok by (eapply getitem_dict; eassumption).
      eapply getitem_dict; eassumption.
    + reflexivity.
  - intros [= <-]. erewrite bind_ok by reflexivity. reflexivity.
Qed.

Lemma aliyun_handle_plain {A} e w :
  no_status e →
  Aliyun.handle_errors (A := A) e w =
  (w, Raise (ValueError (Lit "Aliyun API error: " :: exn_str e))).
Proof.
  intros H. destruct e as [m|[]]; try reflexivity. destruct (H r eq_refl).
Qed.

(** X6. a call of provider A, once the task is created.  The replies are
    read in the store as it stands when polling starts.  If all 120
    status replies are non-terminal, the caller gets the timeout message
    behind the prefix of the provider, after 121 requests.  If the first
    terminal status is read at cycle [k], exactly [k + 2] requests are made:
    on success the formatted result is returned as it is, and on failure the
    caller gets an error that carries the vendor's message. *)
Theorem aliyun_call_model_outcome cfg vendor env model p w d tid :
  heap w !! p = Some (ODict d) →
  aliyun_accepts cfg model d = true →
  Config.ALIYUN_API_KEY cfg ≠ "" →
  let h := aliyun_store model (heap w) d in
  let vp := VRef (length (heap w)) in
  let post := aliyun_post cfg model (heap w) d in
  let run := Aliyun.call_model cfg vendor env model (VRef p) w in
  aliyun_created h (create_reply vendor) = Some tid →
  ((∀ j, (j < 120)%nat →
      ∃ ts, aliyun_observed h (status_reply vendor j) = Some (ts, Pending)) →
   run = (World h (log w ++ post :: aliyun_cycles tid 120) (tick w),
          Raise (ValueError
            [Lit "Aliyun API error: "; Lit "Task "; Val tid;
             Lit " did not complete within expected time"]))
   ∧ queries (post :: aliyun_cycles tid 120) = 121%nat)
  ∧ (∀ k ts vd,
       (k < 120)%nat →
       (∀ j, (j < k)%nat →
          ∃ ts', aliyun_observed h (status_reply vendor j) = Some (ts', Pending)) →
       aliyun_observed h (status_reply vendor k) = Some (ts, vd) →
       let wk := World h (log w ++ post :: aliyun_cycles tid (S k)) (tick w) in
       queries (post :: aliyun_cycles tid (S k)) = S (S k)
       ∧ (vd = Succeeded →
          ∀ w' fr,
            Aliyun._format_response_and_download_images cfg vendor env ts vp wk
              = (w', Ok fr) →
            run = (w', Ok fr))
       ∧ (vd = Failed →
          (∃ w' rest,
             run = (w', Raise (ValueError (Lit "Aliyun API error: " :: rest)))
             ∧ log w' = log wk)
          ∧ ∀ m, aliyun_failure_message h ts = Some m →
              run = (wk, Raise (ValueError
                       [Lit "Aliyun API error: "; Lit "Task failed: "; Val m])))).
Proof.
  intros Hp Hacc Hkey h vp post run Hc. subst run.
  rewrite (aliyun_call_model_created cfg vendor env model p w d tid Hp Hacc Hkey Hc).
  fold h post vp. unfold Aliyun.max_retries.
  assert (Hq : ∀ n, queries (post :: aliyun_cycles tid n) = S n).
  { intros n. change (post :: aliyun_cycles tid n) with ([post] ++ aliyun_cycles tid n).
    rewrite queries_app, queries_aliyun_cycles. reflexivity. }
  split.
  - intros Hall. split; [|apply Hq].
    unfold try_except.
    rewrite (aliyun_poll_timeout cfg vendor env tid vp 120 0%nat
               (World h (log w ++ [post]) (tick w)) Hall).
    cbn [heap log tick]. rewrite <- app_assoc. reflexivity.
  - intros k ts vd Hk Hpend Hobs. cbv zeta.
    set (wk := World h (log w ++ post :: aliyun_cycles tid (S k)) (tick w)).
    split; [apply Hq|].
    assert (Hstop : vd ≠ Pending →
              Aliyun.poll cfg vendor env tid vp 0 120 (World h (log w ++ [post]) (tick w))
              = aliyun_conclude cfg vendor env ts vp vd wk).
    { intros Hvd.
      rewrite (aliyun_poll_stops cfg vendor env tid vp k 120 0%nat
                 (World h (log w ++ [post]) (tick w)) ts vd Hk Hpend Hobs Hvd).
      subst wk. cbn [heap log tick]. rewrite <- app_assoc. reflexivity. }
    split.
    + intros -> w' fr Hfmt. unfold try_except.
      rewrite Hstop by discriminate. cbn [aliyun_conclude]. rewrite Hfmt. reflexivity.
    + intros ->. unfold try_except. rewrite Hstop by discriminate.
      cbn [aliyun_conclude]. split.
      * unfold bind.
        destruct (aliyun_read_error_plain ts wk) as [Hl He].
        destruct (Aliyun.read_error ts wk) as [w' [m|e]]; cbn [fst snd] in *.
        -- cbn. eexists _, _. split; [reflexivity|exact Hl].
        -- rewrite aliyun_handle_plain by (apply He; reflexivity).
           eexists _, _. split; [reflexivity|exact Hl].
      * intros m Hm.
        erewrite bind_ok by (apply aliyun_read_error_run; exact Hm). reflexivity.
Qed.

Lemma gp_kept_update_g w0 w g o :
  gp_kept w0 w g → gp_kept w0 (set_heap (<[g := o]> (heap w)) w) g.
Proof.
  intros (Hl & Ht & Hf). split; [exact Hl|]. split; [exact Ht|].
  intros x o' Hx Hne. cbn [heap set_heap].
  rewrite list_lookup_insert_ne by (intros ?; subst; contradiction). now apply Hf.
Qed.

Lemma gp_kept_update_a w0 w g a o :
  gp_kept w0 w g → heap w0 !! a = None →
  gp_kept w0 (set_heap (<[a := o]> (heap w)) w) g.
Proof.
  intros (Hl & Ht & Hf) Ha. split; [exact Hl|]. split; [exact Ht|].
  intros x o' Hx Hne. cbn [heap set_heap].
  rewrite list_lookup_insert_ne
    by (intros ?; subst; pose proof (eq_trans (eq_sym Ha) Hx); discriminate).
  now apply Hf.
Qed.

Lemma default_param_kept w0 w a dv g dg k rhs v :
  gp_state w a dv g dg → gp_kept w0 w g →
  (∀ w', gp_state w' a dv g dg → rhs w' = (w', Ok v)) →
  ∃ w1, Liblibai.default_param (VRef a) k rhs w = (w1, Ok tt)
        ∧ gp_state w1 a dv g (setdefault k v dg) ∧ gp_kept w0 w1 g.
Proof.
  intros Hst Hk Hrhs. unfold Liblibai.default_param.
  erewrite bind_ok by (eapply generateParams_run; eassumption).
  erewrite bind_ok by (eapply contains_dict; apply Hst).
  unfold setdefault. destruct (dict_has k dg); simpl.
  - eexists. split; [reflexivity|]. split; assumption.
  - erewrite bind_ok by (apply Hrhs; assumption).
    erewrite bind_ok by (eapply generateParams_run; eassumption).
    erewrite setitem_dict by apply Hst.
    eexists. split; [reflexivity|]. split.
    + eapply gp_state_update_g; eassumption.
    + now apply gp_kept_update_g.
Qed.

Lemma default_template_kept w0 w a dv g dg rhs v :
  gp_state w a dv g dg → gp_kept w0 w g → heap w0 !! a = None →
  (dict_has "templateUuid" dv = false → rhs w = (w, Ok v)) →
  ∃ w1, Liblibai.default_template (VRef a) rhs w = (w1, Ok tt)
        ∧ gp_state w1 a (setdefault "templateUuid" v dv) g dg ∧ gp_kept w0 w1 g.
Proof.
  intros Hst Hk Ha Hrhs. unfold Liblibai.default_template.
  erewrite bind_ok by (eapply contains_dict; apply Hst).
  unfold setdefault. destruct (dict_has "templateUuid" dv); simpl.
  - eexists. split; [reflexivity|]. split; assumption.
  - erewrite bind_ok by (apply Hrhs; reflexivity).
    erewrite setitem_dict by apply Hst.
    eexists. split; [reflexivity|]. split.
    + now apply gp_state_update_a.
    + now apply gp_kept_update_a.
Qed.

Lemma aspect_kept {A} w0 w a dv g dg (rest : M A) :
  gp_state w a dv g dg → gp_kept w0 w g →
  ∃ w1,
    (g0 ← Liblibai.generateParams (VRef a);
     has_aspect ← py_contains "aspectRatio" g0;
     neither ← (if negb has_aspect then
                  g' ← Liblibai.generateParams (VRef a);
                  has_size ← py_contains "imageSize" g';
                  ret (negb has_size)
                else ret false);
     when neither (
       g' ← Liblibai.generateParams (VRef a);
       py_setitem g' "aspectRatio" (VStr "portrait"));;
     rest) w = rest w1
    ∧ gp_state w1 a dv g (aspect_default dg) ∧ gp_kept w0 w1 g.
Proof.
  intros Hst Hk. unfold aspect_default.
  erewrite bind_ok by (eapply generateParams_run; eassumption).
  erewrite bind_ok by (eapply contains_dict; apply Hst).
  destruct (dict_has "aspectRatio" dg); cbn [negb orb].
  - erewrite bind_ok by reflexivity. cbn [when].
    erewrite bind_ok by reflexivity. eauto.
  - rewrite bind_assoc.
    erewrite bind_ok by (eapply generateParams_run; eassumption).
    rewrite bind_assoc.
    erewrite bind_ok by (eapply contains_dict; apply Hst).
    erewrite bind_ok by reflexivity.
    destruct (dict_has "imageSize" dg); cbn [negb when].
    + erewrite bind_ok by reflexivity. eauto.
    + rewrite bind_assoc.
      erewrite bind_ok by (eapply generateParams_run; eassumption).
      erewrite bind_ok by (eapply setitem_dict; apply Hst).
      eexists. split; [reflexivity|]. split.
      * eapply gp_state_update_g; eassumption.
      * now apply gp_kept_update_g.
Qed.

(** [generateParams] made sure of, in the world that holds the copy. *)
Lemma ensure_generateParams_kept h l t d dg :
  gp_input (World h l t) d dg →
  ∃ w1 g dv,
    Liblibai.ensure_generateParams (VRef (length h)) (top h d l t) = (w1, Ok tt)
    ∧ gp_state w1 (length h) dv g dg
    ∧ gp_kept (World h l t) w1 g
    ∧ (∀ g0, dict_get "generateParams" d = Some (VRef g0) → g = g0)
    ∧ (dict_get "generateParams" d = None → h !! g = None)
    ∧ (∀ k, String.eqb k "generateParams" = false → dict_get k dv = dict_get k d).
Proof.
  unfold gp_input. intros Hin. unfold Liblibai.ensure_generateParams.
  erewrite bind_ok by apply contains_top.
  unfold dict_has. destruct (dict_get "generateParams" d) as [v|] eqn:E; simpl.
  - destruct Hin as (g & -> & Hg). simpl in Hg.
    exists (top h d l t), g, d. split; [reflexivity|].
    split; [|split; [|split; [|split]]].
    + split; [apply lookup_lt_Some in Hg; lia|].
      split; [apply lookup_top|]. split; [|exact E].
      simpl. now apply lookup_app_l_Some.
    + split; [reflexivity|]. split; [reflexivity|].
      intros x o Hx _. simpl. now apply lookup_app_l_Some.
    + now intros ? [= <-].
    + discriminate.
    + reflexivity.
  - subst dg. erewrite bind_ok by reflexivity.
    assert (Hlen : length (h ++ [ODict d]) = S (length h))
      by (rewrite length_app; simpl; lia).
    assert (Ha : ((h ++ [ODict d]) ++ [ODict []]) !! length h = Some (ODict d)).
    { rewrite lookup_app_l by lia. apply lookup_top. }
    erewrite setitem_dict by exact Ha.
    cbn [top heap set_heap log tick]. rewrite Hlen.
    exists (World (<[length h := ODict (dict_set "generateParams" (VRef (S (length h))) d)]>
                     ((h ++ [ODict d]) ++ [ODict []])) l t),
           (S (length h)),
           (dict_set "generateParams" (VRef (S (length h))) d).
    split; [reflexivity|].
    split; [|split; [|split; [|split]]].
    + split; [lia|]. cbn [heap]. split; [|split].
      * rewrite list_lookup_insert_eq; [reflexivity|].
        rewrite length_app. simpl. lia.
      * rewrite list_lookup_insert_ne by lia.
        rewrite <- Hlen. apply lookup_top.
      * rewrite dict_get_set. reflexivity.
    + split; [reflexivity|]. split; [reflexivity|].
      intros x o Hx _. cbn [heap].
      assert (x < length h)%nat by (eapply lookup_lt_Some; exact Hx).
      rewrite list_lookup_insert_ne by lia.
      rewrite <- app_assoc. now apply lookup_app_l_Some.
    + discriminate.
    + intros _. apply lookup_ge_None. lia.
    + intros k Hk. rewrite dict_get_set, Hk. reflexivity.
Qed.

Ltac dpk v :=
  rewrite bind_assoc;
  match goal with
  | Hst : gp_state ?w ?a _ _ _, Hk : gp_kept ?w0 ?w _
    |- context [bind (Liblibai.default_param (VRef ?a) ?k ?rhs) _ ?w] =>
      let w' := fresh "w" in
      let Hr := fresh "Hrun" in
      let Hs := fresh "Hst" in
      let Hk' := fresh "Hk" in
      destruct (default_param_kept w0 w a _ _ _ k rhs v Hst Hk)
        as (w' & Hr & Hs & Hk');
      [ try reflexivity
      | erewrite bind_ok by exact Hr; clear Hr Hst Hk ]
  end.

Lemma liblibai_known_inv model :
  liblibai_known model = true →
  model = "star-3-alpha-t2i" ∨ model = "star-3-alpha-i2i" ∨ model = "liblib-custom".
Proof.
  unfold liblibai_known. cbn [existsb]. intros H.
  repeat (apply orb_true_iff in H as [H|H]; [apply String.eqb_eq in H; auto|]).
  discriminate.
Qed.

(** Validation by provider B for one of its three models, on a mapping
    that holds the required keys. *)
Lemma liblibai_validate_run cfg model p w d dg0 base :
  heap w !! p = Some (ODict d) →
  existsb (String.eqb model) (Liblibai.supported_models cfg) = true →
  liblibai_known model = true →
  first_missing (required_keys ProviderB model) d = None →
  gp_input w d dg0 →
  (model = "liblib-custom" → dict_has "templateUuid" d = false →
   base_input d base) →
  ∃ w' g dv,
    Liblibai.validate_parameters cfg model (VRef p) w
      = (w', Ok (VRef (length (heap w))))
    ∧ gp_state w' (length (heap w)) dv g (liblibai_params model d dg0)
    ∧ gp_kept w w' g
    ∧ (∀ g0, dict_get "generateParams" d = Some (VRef g0) → g = g0)
    ∧ (dict_get "generateParams" d = None → heap w !! g = None)
    ∧ dict_get "templateUuid" dv =
        Some (default (VStr (liblibai_template model dg0 base))
                      (dict_get "templateUuid" d))
    ∧ dict_get "model" dv = Some (VStr model)
    ∧ (∀ k, k ≠ "model" → k ≠ "generateParams" → k ≠ "templateUuid" →
            dict_get k dv = dict_get k d).
Proof.
  intros Hp Hm Hknown Hreq Hin Hbase.
  pose proof (first_missing_none _ _ Hreq) as Hkeys.
  liblibai_open Hp Hm.
  set (d1 := dict_set "model" _ d).
  assert (Hd1 : ∀ k, String.eqb k "model" = false → dict_get k d1 = dict_get k d).
  { intros k Hk. subst d1. rewrite dict_get_set, Hk. reflexivity. }
  assert (Hnone : heap w !! length (heap w) = None) by (apply lookup_ge_None; lia).
  destruct (ensure_generateParams_kept (heap w) (log w) (tick w) d1 dg0)
    as (w1 & g & dv & Hrun & Hst & Hk & Hg0 & Hgn & Hdv).
  { apply gp_input_set_model. destruct w; exact Hin. }
  assert (Hk0 : gp_kept w w1 g) by (destruct w; exact Hk). clear Hk.
  assert (Hgd : dict_get "generateParams" d1 = dict_get "generateParams" d)
    by (apply Hd1; reflexivity).
  rewrite Hgd in Hg0, Hgn.
  assert (Hget : ∀ k dg, String.eqb k "model" = false →
            String.eqb k "generateParams" = false → dict_has k d = true →
            ∀ w', gp_state w' (length (heap w)) dv g dg →
                  py_getitem (VRef (length (heap w))) k w'
                  = (w', Ok (default VNone (dict_get k d)))).
  { intros k dg H1 H2 Hh w' Hw'. apply dict_has_get in Hh as [v Hv]. rewrite Hv.
    eapply getitem_dict; [apply Hw'|]. rewrite Hdv, Hd1 by assumption. exact Hv. }
  assert (Hreq1 : ∀ k msg, String.eqb k "model" = false → dict_has k d = true →
            Liblibai.require (VRef (length (heap w))) k msg
              (top (heap w) d1 (log w) (tick w))
            = (top (heap w) d1 (log w) (tick w), Ok tt)).
  { intros k msg Hk1 Hh. rewrite require_run with (d := d1) by apply lookup_top.
    unfold dict_has in *. rewrite Hd1 by exact Hk1.
    destruct (dict_get k d); [reflexivity|discriminate]. }
  assert (Hfin : ∀ (wl : world) dg tpl,
            gp_state wl (length (heap w)) (setdefault "templateUuid" tpl dv) g dg →
            gp_kept w wl g →
            dict_get "templateUuid" (setdefault "templateUuid" tpl dv) =
              Some (default tpl (dict_get "templateUuid" d))
            ∧ dict_get "model" (setdefault "templateUuid" tpl dv) = Some (VStr model)
            ∧ (∀ k, k ≠ "model" → k ≠ "generateParams" → k ≠ "templateUuid" →
                    dict_get k (setdefault "templateUuid" tpl dv) = dict_get k d)).
  { intros wl dg tpl _ _. split; [|split].
    - rewrite dict_get_setdefault, String.eqb_refl.
      rewrite Hdv, Hd1 by reflexivity. reflexivity.
    - rewrite dict_get_setdefault. cbn [String.eqb Ascii.eqb Bool.eqb].
      rewrite Hdv by reflexivity. subst d1. rewrite dict_get_set, String.eqb_refl.
      reflexivity.
    - intros k H1 H2 H3. apply String.eqb_neq in H1, H2, H3.
      rewrite dict_get_setdefault, H3, Hdv, Hd1 by assumption. reflexivity. }
  destruct (liblibai_known_inv model Hknown) as [->|[->| ->]];
    cbn [String.eqb Ascii.eqb Bool.eqb andb];
    unfold required_keys in Hkeys; cbn [String.eqb Ascii.eqb Bool.eqb andb] in Hkeys.
  - (* text to image *)
    assert (Hpr : dict_has "prompt" d = true) by (apply Hkeys; repeat constructor).
    rewrite bind_assoc. erewrite bind_ok by (apply Hreq1; [reflexivity|exact Hpr]).
    rewrite bind_assoc. erewrite bind_ok by exact Hrun. clear Hrun.
    dpk (default VNone (dict_get "prompt" d)).
    { intros w' Hw'. eapply Hget; [reflexivity|reflexivity|exact Hpr|exact Hw']. }
    match goal with
    | Hst : gp_state ?wx _ _ _ ?dgx, Hk : gp_kept _ ?wx _ |- _ =>
        destruct (aspect_kept w wx _ dv g dgx
          (Liblibai.default_param (VRef (length (heap w))) "imgCount" (ret (VInt 1));;
           Liblibai.default_template (VRef (length (heap w)))
             (ret (VStr "5d7e67009b344550bc1aa6ccbfa1d7f4"))) Hst Hk)
          as (w3 & Hrun3 & Hst3 & Hk3); clear Hst Hk
    end.
    rewrite (bind_cong _ _ _ _ _ Hrun3). clear Hrun3.
    dpk (VInt 1).
    match goal with
    | Hst : gp_state ?wx _ _ _ ?dgx, Hk : gp_kept _ ?wx _ |- _ =>
        destruct (default_template_kept w wx _ dv g dgx
                    (ret (VStr "5d7e67009b344550bc1aa6ccbfa1d7f4"))
                    (VStr "5d7e67009b344550bc1aa6ccbfa1d7f4") Hst Hk Hnone)
          as (wz & Hrunz & Hstz & Hkz); [reflexivity|]
    end.
    erewrite bind_ok by exact Hrunz.
    eexists wz, g, _. split; [reflexivity|]. split; [exact Hstz|].
    split; [exact Hkz|]. split; [exact Hg0|]. split; [exact Hgn|].
    eapply Hfin; eassumption.
  - (* image to image *)
    assert (Hpr : dict_has "prompt" d = true) by (apply Hkeys; repeat constructor).
    assert (Hsrc : dict_has "sourceImage" d = true) by (apply Hkeys; repeat constructor).
    rewrite bind_assoc. erewrite bind_ok by (apply Hreq1; [reflexivity|exact Hpr]).
    rewrite bind_assoc. erewrite bind_ok by (apply Hreq1; [reflexivity|exact Hsrc]).
    rewrite bind_assoc. erewrite bind_ok by exact Hrun. clear Hrun.
    dpk (default VNone (dict_get "prompt" d)).
    { intros w' Hw'. eapply Hget; [reflexivity|reflexivity|exact Hpr|exact Hw']. }
    dpk (default VNone (dict_get "sourceImage" d)).
    { intros w' Hw'. eapply Hget; [reflexivity|reflexivity|exact Hsrc|exact Hw']. }
    dpk (VInt 768). dpk (VInt 1024). dpk (VInt 1).
    match goal with
    | Hst : gp_state ?wx _ _ _ ?dgx, Hk : gp_kept _ ?wx _ |- _ =>
        destruct (default_template_kept w wx _ dv g dgx
                    (ret (VStr "07e00af4fc464c7ab55ff906f8acf1b7"))
                    (VStr "07e00af4fc464c7ab55ff906f8acf1b7") Hst Hk Hnone)
          as (wz & Hrunz & Hstz & Hkz); [reflexivity|]
    end.
    erewrite bind_ok by exact Hrunz.
    eexists wz, g, _. split; [reflexivity|]. split; [exact Hstz|].
    split; [exact Hkz|]. split; [exact Hg0|]. split; [exact Hgn|].
    eapply Hfin; eassumption.
  - (* custom checkpoint *)
    assert (Hck : dict_has "checkPointId" d = true) by (apply Hkeys; repeat constructor).
    assert (Hpr : dict_has "prompt" d = true) by (apply Hkeys; repeat constructor).
    rewrite bind_assoc. erewrite bind_ok by (apply Hreq1; [reflexivity|exact Hck]).
    rewrite bind_assoc. erewrite bind_ok by (apply Hreq1; [reflexivity|exact Hpr]).
    rewrite bind_assoc. erewrite bind_ok by exact Hrun. clear Hrun.
    dpk (default VNone (dict_get "checkPointId" d)).
    { intros w' Hw'. eapply Hget; [reflexivity|reflexivity|exact Hck|exact Hw']. }
    dpk (default VNone (dict_get "prompt" d)).
    { intros w' Hw'. eapply Hget; [reflexivity|reflexivity|exact Hpr|exact Hw']. }
    dpk (VInt 15). dpk (VInt 20). dpk (VInt 7).
    dpk (VInt 768). dpk (VInt 1024). dpk (VInt 1). dpk (VInt (-1)).
    match goal with
    | Hst : gp_state ?wx _ _ _ ?dgx, Hk : gp_kept _ ?wx _ |- _ =>
        set (dg := dgx) in *; rename Hst into Hstl; rename Hk into Hkl
    end.
    assert (Hbv : dict_has "templateUuid" dv = false →
              default (VStr "") (dict_get "baseModelType" dv) = VStr base).
    { intros Ht. rewrite Hdv, Hd1 by reflexivity.
      assert (Hb : base_input d base).
      { apply Hbase; [reflexivity|]. unfold dict_has in *.
        rewrite Hdv, Hd1 in Ht by reflexivity. exact Ht. }
      unfold base_input in Hb.
      destruct (dict_get "baseModelType" d); simpl; congruence. }
    assert (Hsi : dict_has "sourceImage" dg = dict_has "sourceImage" dg0).
    { subst dg. dict_simpl. reflexivity. }
    match goal with
    | |- context [bind (Liblibai.default_template _ ?rhs) _ ?wl] =>
        destruct (default_template_kept w wl (length (heap w)) dv g dg rhs
          (VStr (custom_template (denotes_f1 base) (dict_has "sourceImage" dg0)))
          Hstl Hkl Hnone) as (wz & Hrunz & Hstz & Hkz)
    end.
    { intros Ht.
      erewrite bind_ok by (eapply get_dict; apply Hstl).
      rewrite (Hbv Ht). erewrite bind_ok by reflexivity.
      erewrite bind_ok by (eapply generateParams_run; exact Hstl).
      erewrite bind_ok by (eapply contains_dict; apply Hstl).
      rewrite Hsi. unfold custom_template, denotes_f1. reflexivity. }
    erewrite bind_ok by exact Hrunz.
    eexists wz, g, _. split; [reflexivity|]. split; [exact Hstz|].
    split; [exact Hkz|]. split; [exact Hg0|]. split; [exact Hgn|].
    eapply Hfin; eassumption.
Qed.

Lemma gp_state_lookups w a dv g dg :
  gp_state w a dv g dg →
  heap w !! a = Some (ODict dv) ∧ heap w !! g = Some (ODict dg)
  ∧ dict_get "generateParams" dv = Some (VRef g).
Proof. intros (_ & H1 & H2 & H3). auto. Qed.

(** X7. provider B, model [star-3-alpha-i2i].  On a mapping that holds
    [prompt] and [sourceImage], validation copies both into
    [generateParams] unless they are there already, fills [width = 768],
    [height = 1024] and [imgCount = 1] when absent, leaves every other entry
    of [generateParams] as it was, and sets the image-to-image template
    unless the caller names one. *)
Theorem liblibai_i2i_normalized cfg p w d dg0 :
  heap w !! p = Some (ODict d) →
  existsb (String.eqb "star-3-alpha-i2i") (Liblibai.supported_models cfg) = true →
  dict_has "prompt" d = true →
  dict_has "sourceImage" d = true →
  gp_input w d dg0 →
  ∃ w' a g dv dg,
    Liblibai.validate_parameters cfg "star-3-alpha-i2i" (VRef p) w
      = (w', Ok (VRef a))
    ∧ heap w' !! a = Some (ODict dv)
    ∧ dict_get "generateParams" dv = Some (VRef g)
    ∧ heap w' !! g = Some (ODict dg)
    ∧ dict_get "prompt" dg =
        Some (default (default VNone (dict_get "prompt" d)) (dict_get "prompt" dg0))
    ∧ dict_get "sourceImage" dg =
        Some (default (default VNone (dict_get "sourceImage" d))
                      (dict_get "sourceImage" dg0))
    ∧ dict_get "width" dg = Some (default (VInt 768) (dict_get "width" dg0))
    ∧ dict_get "height" dg = Some (default (VInt 1024) (dict_get "height" dg0))
    ∧ dict_get "imgCount" dg = Some (default (VInt 1) (dict_get "imgCount" dg0))
    ∧ (∀ k, k ∉ ["prompt"; "sourceImage"; "width"; "height"; "imgCount"] →
            dict_get k dg = dict_get k dg0)
    ∧ dict_get "templateUuid" dv =
        Some (default (VStr "07e00af4fc464c7ab55ff906f8acf1b7")
                      (dict_get "templateUuid" d)).
Proof.
  intros Hp Hm Hpr Hsrc Hin.
  destruct (liblibai_validate_run cfg "star-3-alpha-i2i" p w d dg0 "" Hp Hm eq_refl)
    as (w' & g & dv & Hrun & Hst & _ & _ & _ & Htpl & _); [| exact Hin | discriminate |].
  { unfold first_missing, required_keys. cbn [String.eqb Ascii.eqb Bool.eqb andb find].
    rewrite Hpr, Hsrc. reflexivity. }
  apply gp_state_lookups in Hst as (Ha & Hg & Hgp).
  eexists w', _, g, dv, _. split; [exact Hrun|].
  split; [exact Ha|]. split; [exact Hgp|]. split; [exact Hg|].
  unfold liblibai_params. cbn [String.eqb Ascii.eqb Bool.eqb andb].
  repeat (split; [dict_simpl; reflexivity|]).
  split; [|exact Htpl].
  intros k Hk.
  repeat (apply not_elem_of_cons in Hk as [?%String.eqb_neq Hk]).
  rewrite !dict_get_setdefault.
  repeat match goal with H : String.eqb k _ = false |- _ => rewrite H; clear H end.
  reflexivity.
Qed.

Lemma liblibai_i2i_normalized_witness :
  let d := [("prompt", VStr "a cat"); ("sourceImage", VStr "http://img/in.png");
            ("generateParams", VRef 0%nat)] in
  let w := World [ODict [("width", VInt 512); ("denoise", VInt 3)]; ODict d] [] 0 in
  let cfg := Config.defaults "/srv/data" in
  heap w !! 1%nat = Some (ODict d)
  ∧ existsb (String.eqb "star-3-alpha-i2i") (Liblibai.supported_models cfg) = true
  ∧ dict_has "prompt" d = true
  ∧ dict_has "sourceImage" d = true
  ∧ gp_input w d [("width", VInt 512); ("denoise", VInt 3)]
  ∧ ∃ w' a g dv dg,
      Liblibai.validate_parameters cfg "star-3-alpha-i2i" (VRef 1%nat) w
        = (w', Ok (VRef a))
      ∧ heap w' !! a = Some (ODict dv)
      ∧ dict_get "generateParams" dv = Some (VRef g)
      ∧ heap w' !! g = Some (ODict dg)
      ∧ dict_get "width" dg = Some (VInt 512)
      ∧ dict_get "height" dg = Some (VInt 1024)
      ∧ dict_get "denoise" dg = Some (VInt 3).
Proof.
  intros d w cfg.
  assert (Hin : gp_input w d [("width", VInt 512); ("denoise", VInt 3)]).
  { exists 0%nat. split; reflexivity. }
  split; [reflexivity|]. split; [reflexivity|]. split; [reflexivity|].
  split; [reflexivity|]. split; [exact Hin|].
  destruct (liblibai_i2i_normalized cfg 1%nat w d _ eq_refl eq_refl eq_refl eq_refl Hin)
    as (w' & a & g & dv & dg & H1 & H2 & H3 & H4 & _ & _ & H7 & H8 & _ & H10 & _).
  exists w', a, g, dv, dg.
  split; [exact H1|]. split; [exact H2|]. split; [exact H3|]. split; [exact H4|].
  split; [exact H7|]. split; [exact H8|].
  rewrite H10; [reflexivity|].
  intros Hk. repeat (apply elem_of_cons in Hk as [Hk|Hk]; [discriminate|]).
  apply elem_of_nil in Hk. exact Hk.
Defined.

(** X8. provider B writes into the caller's own [generateParams].  When
    the caller's mapping holds a [generateParams] dictionary, the mapping
    returned by validation refers to that same dictionary, and the defaults
    are written into it: after the call the caller's nested dictionary holds
    the prompt and [imgCount], whether it did before or not.  The caller's
    top-level mapping, and every other object, is as it was. *)
Theorem liblibai_validation_writes_callers_generateParams
    cfg model p w d g0 dg0 base :
  heap w !! p = Some (ODict d) →
  existsb (String.eqb model) (Liblibai.supported_models cfg) = true →
  liblibai_known model = true →
  first_missing (required_keys ProviderB model) d = None →
  dict_get "generateParams" d = Some (VRef g0) →
  heap w !! g0 = Some (ODict dg0) →
  p ≠ g0 →
  (model = "liblib-custom" → dict_has "templateUuid" d = false →
   base_input d base) →
  ∃ w' dv,
    Liblibai.validate_parameters cfg model (VRef p) w
      = (w', Ok (VRef (length (heap w))))
    ∧ heap w' !! length (heap w) = Some (ODict dv)
    ∧ dict_get "generateParams" dv = Some (VRef g0)
    ∧ heap w' !! g0 = Some (ODict (liblibai_params model d dg0))
    ∧ dict_get "prompt" (liblibai_params model d dg0) =
        Some (default (default VNone (dict_get "prompt" d)) (dict_get "prompt" dg0))
    ∧ dict_get "imgCount" (liblibai_params model d dg0) =
        Some (default (VInt 1) (dict_get "imgCount" dg0))
    ∧ (∀ k v, dict_get k dg0 = Some v →
              dict_get k (liblibai_params model d dg0) = Some v)
    ∧ heap w' !! p = Some (ODict d)
    ∧ (∀ x o, heap w !! x = Some o → x ≠ g0 → heap w' !! x = Some o).
Proof.
  intros Hp Hm Hknown Hreq Hgp Hg0 Hne Hbase.
  destruct (liblibai_validate_run cfg model p w d dg0 base Hp Hm Hknown Hreq)
    as (w' & g & dv & Hrun & Hst & (_ & _ & Hkept) & Hsame & _); [|exact Hbase|].
  { unfold gp_input. rewrite Hgp. eauto. }
  assert (g = g0) as -> by (now apply Hsame).
  apply gp_state_lookups in Hst as (Ha & Hg & Hgpv).
  exists w', dv. split; [exact Hrun|]. split; [exact Ha|]. split; [exact Hgpv|].
  split; [exact Hg|].
  assert (Hprm : dict_get "prompt" (liblibai_params model d dg0) =
                 Some (default (default VNone (dict_get "prompt" d))
                               (dict_get "prompt" dg0))
               ∧ dict_get "imgCount" (liblibai_params model d dg0) =
                 Some (default (VInt 1) (dict_get "imgCount" dg0))
               ∧ ∀ k v, dict_get k dg0 = Some v →
                        dict_get k (liblibai_params model d dg0) = Some v).
  { unfold liblibai_params, aspect_default.
    destruct (liblibai_known_inv model Hknown) as [->|[->| ->]];
      cbn [String.eqb Ascii.eqb Bool.eqb andb].
    - split; [|split].
      + destruct (_ || _); dict_simpl; reflexivity.
      + destruct (_ || _); dict_simpl; reflexivity.
      + intros k v Hv. rewrite dict_get_setdefault.
        assert (Hk : dict_get k (setdefault "prompt"
                       (default VNone (dict_get "prompt" d)) dg0) = Some v).
        { rewrite dict_get_setdefault, Hv. destruct (String.eqb k "prompt"); reflexivity. }
        set (x := setdefault "prompt" _ dg0) in *.
        assert (Hx : dict_get k (if dict_has "aspectRatio" x || dict_has "imageSize" x
                                 then x else dict_set "aspectRatio" (VStr "portrait") x)
                     = Some v).
        { destruct (dict_has "aspectRatio" x || dict_has "imageSize" x) eqn:E;
            [exact Hk|].
          rewrite dict_get_set.
          destruct (String.eqb_spec k "aspectRatio") as [->|]; [|exact Hk].
          apply orb_false_iff in E as [E _]. unfold dict_has in E.
          rewrite Hk in E. discriminate. }
        rewrite Hx. destruct (String.eqb k "imgCount"); reflexivity.
    - split; [|split]; try (dict_simpl; reflexivity).
      intros k v Hv. rewrite !dict_get_setdefault, Hv. cbn [default from_option id].
      repeat match goal with
      | |- context [String.eqb k ?s] => destruct (String.eqb k s)
      end; reflexivity.
    - split; [|split]; try (dict_simpl; reflexivity).
      intros k v Hv. rewrite !dict_get_setdefault, Hv. cbn [default from_option id].
      repeat match goal with
      | |- context [String.eqb k ?s] => destruct (String.eqb k s)
      end; reflexivity. }
  destruct Hprm as (H1 & H2 & H3).
  split; [exact H1|]. split; [exact H2|]. split; [exact H3|].
  split; [now apply Hkept|exact Hkept].
Qed.

(** X9. a model that the configuration lists for provider B but that is
    none of the three the provider knows passes validation unchanged (only
    [model] is added to the copy, nothing is required of it), and is then
    refused by [call_model] before any request is made. *)
Theorem liblibai_unknown_model_refused cfg vendor env base_dir model p w d :
  heap w !! p = Some (ODict d) →
  existsb (String.eqb model) (Liblibai.supported_models cfg) = true →
  liblibai_known model = false →
  let w' := top (heap w) (dict_set "model" (VStr model) d) (log w) (tick w) in
  Liblibai.validate_parameters cfg model (VRef p) w
    = (w', Ok (VRef (length (heap w))))
  ∧ Liblibai.call_model cfg vendor env base_dir model (VRef p) w
    = (w', Raise (ValueError [Lit ("Unsupported model: " +:+ model)])).
Proof.
  intros Hp Hm Hk w'.
  unfold liblibai_known in Hk. cbn [existsb] in Hk.
  apply orb_false_iff in Hk as [H1 Hk]. apply orb_false_iff in Hk as [H2 Hk].
  apply orb_false_iff in Hk as [H3 _].
  assert (Hv : Liblibai.validate_parameters cfg model (VRef p) w
               = (w', Ok (VRef (length (heap w))))).
  { liblibai_open Hp Hm. rewrite H1, H2, H3. reflexivity. }
  split; [exact Hv|].
  unfold Liblibai.call_model. erewrite bind_ok by exact Hv.
  unfold Liblibai.api_endpoint_of. rewrite H1, H2, H3. reflexivity.
Qed.

Lemma liblibai_unknown_model_refused_witness :
  let cfg := {| Config.DATA_DIR := "/srv/data";
                Config.ALIYUN_SUPPORTED_MODELS := "wanx2.1-t2i-turbo";
                Config.LIBLIBAI_SUPPORTED_MODELS := "star-3-alpha-t2i, star-4";
                Config.ALIYUN_API_KEY := "";
                Config.ALIYUN_API_URL := "";
                Config.LIBLIBAI_ACCESS_KEY := "ak";
                Config.LIBLIBAI_SECRET_KEY := "sk";
                Config.LIBLIBAI_API_URL := "" |} in
  let d := [("anything", VInt 1)] in
  let w := World [ODict d] [] 0 in
  heap w !! 0%nat = Some (ODict d)
  ∧ existsb (String.eqb "star-4") (Liblibai.supported_models cfg) = true
  ∧ liblibai_known "star-4" = false
  ∧ Liblibai.call_model cfg example_vendor example_env "/srv/app" "star-4"
      (VRef 0%nat) w
    = (World [ODict d; ODict [("anything", VInt 1); ("model", VStr "star-4")]] [] 0,
       Raise (ValueError [Lit "Unsupported model: star-4"])).
Proof.
  intros cfg d w.
  split; [reflexivity|]. split; [reflexivity|]. split; [reflexivity|].
  exact (proj2 (liblibai_unknown_model_refused cfg example_vendor example_env
                  "/srv/app" "star-4" 0%nat w d eq_refl eq_refl eq_refl)).
Defined.

(** X10. provider B, model [liblib-custom], when the caller names no
    template: the endpoint the request goes to and the template it carries
    agree.  Both are the image-to-image ones exactly when [generateParams]
    holds a [sourceImage]; a [sourceImage] beside [generateParams] does not
    count. *)
Theorem liblibai_custom_endpoint_matches_template cfg p w d dg0 base :
  heap w !! p = Some (ODict d) →
  existsb (String.eqb "liblib-custom") (Liblibai.supported_models cfg) = true →
  dict_has "checkPointId" d = true →
  dict_has "prompt" d = true →
  dict_has "templateUuid" d = false →
  gp_input w d dg0 →
  base_input d base →
  let image_to_image := dict_has "sourceImage" dg0 in
  ∃ w' vp dv w'',
    Liblibai.validate_parameters cfg "liblib-custom" (VRef p) w = (w', Ok vp)
    ∧ vp = VRef (length (heap w))
    ∧ heap w' !! length (heap w) = Some (ODict dv)
    ∧ dict_get "templateUuid" dv =
        Some (VStr (custom_template (denotes_f1 base) image_to_image))
    ∧ Liblibai.api_endpoint_of "liblib-custom" vp w'
      = (w'', Ok (if image_to_image then "/api/generate/webui/img2img"
                  else "/api/generate/webui/text2img")).
Proof.
  intros Hp Hm Hck Hpr Htpl Hin Hbase i2i.
  destruct (liblibai_validate_run cfg "liblib-custom" p w d dg0 base Hp Hm eq_refl)
    as (w' & g & dv & Hrun & Hst & _ & _ & _ & Ht & _); [|exact Hin|auto|].
  { unfold first_missing, required_keys. cbn [String.eqb Ascii.eqb Bool.eqb andb find].
    rewrite Hck, Hpr. reflexivity. }
  apply gp_state_lookups in Hst as (Ha & Hg & Hgp).
  eexists w', _, dv, _. split; [exact Hrun|]. split; [reflexivity|].
  split; [exact Ha|]. split.
  { rewrite Ht. unfold dict_has in Htpl.
    destruct (dict_get "templateUuid" d); [discriminate|]. reflexivity. }
  unfold Liblibai.api_endpoint_of. cbn [String.eqb Ascii.eqb Bool.eqb andb].
  erewrite bind_ok by reflexivity.
  erewrite bind_ok
    by (eapply get_dict; cbn [heap set_heap]; apply lookup_app_old; exact Ha).
  rewrite Hgp. cbn [default from_option id].
  erewrite bind_ok
    by (eapply contains_dict; cbn [heap set_heap]; apply lookup_app_old; exact Hg).
  assert (Hs : dict_has "sourceImage" (liblibai_params "liblib-custom" d dg0) = i2i).
  { unfold liblibai_params. cbn [String.eqb Ascii.eqb Bool.eqb andb].
    dict_simpl. reflexivity. }
  rewrite Hs. reflexivity.
Qed.

Lemma lower_ascii_dot c :
  Ascii.eqb (lower_ascii c) "."%char = Ascii.eqb c "."%char.
Proof. destruct c as [[] [] [] [] [] [] [] []]; reflexivity. Qed.

Lemma rfind_lower s : DownloadResponse.rfind "."%char (lower s) = DownloadResponse.rfind "."%char s.
Proof.
  induction s as [|c s IH]; [reflexivity|].
  cbn [lower DownloadResponse.rfind]. rewrite IH, lower_ascii_dot. reflexivity.
Qed.

Lemma length_lower s : String.length (lower s) = String.length s.
Proof. induction s as [|c s IH]; [reflexivity|]. cbn. now rewrite IH. Qed.

Lemma substring_lower s : ∀ i n,
  lower (String.substring i n s) = String.substring i n (lower s).
Proof.
  induction s as [|c s IH]; intros i n.
  - destruct i, n; reflexivity.
  - destruct i as [|i].
    + destruct n as [|n]; [reflexivity|]. cbn. now rewrite IH.
    + cbn. apply IH.
Qed.

Lemma suffix_lower s : lower (DownloadResponse.suffix s) = DownloadResponse.suffix (lower s).
Proof.
  unfold DownloadResponse.suffix. rewrite rfind_lower, length_lower.
  destruct (DownloadResponse.rfind "."%char s) as [i|]; [|reflexivity].
  destruct (_ && _); [|reflexivity]. apply substring_lower.
Qed.

Lemma lower_app s t : lower (s +:+ t) = lower s +:+ lower t.
Proof.
  induction s as [|c s IH]; [reflexivity|].
  cbn [lower]. rewrite !append_cons. cbn [lower]. now rewrite IH.
Qed.

Lemma rfind_app_dot s t :
  DownloadResponse.rfind "."%char t = None →
  DownloadResponse.rfind "."%char (s +:+ String "."%char t) = Some (String.length s).
Proof.
  intros Ht. induction s as [|c s IH].
  - rewrite append_nil_l. cbn [DownloadResponse.rfind]. rewrite Ht. reflexivity.
  - rewrite append_cons. cbn [DownloadResponse.rfind String.length]. rewrite IH. reflexivity.
Qed.

Lemma length_app s t : String.length (s +:+ t) = (String.length s + String.length t)%nat.
Proof.
  induction s as [|c s IH]; [now rewrite append_nil_l|].
  rewrite append_cons. cbn. now rewrite IH.
Qed.

Lemma substring_all s : String.substring 0 (String.length s) s = s.
Proof. induction s as [|c s IH]; [reflexivity|]. cbn. now rewrite IH. Qed.

Lemma substring_app s t n :
  String.substring (String.length s) n (s +:+ t) = String.substring 0 n t.
Proof.
  induction s as [|c s IH]; [now rewrite append_nil_l|].
  rewrite append_cons. cbn. apply IH.
Qed.

(** The extension of [stem.ext], for a non-empty stem and a non-empty
    extension without a dot. *)
Lemma suffix_app stem t :
  stem ≠ "" → t ≠ "" → DownloadResponse.rfind "."%char t = None →
  DownloadResponse.suffix (stem +:+ String "."%char t) = String "."%char t.
Proof.
  intros Hs Ht Hr. unfold DownloadResponse.suffix.
  rewrite rfind_app_dot by exact Hr.
  rewrite length_app. cbn [String.length].
  assert (0 < String.length stem)%nat by (destruct stem; [done|cbn; lia]).
  assert (0 < String.length t)%nat by (destruct t; [done|cbn; lia]).
  replace ((0 <? String.length stem)%nat) with true
    by (symmetry; apply Nat.ltb_lt; lia).
  replace ((String.length stem <? String.length stem + S (String.length t) - 1)%nat)
    with true by (symmetry; apply Nat.ltb_lt; lia).
  cbn [andb].
  rewrite substring_app.
  replace (String.length stem + S (String.length t) - String.length stem)%nat
    with (String.length (String "."%char t)) by (cbn; lia).
  apply substring_all.
Qed.

Lemma lower_nonempty s : s ≠ "" → lower s ≠ "".
Proof. destruct s; [done|discriminate]. Qed.

(** X11. a found file whose name is a non-empty stem followed by one of the
    seven known extensions, in any letter case, is served with the media
    type of that extension, under the requested name. *)
Theorem download_media_type_by_extension fs data_dir file_name p stem ext mt :
  (Download.download_file fs data_dir file_name).2 = Download.Found p →
  DownloadResponse.name p = stem +:+ ext →
  stem ≠ "" →
  (lower ext, mt) ∈ known_types →
  DownloadResponse.respond fs data_dir file_name =
    DownloadResponse.Serve {| DownloadResponse.path_ := p; DownloadResponse.filename := file_name;
                       DownloadResponse.media_type := mt |}.
Proof.
  intros Hf Hn Hs Hin. unfold DownloadResponse.respond. rewrite Hf.
  do 2 f_equal. rewrite suffix_lower, Hn, lower_app.
  apply lower_nonempty in Hs.
  unfold known_types in Hin.
  repeat (apply elem_of_cons in Hin as [Hin|Hin];
          [injection Hin as -> ->; rewrite suffix_app by done; reflexivity|]).
  apply elem_of_nil in Hin. destruct Hin.
Qed.

Lemma download_media_type_by_extension_witness :
  let fs := Download.fs_of_files [["data"; "images"; "aliyun"; "20240101_000000_0_01234567.PNG"]] in
  (Download.download_file fs ["data"] "20240101_000000_0_01234567.PNG").2
    = Download.Found ["data"; "images"; "aliyun"; "20240101_000000_0_01234567.PNG"]
  ∧ DownloadResponse.name ["data"; "images"; "aliyun"; "20240101_000000_0_01234567.PNG"]
    = "20240101_000000_0_01234567" +:+ ".PNG"
  ∧ "20240101_000000_0_01234567" ≠ ""
  ∧ (lower ".PNG", "image/png") ∈ known_types
  ∧ DownloadResponse.respond fs ["data"] "20240101_000000_0_01234567.PNG" =
      DownloadResponse.Serve
        {| DownloadResponse.path_ := ["data"; "images"; "aliyun"; "20240101_000000_0_01234567.PNG"];
           DownloadResponse.filename := "20240101_000000_0_01234567.PNG";
           DownloadResponse.media_type := "image/png" |}.
Proof.
  intros fs.
  assert (H1 : (Download.download_file fs ["data"] "20240101_000000_0_01234567.PNG").2
    = Download.Found ["data"; "images"; "aliyun"; "20240101_000000_0_01234567.PNG"])
    by reflexivity.
  assert (H4 : (lower ".PNG", "image/png") ∈ known_types)
    by (vm_compute; left).
  split; [exact H1|]. split; [reflexivity|]. split; [discriminate|].
  split; [exact H4|].
  apply (download_media_type_by_extension fs ["data"] _ _
           "20240101_000000_0_01234567" ".PNG" "image/png");
    [exact H1|reflexivity|discriminate|exact H4].
Defined.

Lemma media_type_of_cases e :
  (e, DownloadResponse.media_type_of e) ∈ known_types
  ∨ ((∀ mt, (e, mt) ∉ known_types)
     ∧ DownloadResponse.media_type_of e = "application/octet-stream").
Proof.
  unfold DownloadResponse.media_type_of, known_types. cbn [existsb orb].
  repeat match goal with
  | |- context [String.eqb e ?s] =>
      destruct (String.eqb_spec e s) as [->|?];
      [left; vm_compute; repeat (first [left | right])|]
  end.
  right. split; [|reflexivity].
  intros mt Hin.
  repeat (apply elem_of_cons in Hin as [Hin|Hin]; [injection Hin as ? ?; congruence|]).
  apply elem_of_nil in Hin. destruct Hin.
Qed.

Lemma suffix_no_dot s : DownloadResponse.rfind "."%char s = None → DownloadResponse.suffix s = "".
Proof. unfold DownloadResponse.suffix. now intros ->. Qed.

(** X12. whatever file is served goes out under the requested name; it is
    typed [image/jpeg] only for the extensions [.jpg] and [.jpeg], so the
    value [media_type] starts with is never what an unknown extension gets:
    an extension outside the seven known ones, or a name without a dot, is
    served as [application/octet-stream]. *)
Theorem download_unknown_extension fs data_dir file_name r :
  DownloadResponse.respond fs data_dir file_name = DownloadResponse.Serve r →
  let ext := lower (DownloadResponse.suffix (DownloadResponse.name (DownloadResponse.path_ r))) in
  DownloadResponse.filename r = file_name
  ∧ (Download.download_file fs data_dir file_name).2
    = Download.Found (DownloadResponse.path_ r)
  ∧ (DownloadResponse.media_type r = "image/jpeg" ↔ ext = ".jpg" ∨ ext = ".jpeg")
  ∧ ((∀ mt, (ext, mt) ∉ known_types) →
     DownloadResponse.media_type r = "application/octet-stream")
  ∧ (DownloadResponse.rfind "."%char (DownloadResponse.name (DownloadResponse.path_ r)) = None →
     DownloadResponse.media_type r = "application/octet-stream").
Proof.
  unfold DownloadResponse.respond.
  destruct (Download.download_file fs data_dir file_name).2 as [p|detail|detail] eqn:Hf;
    [|discriminate|discriminate].
  intros [= <-]. cbv zeta.
  cbn [DownloadResponse.path_ DownloadResponse.filename DownloadResponse.media_type].
  set (ext := lower (DownloadResponse.suffix (DownloadResponse.name p))). split; [reflexivity|]. split; [reflexivity|].
  split; [|split].
  - split.
    + intros Hm.
      destruct (media_type_of_cases ext) as [Hin|[_ Ho]]; [|congruence].
      rewrite Hm in Hin. unfold known_types in Hin.
      repeat (apply elem_of_cons in Hin as [Hin|Hin];
              [injection Hin as ?; first [discriminate | tauto]|]).
      apply elem_of_nil in Hin. destruct Hin.
    + intros [->| ->]; reflexivity.
  - intros Hno. destruct (media_type_of_cases ext) as [Hin|[_ Ho]]; [|exact Ho].
    destruct (Hno _ Hin).
  - intros Hr. subst ext. rewrite suffix_no_dot by exact Hr. reflexivity.
Qed.

Lemma download_unknown_extension_witness :
  let fs := Download.fs_of_files [["data"; "exports"; "notes.TXT"]] in
  let r := {| DownloadResponse.path_ := ["data"; "exports"; "notes.TXT"];
              DownloadResponse.filename := "notes.TXT";
              DownloadResponse.media_type := "application/octet-stream" |} in
  DownloadResponse.respond fs ["data"] "notes.TXT" = DownloadResponse.Serve r
  ∧ DownloadResponse.filename r = "notes.TXT"
  ∧ (DownloadResponse.media_type r = "image/jpeg" ↔
     lower (DownloadResponse.suffix (DownloadResponse.name (DownloadResponse.path_ r))) = ".jpg"
     ∨ lower (DownloadResponse.suffix (DownloadResponse.name (DownloadResponse.path_ r))) = ".jpeg").
Proof.
  intros fs r.
  assert (H : DownloadResponse.respond fs ["data"] "notes.TXT" = DownloadResponse.Serve r)
    by reflexivity.
  split; [exact H|].
  pose proof (download_unknown_extension fs ["data"] "notes.TXT" r H) as (H1 & _ & H3 & _).
  split; [exact H1|exact H3].
Defined.

Lemma sha1_length msg : length (Sha1.sha1 msg) = 20%nat.
Proof.
  unfold Sha1.sha1.
  destruct (Sha1.blocks _ _ _) as [[[[h0 h1] h2] h3] h4]. reflexivity.
Qed.

Lemma hmac_sha1_length key msg : length (Hmac.hmac_sha1 key msg) = 20%nat.
Proof. unfold Hmac.hmac_sha1. apply sha1_length. Qed.

Lemma nth_Forall {X} (P : X → Prop) (l : list X) (dflt : X) :
  Forall P l → P dflt → ∀ n, P (nth n l dflt).
Proof.
  intros Hl Hd. induction Hl as [|x l Hx _ IH]; intros [|n]; cbn; auto.
Qed.

Lemma base64_char_in_alphabet x : Base64.char x ∈ Base64.alphabet.
Proof.
  unfold Base64.char. apply nth_Forall.
  - apply Forall_forall. auto.
  - vm_compute. left.
Qed.

Lemma base64_char_not_padding x : Ascii.eqb (Base64.char x) "="%char = false.
Proof.
  unfold Base64.char.
  apply (nth_Forall (λ c, Ascii.eqb c "="%char = false)); [|reflexivity].
  vm_compute. repeat constructor.
Qed.

(** The signature of a 20-byte digest: 27 characters of the URL-safe
    alphabet. *)
Lemma signature_of_digest digest :
  length digest = 20%nat →
  let s := Base64.rstrip_eq (Base64.urlsafe_b64encode digest) in
  String.length s = 27%nat
  ∧ Forall (λ c, c ∈ Base64.alphabet) (String.list_ascii_of_string s).
Proof.
  intros Hlen.
  do 20 (destruct digest as [|? digest]; [discriminate|]).
  destruct digest; [|discriminate]. clear Hlen.
  cbv zeta. cbn [Base64.urlsafe_b64encode Base64.rstrip_eq].
  rewrite base64_char_not_padding.
  split; [reflexivity|].
  cbn [String.list_ascii_of_string].
  repeat (apply Forall_cons; split; [apply base64_char_in_alphabet|]).
  apply Forall_nil. exact I.
Qed.

(** X13. the signature provider B puts in the query string.  With both
    keys configured, signing succeeds for every URI, clock and random source;
    the signature is always 27 characters long, each a letter, a digit, [-]
    or [_], so it needs no escaping in the URL it is appended to; and each
    signature draws the clock once and the random source once. *)
Theorem liblibai_signature_is_url_safe cfg env uri w :
  keys_configured cfg = true →
  ∃ sp,
    Liblibai.generate_signature cfg env uri w
      = (World (heap w) (log w) (S (S (tick w))), Ok sp)
    ∧ String.length (Liblibai.Signature sp) = 27%nat
    ∧ Forall (λ c, c ∈ Base64.alphabet)
             (String.list_ascii_of_string (Liblibai.Signature sp))
    ∧ Liblibai.AccessKey sp = Config.LIBLIBAI_ACCESS_KEY cfg
    ∧ Liblibai.Timestamp sp = pretty (time_ms env (tick w))
    ∧ Liblibai.SignatureNonce sp = uuid_str (uuid4_hex env (S (tick w))).
Proof.
  intros Hkeys. exists (signature_at cfg env uri (tick w)).
  split; [now apply generate_signature_run|].
  cbn [signature_at Liblibai.Signature Liblibai.AccessKey Liblibai.Timestamp
       Liblibai.SignatureNonce].
  unfold spec_signature.
  destruct (signature_of_digest
              (Hmac.hmac_sha1 (encode (Config.LIBLIBAI_SECRET_KEY cfg))
                 (encode (uri +:+ "&" +:+ pretty (time_ms env (tick w)) +:+ "&" +:+
                          uuid_str (uuid4_hex env (S (tick w)))))))
    as [H1 H2]; [apply hmac_sha1_length|].
  split; [exact H1|]. split; [exact H2|]. auto.
Qed.

(** *** [strip()] on a name without white space at its ends *)

Lemma append_empty_r s : s +:+ "" = s.
Proof.
  induction s as [|c r IH]; [reflexivity|].
  rewrite append_cons. now rewrite IH.
Qed.

Lemma str_of_cons c l : str_of (c :: l) = c.2 +:+ str_of l.
Proof.
  unfold str_of. destruct l as [|c' l]; cbn [map String.concat].
  - symmetry. apply append_empty_r.
  - reflexivity.
Qed.

(** The first character of a string, and what is left of it. *)
Lemma chars_step b0 r0 :
  ∃ c rest,
    chars (String b0 r0) = c :: chars rest
    ∧ String b0 r0 = c.2 +:+ rest
    ∧ (String.length rest < String.length (String b0 r0))%nat.
Proof.
  cbn [chars].
  repeat match goal with
  | |- context [if ?c then _ else _] => destruct c
  | |- context [match ?r with EmptyString => _ | String _ _ => _ end] =>
      is_var r; destruct r
  end;
  eexists _, _; (split; [reflexivity|]); (split; [reflexivity|]);
  cbn [String.length]; lia.
Qed.

(** The characters of a string hold all its bytes, in order. *)
Lemma str_of_chars s : str_of (chars s) = s.
Proof.
  remember (String.length s) as n eqn:Hn. revert s Hn.
  induction n as [n IH] using lt_wf_ind. intros s Hn.
  destruct s as [|b0 r0]; [reflexivity|].
  destruct (chars_step b0 r0) as (c & rest & Hc & Hs & Hlen).
  rewrite Hc, str_of_cons, (IH (String.length rest)); [|lia|reflexivity].
  symmetry. exact Hs.
Qed.

Lemma rstrip_last (l : list (N * string)) :
  match last l with
  | Some c => negb (is_space c.1)
  | None => true
  end = true →
  rstrip l = l.
Proof.
  unfold rstrip. destruct l as [|x l' _] using rev_ind; [reflexivity|].
  rewrite last_snoc. intros H. rewrite rev_unit. cbn [lstrip].
  apply negb_true_iff in H. rewrite H. cbn [rev].
  now rewrite rev_involutive.
Qed.

Lemma strip_listable s : listable s = true → strip s = s.
Proof.
  unfold listable, strip. intros H.
  apply andb_true_iff in H as [H _]. apply andb_true_iff in H as [Hfirst Hlast].
  assert (Hl : lstrip (chars s) = chars s).
  { destruct (chars s) as [|c l]; [reflexivity|]. cbn [lstrip].
    apply negb_true_iff in Hfirst. now rewrite Hfirst. }
  rewrite Hl, rstrip_last by exact Hlast. apply str_of_chars.
Qed.

Lemma split_on_no_sep sep s :
  forallb (λ c, negb (Ascii.eqb c sep)) (String.list_ascii_of_string s) = true →
  split_on sep s = [s].
Proof.
  induction s as [|c s IH]; [reflexivity|].
  cbn [String.list_ascii_of_string forallb split_on].
  intros H. apply andb_true_iff in H as [Hc Hs]. apply negb_true_iff in Hc.
  rewrite Hc, IH by exact Hs. reflexivity.
Qed.

Lemma split_on_app sep s t :
  forallb (λ c, negb (Ascii.eqb c sep)) (String.list_ascii_of_string s) = true →
  split_on sep (s +:+ String sep t) = s :: split_on sep t.
Proof.
  induction s as [|c s IH].
  - intros _. rewrite append_nil_l. cbn [split_on]. rewrite Ascii.eqb_refl. reflexivity.
  - cbn [String.list_ascii_of_string forallb]. intros H.
    apply andb_true_iff in H as [Hc Hs]. apply negb_true_iff in Hc.
    rewrite append_cons. cbn [split_on]. rewrite Hc, IH by exact Hs. reflexivity.
Qed.

Lemma split_on_nonempty sep s : split_on sep s ≠ [].
Proof.
  induction s as [|c s IH]; [discriminate|].
  cbn [split_on]. destruct (Ascii.eqb c sep); [discriminate|].
  destruct (split_on sep s); [contradiction|discriminate].
Qed.

Lemma split_join l :
  l ≠ [] →
  Forall (λ s, listable s = true) l →
  split_on ","%char (join "," l) = l.
Proof.
  intros Hne Hl. induction Hl as [|s l Hs Hl IH]; [contradiction|].
  apply andb_true_iff in Hs as [_ Hs].
  destruct l as [|s' l'].
  - cbn [join]. now apply split_on_no_sep.
  - change (join "," (s :: s' :: l')) with (s +:+ "," +:+ join "," (s' :: l')).
    change ("," +:+ join "," (s' :: l'))
      with (String ","%char ("" +:+ join "," (s' :: l'))).
    rewrite append_nil_l, split_on_app by exact Hs.
    rewrite IH by discriminate. reflexivity.
Qed.

Lemma model_list_join l :
  l ≠ [] →
  Forall (λ s, listable s = true) l →
  Config.model_list (join "," l) = l.
Proof.
  intros Hne Hl. unfold Config.model_list. rewrite split_join by assumption.
  induction Hl as [|s l Hs Hl IH]; [reflexivity|].
  cbn [map]. rewrite (strip_listable _ Hs).
  f_equal. destruct l; [reflexivity|]. apply IH. discriminate.
Qed.

(** X14. the configured model lists read back.  When a setting is the
    names of a non-empty list joined by commas (names without a comma and
    without white space at their ends), the provider supports exactly those
    names, in that order. *)
Theorem supported_models_round_trip cfg l :
  l ≠ [] →
  Forall (λ s, listable s = true) l →
  (Config.ALIYUN_SUPPORTED_MODELS cfg = join "," l →
   Aliyun.supported_models cfg = l)
  ∧ (Config.LIBLIBAI_SUPPORTED_MODELS cfg = join "," l →
     Liblibai.supported_models cfg = l).
Proof.
  intros Hne Hl. split; intros H.
  - unfold Aliyun.supported_models, Config.PROVIDER_SUPPORTED_MODELS.
    cbn [String.eqb Ascii.eqb Bool.eqb andb default from_option id].
    rewrite H. now apply model_list_join.
  - unfold Liblibai.supported_models, Config.PROVIDER_SUPPORTED_MODELS.
    cbn [String.eqb Ascii.eqb Bool.eqb andb default from_option id].
    rewrite H. now apply model_list_join.
Qed.

Lemma supported_models_round_trip_witness :
  let l := ["wanx2.1-t2i-turbo"; "wanx2.1-t2i-plus"; "wanx2.0-t2i-turbo"] in
  let cfg := Config.defaults "/srv/data" in
  l ≠ []
  ∧ Forall (λ s, listable s = true) l
  ∧ Config.ALIYUN_SUPPORTED_MODELS cfg = join "," l
  ∧ Aliyun.supported_models cfg = l.
Proof.
  intros l cfg.
  assert (H1 : l ≠ []) by discriminate.
  assert (H2 : Forall (λ s, listable s = true) l) by (repeat constructor).
  split; [exact H1|]. split; [exact H2|]. split; [reflexivity|].
  exact (proj1 (supported_models_round_trip cfg l H1 H2) eq_refl).
Defined.

(** White space of any script is stripped from the names: an ideographic
    space after a name does not stay in the list. *)
Example model_list_strips_ideographic_space :
  Config.model_list ("a" +:+ utf8 0x3000 +:+ ", b") = ["a"; "b"]
  ∧ listable ("a" +:+ utf8 0x3000) = false.
Proof. split; vm_compute; reflexivity. Qed.

(** X15. the lists of supported models always come from the settings: the
    list written in the provider is never used and the list is never empty.
    An empty setting does not bring the built-in names back: the only
    supported name is then the empty one, and validation refuses every other
    model. *)
Theorem supported_models_empty_setting cfg model parameters w :
  Aliyun.supported_models cfg = Config.model_list (Config.ALIYUN_SUPPORTED_MODELS cfg)
  ∧ Liblibai.supported_models cfg
    = Config.model_list (Config.LIBLIBAI_SUPPORTED_MODELS cfg)
  ∧ Aliyun.supported_models cfg ≠ []
  ∧ Liblibai.supported_models cfg ≠ []
  ∧ (Config.ALIYUN_SUPPORTED_MODELS cfg = "" → model ≠ "" →
     Aliyun.supported_models cfg = [""]
     ∧ Aliyun.validate_parameters cfg model parameters w
       = (w, Raise (ValueError
            [Lit ("Model '" +:+ model +:+ "' not supported. Supported models: ")])))
  ∧ (Config.LIBLIBAI_SUPPORTED_MODELS cfg = "" → model ≠ "" →
     Liblibai.supported_models cfg = [""]
     ∧ Liblibai.validate_parameters cfg model parameters w
       = (w, Raise (ValueError
            [Lit ("Model '" +:+ model +:+ "' not supported. Supported models: ")]))).
Proof.
  assert (Hne : ∀ s, Config.model_list s ≠ []).
  { intros s. unfold Config.model_list.
    pose proof (split_on_nonempty ","%char s).
    destruct (split_on ","%char s); [contradiction|discriminate]. }
  split; [reflexivity|]. split; [reflexivity|].
  split; [apply Hne|]. split; [apply Hne|].
  split; intros Hs Hm.
  - assert (Hl : Aliyun.supported_models cfg = [""]).
    { unfold Aliyun.supported_models, Config.PROVIDER_SUPPORTED_MODELS.
      cbn [String.eqb Ascii.eqb Bool.eqb andb default from_option id].
      rewrite Hs. reflexivity. }
    split; [exact Hl|].
    unfold Aliyun.validate_parameters. rewrite Hl. cbn [existsb join orb].
    apply String.eqb_neq in Hm. rewrite Hm. reflexivity.
  - assert (Hl : Liblibai.supported_models cfg = [""]).
    { unfold Liblibai.supported_models, Config.PROVIDER_SUPPORTED_MODELS.
      cbn [String.eqb Ascii.eqb Bool.eqb andb default from_option id].
      rewrite Hs. reflexivity. }
    split; [exact Hl|].
    unfold Liblibai.validate_parameters. rewrite Hl. cbn [existsb join orb].
    apply String.eqb_neq in Hm. rewrite Hm. reflexivity.
Qed.

Lemma liblibai_check_code_run w a d :
  heap w !! a = Some (ODict d) →
  Liblibai.check_code (VRef a) w =
  (w, if eq_int (default VNone (dict_get "code" d)) 0 then Ok tt
      else Raise (ValueError
             [Lit "LiblibAI API error: ";
              Val (default (VStr "Unknown error") (dict_get "msg" d))])).
Proof.
  intros Ha. unfold Liblibai.check_code.
  erewrite bind_ok by (eapply get_dict; exact Ha).
  destruct (eq_int _ 0); cbn [negb when]; [reflexivity|].
  erewrite bind_ok by (eapply get_dict; exact Ha). reflexivity.
Qed.

(** [call_model] of provider B, from a successful validation and choice of
    endpoint up to the reply to the creation request. *)
Lemma liblibai_call_model_post
    cfg vendor env base_dir model parameters w w1 a w2 endpoint dv tpl gv :
  Liblibai.validate_parameters cfg model parameters w = (w1, Ok (VRef a)) →
  Liblibai.api_endpoint_of model (VRef a) w1 = (w2, Ok endpoint) →
  keys_configured cfg = true →
  heap w2 !! a = Some (ODict dv) →
  dict_get "templateUuid" dv = Some tpl →
  dict_get "generateParams" dv = Some gv →
  let w3 := World (heap w2)
                  (log w2 ++ [liblibai_post cfg env endpoint (tick w2) tpl gv])
                  (S (S (tick w2))) in
  Liblibai.call_model cfg vendor env base_dir model parameters w =
  try_except (
    response ← lift (match create_reply vendor with
                     | Some x => Ok x
                     | None => Raise (Builtin RequestError)
                     end);
    raise_for_status response;;
    task_result ← response_json response;
    Liblibai.check_code task_result;;
    empty ← alloc (ODict []);
    data ← py_get task_result "data" empty;
    generate_uuid ← py_get data "generateUuid" VNone;
    t ← py_truthy generate_uuid;
    if negb t then
      raise (ValueError
        [Lit "Failed to get generateUuid from response: "; Val task_result])
    else
      Liblibai.poll cfg vendor env base_dir (liblibai_base cfg) generate_uuid
        (VRef a) 0 Liblibai.max_retries
  ) Liblibai.handle_errors w3.
Proof.
  intros Hval Hep Hkeys Ha Htpl Hgv w3.
  unfold Liblibai.call_model.
  erewrite bind_ok by exact Hval.
  erewrite bind_ok by exact Hep.
  erewrite bind_ok by (apply generate_signature_run; exact Hkeys).
  unfold try_except.
  set (w2' := World (heap w2) (log w2) (S (S (tick w2)))).
  assert (Ha' : heap w2' !! a = Some (ODict dv)) by exact Ha.
  erewrite bind_ok by (eapply getitem_dict; eassumption).
  erewrite bind_ok by (eapply getitem_dict; eassumption).
  unfold request at 1. rewrite !bind_assoc.
  unfold emit at 1. unfold bind at 1. unfold bind at 1.
  destruct (create_reply vendor) as [r|]; reflexivity.
Qed.

Lemma liblibai_handle_plain {A} e w :
  no_status e →
  Liblibai.handle_errors (A := A) e w =
  (w, Raise (ValueError (Lit "LiblibAI API error: " :: exn_str e))).
Proof.
  intros H. destruct e as [m|[]]; try reflexivity. destruct (H r eq_refl).
Qed.

(** The steps of [call_model] between the creation request and the loop. *)
Lemma liblibai_after_post cfg vendor env base_dir base vp r w1 :
  let steps :=
    (raise_for_status r;;
     task_result ← response_json r;
     Liblibai.check_code task_result;;
     empty ← alloc (ODict []);
     data ← py_get task_result "data" empty;
     generate_uuid ← py_get data "generateUuid" VNone;
     t ← py_truthy generate_uuid;
     if negb t then
       raise (ValueError
         [Lit "Failed to get generateUuid from response: "; Val task_result])
     else Liblibai.poll cfg vendor env base_dir base generate_uuid vp 0
            Liblibai.max_retries) in
  match liblibai_created (heap w1) (Some r) with
  | Some (Created v) =>
      steps w1 =
      Liblibai.poll cfg vendor env base_dir base v vp 0 Liblibai.max_retries
        (set_heap (heap w1 ++ [ODict []]) w1)
  | Some (Refused m) =>
      steps w1 = (w1, Raise (ValueError [Lit "LiblibAI API error: "; Val m]))
  | Some (Unnamed tr) =>
      steps w1 =
      (set_heap (heap w1 ++ [ODict []]) w1,
       Raise (ValueError
         [Lit "Failed to get generateUuid from response: "; Val tr]))
  | None =>
      if success_code r then True
      else steps w1 = (w1, Raise (Builtin (HTTPStatusError r)))
  end.
Proof.
  intros steps. subst steps. unfold liblibai_created.
  unfold raise_for_status. fold (success_code r).
  destruct (success_code r) eqn:Hsc; [|reflexivity].
  erewrite bind_ok by reflexivity.
  unfold response_json.
  destruct (json_body r) as [[| | | | |a]|] eqn:Hj; try exact I.
  erewrite bind_ok by reflexivity.
  destruct (heap w1 !! a) as [[d|]|] eqn:Ha; try exact I.
  rewrite (bind_cong _ (lift (if eq_int (default VNone (dict_get "code" d)) 0
                          then Ok tt
                          else Raise (ValueError
                                 [Lit "LiblibAI API error: ";
                                  Val (default (VStr "Unknown error")
                                               (dict_get "msg" d))]))) _ w1 w1)
    by (apply liblibai_check_code_run; exact Ha).
  destruct (eq_int (default VNone (dict_get "code" d)) 0); [|reflexivity].
  erewrite bind_ok by reflexivity.
  erewrite bind_ok by reflexivity.
  set (w2 := set_heap (heap w1 ++ [ODict []]) w1).
  assert (Ha2 : heap w2 !! a = Some (ODict d)) by (now apply lookup_app_old).
  assert (Hnew : heap w2 !! length (heap w1) = Some (ODict [])) by apply lookup_top.
  erewrite bind_ok by (eapply get_dict; exact Ha2).
  destruct (dict_get "data" d) as [[| | | | |g]|] eqn:Hd; try exact I;
    cbn [default from_option id].
  - destruct (heap w1 !! g) as [[dd|]|] eqn:Hg; try exact I.
    assert (Hg2 : heap w2 !! g = Some (ODict dd)) by (now apply lookup_app_old).
    erewrite bind_ok by (eapply get_dict; exact Hg2).
    erewrite bind_ok by apply truthy_run.
    change (heap w2) with (heap w1 ++ [ODict []]).
    destruct (truthy (heap w1 ++ [ODict []]) _); reflexivity.
  - erewrite bind_ok by (eapply get_dict; exact Hnew).
    erewrite bind_ok by apply truthy_run. reflexivity.
Qed.

(** X16. provider B, when the task is not created.  After a successful
    validation, a request that fails, an error status, a body whose [code]
    is not 0 and a body without a task identifier each make [call_model]
    raise after that one request, without polling.  The vendor's own message
    for a refused request comes out with the provider's prefix twice, since
    the error raised for it is caught and wrapped again. *)
Theorem liblibai_creation_failure
    cfg vendor env base_dir model parameters w w1 a w2 endpoint dv tpl gv :
  Liblibai.validate_parameters cfg model parameters w = (w1, Ok (VRef a)) →
  Liblibai.api_endpoint_of model (VRef a) w1 = (w2, Ok endpoint) →
  keys_configured cfg = true →
  heap w2 !! a = Some (ODict dv) →
  dict_get "templateUuid" dv = Some tpl →
  dict_get "generateParams" dv = Some gv →
  let post := liblibai_post cfg env endpoint (tick w2) tpl gv in
  let w3 := World (heap w2) (log w2 ++ [post]) (S (S (tick w2))) in
  let run := Liblibai.call_model cfg vendor env base_dir model parameters w in
  (create_reply vendor = None →
   run = (w3, Raise (ValueError [Lit "LiblibAI API error: "; Msg RequestError])))
  ∧ (∀ r, create_reply vendor = Some r → success_code r = false →
       ∃ w' detail,
         run = (w', Raise (ValueError
                  [Lit "LiblibAI API HTTP error: "; Val (VInt (status_code r));
                   Lit ", "; Val detail]))
         ∧ log w' = log w2 ++ [post])
  ∧ (∀ m, liblibai_created (heap w2) (create_reply vendor) = Some (Refused m) →
       run = (w3, Raise (ValueError
                [Lit "LiblibAI API error: "; Lit "LiblibAI API error: "; Val m])))
  ∧ (∀ tr, liblibai_created (heap w2) (create_reply vendor) = Some (Unnamed tr) →
       run = (set_heap (heap w2 ++ [ODict []]) w3,
              Raise (ValueError
                [Lit "LiblibAI API error: ";
                 Lit "Failed to get generateUuid from response: "; Val tr]))).
Proof.
  intros Hval Hep Hkeys Ha Htpl Hgv post w3 run. subst run.
  rewrite (liblibai_call_model_post cfg vendor env base_dir model parameters
             w w1 a w2 endpoint dv tpl gv Hval Hep Hkeys Ha Htpl Hgv).
  cbv zeta. fold post. fold w3. unfold try_except.
  split; [|split; [|split]].
  - intros ->. erewrite bind_raise by reflexivity. reflexivity.
  - intros r -> Hsc. erewrite bind_ok by reflexivity.
    pose proof (liblibai_after_post cfg vendor env base_dir (liblibai_base cfg)
                  (VRef a) r w3) as H.
    cbv zeta in H. unfold liblibai_created in H. rewrite Hsc in H. rewrite H.
    cbn [Liblibai.handle_errors].
    destruct (json_body r) as [v|].
    + erewrite bind_ok by reflexivity. eexists _, _. split; reflexivity.
    + erewrite bind_ok by reflexivity. eexists _, _. split; reflexivity.
  - intros m Hc. destruct (create_reply vendor) as [r|]; [|discriminate].
    erewrite bind_ok by reflexivity.
    pose proof (liblibai_after_post cfg vendor env base_dir (liblibai_base cfg)
                  (VRef a) r w3) as H.
    cbv zeta in H. change (heap w3) with (heap w2) in H. rewrite Hc in H.
    rewrite H. reflexivity.
  - intros tr Hc. destruct (create_reply vendor) as [r|]; [|discriminate].
    erewrite bind_ok by reflexivity.
    pose proof (liblibai_after_post cfg vendor env base_dir (liblibai_base cfg)
                  (VRef a) r w3) as H.
    cbv zeta in H. change (heap w3) with (heap w2) in H. rewrite Hc in H.
    rewrite H. reflexivity.
Qed.

(** X17. a call of provider B, once the task is created.  If all 120
    status replies are non-terminal the caller gets the timeout message
    behind the provider's prefix, after 121 requests, each status query
    freshly signed.  If the first terminal status is read at cycle [k],
    exactly [k + 2] requests are made: on success the formatted result is
    returned as it is, and on failure the caller gets the vendor's
    [generateMsg]. *)
Theorem liblibai_call_model_outcome
    cfg vendor env base_dir model parameters w w1 a w2 endpoint dv tpl gv uuid :
  Liblibai.validate_parameters cfg model parameters w = (w1, Ok (VRef a)) →
  Liblibai.api_endpoint_of model (VRef a) w1 = (w2, Ok endpoint) →
  keys_configured cfg = true →
  heap w2 !! a = Some (ODict dv) →
  dict_get "templateUuid" dv = Some tpl →
  dict_get "generateParams" dv = Some gv →
  liblibai_created (heap w2) (create_reply vendor) = Some (Created uuid) →
  let post := liblibai_post cfg env endpoint (tick w2) tpl gv in
  let h := heap w2 ++ [ODict []] in
  let t := S (S (tick w2)) in
  let cycles := liblibai_cycles cfg env (liblibai_base cfg) uuid t in
  let run := Liblibai.call_model cfg vendor env base_dir model parameters w in
  ((∀ j, (j < 120)%nat →
      ∃ td, liblibai_observed h (status_reply vendor j) = Some (td, Pending)) →
   run = (World (h ++ repeat (ODict []) 120) (log w2 ++ post :: cycles 120%nat)
                (t + 240),
          Raise (ValueError
            [Lit "LiblibAI API error: "; Lit "Task "; Val uuid;
             Lit " did not complete within expected time"]))
   ∧ queries (post :: cycles 120%nat) = 121%nat)
  ∧ (∀ k td vd,
       (k < 120)%nat →
       (∀ j, (j < k)%nat →
          ∃ td', liblibai_observed h (status_reply vendor j) = Some (td', Pending)) →
       liblibai_observed h (status_reply vendor k) = Some (td, vd) →
       let wk := World (h ++ repeat (ODict []) (S k))
                       (log w2 ++ post :: cycles (S k)) (t + 2 * S k) in
       queries (post :: cycles (S k)) = S (S k)
       ∧ (vd = Succeeded →
          ∀ w' fr,
            Liblibai._format_response_and_download_images vendor env base_dir
              td (VRef a) wk = (w', Ok fr) →
            run = (w', Ok fr))
       ∧ (vd = Failed →
          ∀ g dd, td = VRef g → heap wk !! g = Some (ODict dd) →
            run = (wk, Raise (ValueError
                     [Lit "LiblibAI API error: "; Lit "Task failed: ";
                      Val (default (VStr "Task failed or timed out")
                                   (dict_get "generateMsg" dd))])))).
Proof.
  intros Hval Hep Hkeys Ha Htpl Hgv Hc post h t cycles run. subst run.
  rewrite (liblibai_call_model_post cfg vendor env base_dir model parameters
             w w1 a w2 endpoint dv tpl gv Hval Hep Hkeys Ha Htpl Hgv).
  cbv zeta. fold post.
  set (w3 := World (heap w2) (log w2 ++ [post]) (S (S (tick w2)))).
  destruct (create_reply vendor) as [r|] eqn:Hr; [|discriminate].
  pose proof (liblibai_after_post cfg vendor env base_dir (liblibai_base cfg)
                (VRef a) r w3) as Hsteps.
  cbv zeta in Hsteps. change (heap w3) with (heap w2) in Hsteps.
  rewrite Hc in Hsteps.
  assert (Hq : ∀ n, queries (post :: cycles n) = S n).
  { intros n. change (post :: cycles n) with ([post] ++ cycles n).
    subst cycles. rewrite queries_app, queries_liblibai_cycles. reflexivity. }
  set (wp := set_heap (heap w2 ++ [ODict []]) w3) in *.
  unfold try_except. erewrite bind_ok by reflexivity. rewrite Hsteps.
  unfold Liblibai.max_retries.
  split.
  - intros Hall. split; [|apply Hq].
    rewrite (liblibai_poll_timeout cfg vendor env base_dir (liblibai_base cfg)
               uuid (VRef a) 120 Hkeys 0%nat wp Hall).
    cbn [heap log tick wp w3 set_heap]. unfold timeout_error.
    cbn [Liblibai.handle_errors exn_str]. unfold raise.
    f_equal. f_equal; try reflexivity.
    rewrite <- app_assoc. reflexivity.
  - intros k td vd Hk Hpend Hobs. cbv zeta.
    set (wk := World (h ++ repeat (ODict []) (S k))
                     (log w2 ++ post :: cycles (S k)) (t + 2 * S k)).
    split; [apply Hq|].
    assert (Hstop : vd ≠ Pending →
              Liblibai.poll cfg vendor env base_dir (liblibai_base cfg) uuid
                (VRef a) 0 120 wp
              = liblibai_conclude vendor env base_dir td (VRef a) vd wk).
    { intros Hvd.
      rewrite (liblibai_poll_stops cfg vendor env base_dir (liblibai_base cfg)
                 uuid (VRef a) k Hkeys 120 0%nat wp td vd Hk Hpend Hobs Hvd).
      subst wk. cbn [heap log tick wp w3 set_heap].
      f_equal. f_equal; try reflexivity.
      rewrite <- app_assoc. reflexivity. }
    split.
    + intros -> w' fr Hfmt. rewrite Hstop by discriminate.
      cbn [liblibai_conclude]. rewrite Hfmt. reflexivity.
    + intros -> g dd -> Hg. rewrite Hstop by discriminate.
      cbn [liblibai_conclude].
      erewrite bind_ok by (eapply get_dict; exact Hg). reflexivity.
Qed.





Lemma aliyun_poll_query_fails cfg vendor env task_id vp i n w e :
  query_failure (status_reply vendor i) = Some e →
  Aliyun.poll cfg vendor env task_id vp i (S n) w =
  (World (heap w) (log w ++ aliyun_cycle task_id) (tick w), Raise e).
Proof.
  unfold query_failure. intros Hq. cbn [Aliyun.poll].
  unfold bind at 1. unfold emit at 1.
  unfold request, bind, emit, add_event. cbn [heap log tick].
  destruct (status_reply vendor i) as [r|].
  - unfold ret, raise_for_status. fold (success_code r).
    destruct (success_code r); [discriminate|]. injection Hq as <-.
    unfold raise. rewrite <- app_assoc. reflexivity.
  - injection Hq as <-. unfold raise. rewrite <- app_assoc. reflexivity.
Qed.

Lemma aliyun_poll_fails_at cfg vendor env task_id vp e k :
  ∀ n i w,
    (k < n)%nat →
    (∀ j, (j < k)%nat →
       ∃ ts, aliyun_observed (heap w) (status_reply vendor (i + j))
             = Some (ts, Pending)) →
    query_failure (status_reply vendor (i + k)) = Some e →
    Aliyun.poll cfg vendor env task_id vp i n w =
    (World (heap w) (log w ++ aliyun_cycles task_id (S k)) (tick w), Raise e).
Proof.
  induction k as [|k IH]; intros n i w Hk Hpend Hq.
  - destruct n as [|n]; [lia|]. rewrite Nat.add_0_r in Hq.
    rewrite (aliyun_poll_query_fails cfg vendor env task_id vp i n w e Hq).
    cbn [aliyun_cycles]. rewrite app_nil_r. reflexivity.
  - destruct n as [|n]; [lia|].
    destruct (Hpend 0%nat ltac:(lia)) as [ts Hobs]. rewrite Nat.add_0_r in Hobs.
    rewrite (aliyun_poll_step cfg vendor env task_id vp i n w ts Pending Hobs).
    cbv zeta. rewrite (IH n (S i)).
    + cbn [heap log tick]. f_equal. f_equal.
      change (aliyun_cycles task_id (S (S k)))
        with (aliyun_cycle task_id ++ aliyun_cycles task_id (S k)).
      rewrite <- app_assoc. reflexivity.
    + lia.
    + intros j Hj. cbn [heap]. destruct (Hpend (S j) ltac:(lia)) as [ts' H'].
      exists ts'. rewrite <- H'. f_equal. f_equal. lia.
    + rewrite <- Hq. f_equal. f_equal. lia.
Qed.

Lemma liblibai_poll_query_fails cfg vendor env base_dir base task_id vp i n w e :
  keys_configured cfg = true →
  query_failure (status_reply vendor i) = Some e →
  Liblibai.poll cfg vendor env base_dir base task_id vp i (S n) w =
  (World (heap w) (log w ++ liblibai_cycle cfg env base task_id (tick w))
         (S (S (tick w))), Raise e).
Proof.
  unfold query_failure. intros Hkeys Hq. cbn [Liblibai.poll].
  unfold bind at 1. unfold emit at 1.
  erewrite bind_ok by (apply generate_signature_run; exact Hkeys).
  unfold request, bind, emit, add_event. cbn [heap log tick].
  destruct (status_reply vendor i) as [r|].
  - unfold ret, raise_for_status. fold (success_code r).
    destruct (success_code r); [discriminate|]. injection Hq as <-.
    unfold raise. rewrite <- app_assoc. reflexivity.
  - injection Hq as <-. unfold raise. rewrite <- app_assoc. reflexivity.
Qed.

Lemma liblibai_poll_fails_at cfg vendor env base_dir base task_id vp e k :
  keys_configured cfg = true →
  ∀ n i w,
    (k < n)%nat →
    (∀ j, (j < k)%nat →
       ∃ td, liblibai_observed (heap w) (status_reply vendor (i + j))
             = Some (td, Pending)) →
    query_failure (status_reply vendor (i + k)) = Some e →
    Liblibai.poll cfg vendor env base_dir base task_id vp i n w =
    (World (heap w ++ repeat (ODict []) k)
           (log w ++ liblibai_cycles cfg env base task_id (tick w) (S k))
           (tick w + 2 * S k), Raise e).
Proof.
  intros Hkeys. induction k as [|k IH]; intros n i w Hk Hpend Hq.
  - destruct n as [|n]; [lia|]. rewrite Nat.add_0_r in Hq.
    rewrite (liblibai_poll_query_fails cfg vendor env base_dir base task_id vp
               i n w e Hkeys Hq).
    cbn [liblibai_cycles repeat]. rewrite !app_nil_r. f_equal. f_equal. lia.
  - destruct n as [|n]; [lia|].
    destruct (Hpend 0%nat ltac:(lia)) as [td Hobs]. rewrite Nat.add_0_r in Hobs.
    rewrite (liblibai_poll_step cfg vendor env base_dir base task_id vp i n w
               td Pending Hkeys Hobs).
    cbv zeta. rewrite (IH n (S i)).
    + cbn [heap log tick]. f_equal. f_equal.
      * rewrite <- app_assoc. reflexivity.
      * change (liblibai_cycles cfg env base task_id (tick w) (S (S k)))
          with (liblibai_cycle cfg env base task_id (tick w) ++
                liblibai_cycles cfg env base task_id (S (S (tick w))) (S k)).
        rewrite <- app_assoc. reflexivity.
      * lia.
    + lia.
    + intros j Hj. cbn [heap]. destruct (Hpend (S j) ltac:(lia)) as [td' H'].
      exists td'. apply liblibai_observed_stable.
      rewrite <- H'. f_equal. f_equal. lia.
    + rewrite <- Hq. f_equal. f_equal. lia.
Qed.

(** X19. a status query that fails is not retried.  When the queries
    before cycle [k] were answered with a non-terminal status and the one of
    cycle [k] fails in transit or comes back with an error status, the loop
    of either provider stops there, after [k + 1] queries, with the
    exception of that request: the cycles that remain are not used. *)
Theorem polling_does_not_retry
    cfg vendor env base_dir base task_id vp w k e :
  (k < 120)%nat →
  query_failure (status_reply vendor k) = Some e →
  ((∀ j, (j < k)%nat →
      ∃ ts, aliyun_observed (heap w) (status_reply vendor j) = Some (ts, Pending)) →
   Aliyun.poll cfg vendor env task_id vp 0 Aliyun.max_retries w =
   (World (heap w) (log w ++ aliyun_cycles task_id (S k)) (tick w), Raise e)
   ∧ queries (aliyun_cycles task_id (S k)) = S k)
  ∧ (keys_configured cfg = true →
     (∀ j, (j < k)%nat →
        ∃ td, liblibai_observed (heap w) (status_reply vendor j)
              = Some (td, Pending)) →
     Liblibai.poll cfg vendor env base_dir base task_id vp 0
       Liblibai.max_retries w =
     (World (heap w ++ repeat (ODict []) k)
            (log w ++ liblibai_cycles cfg env base task_id (tick w) (S k))
            (tick w + 2 * S k), Raise e)
     ∧ queries (liblibai_cycles cfg env base task_id (tick w) (S k)) = S k).
Proof.
  intros Hk Hq. split.
  - intros Hpend. split; [|apply queries_aliyun_cycles].
    apply aliyun_poll_fails_at; assumption.
  - intros Hkeys Hpend. split; [|apply queries_liblibai_cycles].
    apply liblibai_poll_fails_at; assumption.
Qed.



















(** X21. the size provider B reports is the one it sends.  For the
    image-to-image and custom models validation makes sure [generateParams]
    holds [width] and [height], and the response is built from those two
    entries: the caller's where given, 768 and 1024 otherwise, whatever
    [imageSize] says. *)
Theorem liblibai_reported_size cfg model p w d dg0 base :
  heap w !! p = Some (ODict d) →
  existsb (String.eqb model) (Liblibai.supported_models cfg) = true →
  model = "star-3-alpha-i2i" ∨ model = "liblib-custom" →
  first_missing (required_keys ProviderB model) d = None →
  gp_input w d dg0 →
  (model = "liblib-custom" → dict_has "templateUuid" d = false →
   base_input d base) →
  ∃ w' a dv g,
    Liblibai.validate_parameters cfg model (VRef p) w = (w', Ok (VRef a))
    ∧ heap w' !! a = Some (ODict dv)
    ∧ dict_get "generateParams" dv = Some (VRef g)
    ∧ Liblibai.size_fields (VRef g) w'
      = (w', Ok (default (VInt 768) (dict_get "width" dg0),
                 default (VInt 1024) (dict_get "height" dg0))).
Proof.
  intros Hp Hm Hmodel Hreq Hin Hbase.
  assert (Hknown : liblibai_known model = true)
    by (destruct Hmodel as [-> | ->]; reflexivity).
  destruct (liblibai_validate_run cfg model p w d dg0 base Hp Hm Hknown Hreq Hin Hbase)
    as (w' & g & dv & Hrun & Hst & _).
  apply gp_state_lookups in Hst as (Ha & Hg & Hgp).
  exists w', (length (heap w)), dv, g.
  split; [exact Hrun|]. split; [exact Ha|]. split; [exact Hgp|].
  set (dg := liblibai_params model d dg0) in *.
  assert (Hw : dict_get "width" dg = Some (default (VInt 768) (dict_get "width" dg0))
             ∧ dict_get "height" dg = Some (default (VInt 1024) (dict_get "height" dg0))).
  { subst dg. unfold liblibai_params.
    destruct Hmodel as [-> | ->]; cbn [String.eqb Ascii.eqb Bool.eqb andb];
      split; dict_simpl; reflexivity. }
  destruct Hw as [Hw Hh].
  unfold Liblibai.size_fields.
  erewrite bind_ok by (eapply contains_dict; exact Hg).
  unfold dict_has at 1. rewrite Hw.
  erewrite bind_ok by (eapply contains_dict; exact Hg).
  unfold dict_has. rewrite Hh.
  erewrite bind_ok by (eapply getitem_dict; eassumption).
  erewrite bind_ok by (eapply getitem_dict; eassumption).
  reflexivity.
Qed.

Lemma aliyun_request_body_shape_witness :
  let dv := [("prompt", VStr "x"); ("watermark", VBool false); ("n", VInt 2);
             ("model", VStr "wanx2.1-t2i-plus"); ("size", VStr "1024*1024");
             ("negative_prompt", VStr ""); ("style", VStr "<auto>")] in
  let w := World [ODict dv] [] 0 in
  heap w !! 0%nat = Some (ODict dv)
  ∧ NoDup (map fst dv)
  ∧ dict_has "model" dv = true
  ∧ dict_has "prompt" dv = true
  ∧ ∃ rd,
      Aliyun.build_request_data (VRef 0%nat) w = (w, Ok rd)
      ∧ Aliyun.rq_input rd = [("prompt", VStr "x")]
      ∧ dict_get "prompt" (Aliyun.rq_parameters rd) = None
      ∧ dict_get "watermark" (Aliyun.rq_parameters rd) = Some (VBool false).
Proof.
  intros dv w.
  assert (Hnd : NoDup (map fst dv)) by (apply (bool_decide_unpack _); reflexivity).
  split; [reflexivity|]. split; [exact Hnd|]. split; [reflexivity|].
  split; [reflexivity|].
  destruct (aliyun_request_body_shape w 0%nat dv eq_refl Hnd eq_refl eq_refl)
    as (rd & Hrun & _ & Hpar & _).
  exists rd. split; [exact Hrun|].
  split; [injection Hrun as <-; reflexivity|].
  split; [rewrite Hpar; reflexivity|rewrite Hpar; reflexivity].
Defined.

Lemma aliyun_creation_failure_witness :
  let d := [("prompt", VStr "a cat")] in
  let w := World [ODict d] [] 0 in
  let model := "wanx2.1-t2i-turbo" in
  heap w !! 0%nat = Some (ODict d)
  ∧ aliyun_accepts example_settings model d = true
  ∧ Config.ALIYUN_API_KEY example_settings ≠ ""
  ∧ aliyun_created (aliyun_store model (heap w) d)
      (create_reply example_refusing_vendor) = None
  ∧ ∃ w' msg,
      Aliyun.call_model example_settings example_refusing_vendor example_env
        model (VRef 0%nat) w = (w', Raise (ValueError msg))
      ∧ log w' = log w ++ [aliyun_post example_settings model (heap w) d]
      ∧ ∃ detail, msg = [Lit "Aliyun API HTTP error: "; Val (VInt 401);
                         Lit ", "; Val detail].
Proof.
  intros d w model.
  assert (Hkey : Config.ALIYUN_API_KEY example_settings ≠ "") by discriminate.
  split; [reflexivity|]. split; [reflexivity|]. split; [exact Hkey|].
  split; [reflexivity|].
  destruct (aliyun_creation_failure example_settings example_refusing_vendor
              example_env model 0%nat w d eq_refl eq_refl Hkey eq_refl)
    as (w' & msg & Hrun & Hlog & _ & Hbad & _).
  exists w', msg. split; [exact Hrun|]. split; [exact Hlog|].
  exact (Hbad _ eq_refl eq_refl).
Defined.

Lemma aliyun_call_model_outcome_witness :
  let d := [("prompt", VStr "a cat")] in
  let model := "wanx2.1-t2i-turbo" in
  (let w := example_job in
   let h := aliyun_store model (heap w) d in
   let post := aliyun_post example_settings model (heap w) d in
   heap w !! 0%nat = Some (ODict d)
   ∧ aliyun_accepts example_settings model d = true
   ∧ Config.ALIYUN_API_KEY example_settings ≠ ""
   ∧ aliyun_created h (create_reply example_slow_vendor) = Some (VStr "t-1")
   ∧ (∀ j, (j < 120)%nat →
        ∃ ts, aliyun_observed h (status_reply example_slow_vendor j)
              = Some (ts, Pending))
   ∧ Aliyun.call_model example_settings example_slow_vendor example_env model
       (VRef 0%nat) w
     = (World h (log w ++ post :: aliyun_cycles (VStr "t-1") 120) (tick w),
        Raise (ValueError
          [Lit "Aliyun API error: "; Lit "Task "; Val (VStr "t-1");
           Lit " did not complete within expected time"])))
  ∧ (let w := example_failing_job in
     let h := aliyun_store model (heap w) d in
     let post := aliyun_post example_settings model (heap w) d in
     heap w !! 0%nat = Some (ODict d)
     ∧ aliyun_created h (create_reply example_failing_vendor) = Some (VStr "t-1")
     ∧ (∀ j, (j < 2)%nat →
          ∃ ts, aliyun_observed h (status_reply example_failing_vendor j)
                = Some (ts, Pending))
     ∧ aliyun_observed h (status_reply example_failing_vendor 2)
       = Some (VRef 3%nat, Failed)
     ∧ aliyun_failure_message h (VRef 3%nat) = Some (VStr "quota exceeded")
     ∧ Aliyun.call_model example_settings example_failing_vendor example_env
         model (VRef 0%nat) w
       = (World h (log w ++ post :: aliyun_cycles (VStr "t-1") 3) (tick w),
          Raise (ValueError
            [Lit "Aliyun API error: "; Lit "Task failed: ";
             Val (VStr "quota exceeded")]))
     ∧ queries (post :: aliyun_cycles (VStr "t-1") 3) = 4%nat).
Proof.
  intros d model.
  assert (Hkey : Config.ALIYUN_API_KEY example_settings ≠ "") by discriminate.
  split.
  - intros w h post.
    assert (Hall : ∀ j, (j < 120)%nat →
              ∃ ts, aliyun_observed h (status_reply example_slow_vendor j)
                    = Some (ts, Pending)).
    { intros j _. exists (VRef 1%nat). reflexivity. }
    split; [reflexivity|]. split; [reflexivity|]. split; [exact Hkey|].
    split; [reflexivity|]. split; [exact Hall|].
    exact (proj1 (proj1 (aliyun_call_model_outcome example_settings
             example_slow_vendor example_env model 0%nat w d (VStr "t-1")
             eq_refl eq_refl Hkey eq_refl) Hall)).
  - intros w h post.
    assert (Hk : (2 < 120)%nat) by lia.
    assert (Hpend : ∀ j, (j < 2)%nat →
              ∃ ts, aliyun_observed h (status_reply example_failing_vendor j)
                    = Some (ts, Pending)).
    { intros [|[|j]] Hj; [exists (VRef 1%nat); reflexivity ..|lia]. }
    split; [reflexivity|]. split; [reflexivity|]. split; [exact Hpend|].
    split; [reflexivity|]. split; [reflexivity|].
    destruct (proj2 (aliyun_call_model_outcome example_settings
                example_failing_vendor example_env model 0%nat w d (VStr "t-1")
                eq_refl eq_refl Hkey eq_refl)
                2%nat (VRef 3%nat) Failed Hk Hpend eq_refl)
      as (Hq & _ & Hfail).
    split; [|exact Hq].
    exact (proj2 (Hfail eq_refl) (VStr "quota exceeded") eq_refl).
Defined.

Lemma liblibai_validation_writes_callers_generateParams_witness :
  let d := [("prompt", VStr "a cat"); ("generateParams", VRef 0%nat)] in
  let dg0 := [("imageSize", VStr "big")] in
  let w := World [ODict dg0; ODict d] [] 0 in
  let cfg := Config.defaults "/srv/data" in
  let model := "star-3-alpha-t2i" in
  heap w !! 1%nat = Some (ODict d)
  ∧ existsb (String.eqb model) (Liblibai.supported_models cfg) = true
  ∧ liblibai_known model = true
  ∧ first_missing (required_keys ProviderB model) d = None
  ∧ dict_get "generateParams" d = Some (VRef 0%nat)
  ∧ heap w !! 0%nat = Some (ODict dg0)
  ∧ ∃ w',
      (Liblibai.validate_parameters cfg model (VRef 1%nat) w).1 = w'
      ∧ heap w' !! 0%nat
        = Some (ODict [("imageSize", VStr "big"); ("prompt", VStr "a cat");
                       ("imgCount", VInt 1)])
      ∧ heap w' !! 1%nat = Some (ODict d).
Proof.
  intros d dg0 w cfg model.
  repeat (split; [reflexivity|]).
  destruct (liblibai_validation_writes_callers_generateParams cfg model 1%nat w d
              0%nat dg0 "" eq_refl eq_refl eq_refl eq_refl eq_refl eq_refl)
    as (w' & dv & Hrun & _ & _ & Hg & _ & _ & _ & Hp & _);
    [discriminate|discriminate|].
  exists w'. split; [rewrite Hrun; reflexivity|]. split; [exact Hg|exact Hp].
Defined.

Lemma liblibai_custom_endpoint_matches_template_witness :
  let d := [("checkPointId", VStr "ckpt-1"); ("prompt", VStr "a dog");
            ("sourceImage", VStr "http://img/top.png");
            ("generateParams", VRef 0%nat)] in
  let dg0 := [("steps", VInt 30)] in
  let w := World [ODict dg0; ODict d] [] 0 in
  let cfg := Config.defaults "/srv/data" in
  heap w !! 1%nat = Some (ODict d)
  ∧ existsb (String.eqb "liblib-custom") (Liblibai.supported_models cfg) = true
  ∧ dict_has "checkPointId" d = true
  ∧ dict_has "prompt" d = true
  ∧ dict_has "templateUuid" d = false
  ∧ gp_input w d dg0
  ∧ base_input d ""
  ∧ ∃ w' vp dv w'',
      Liblibai.validate_parameters cfg "liblib-custom" (VRef 1%nat) w = (w', Ok vp)
      ∧ heap w' !! 2%nat = Some (ODict dv)
      ∧ dict_get "templateUuid" dv = Some (VStr "e10adc3949ba59abbe56e057f20f883e")
      ∧ Liblibai.api_endpoint_of "liblib-custom" vp w'
        = (w'', Ok "/api/generate/webui/text2img").
Proof.
  intros d dg0 w cfg.
  assert (Hin : gp_input w d dg0) by (exists 0%nat; split; reflexivity).
  split; [reflexivity|]. split; [reflexivity|]. split; [reflexivity|].
  split; [reflexivity|]. split; [reflexivity|]. split; [exact Hin|].
  split; [reflexivity|].
  destruct (liblibai_custom_endpoint_matches_template cfg 1%nat w d dg0 ""
              eq_refl eq_refl eq_refl eq_refl eq_refl Hin eq_refl)
    as (w' & vp & dv & w'' & H1 & H2 & H3 & H4 & H5).
  exists w', vp, dv, w''. split; [exact H1|]. split; [exact H3|].
  split; [exact H4|exact H5].
Defined.

Lemma liblibai_signature_is_url_safe_witness :
  keys_configured example_settings = true
  ∧ ∃ sp,
      Liblibai.generate_signature example_settings example_env
        "/api/generate/webui/status" (World [] [] 0)
        = (World [] [] 2, Ok sp)
      ∧ String.length (Liblibai.Signature sp) = 27%nat
      ∧ Forall (λ c, c ∈ Base64.alphabet)
               (String.list_ascii_of_string (Liblibai.Signature sp)).
Proof.
  split; [reflexivity|].
  destruct (liblibai_signature_is_url_safe example_settings example_env
              "/api/generate/webui/status" (World [] [] 0) eq_refl)
    as (sp & H1 & H2 & H3 & _).
  exists sp. split; [exact H1|]. split; [exact H2|exact H3].
Defined.

Lemma polling_does_not_retry_witness :
  (0 < 120)%nat
  ∧ query_failure (status_reply example_refusing_vendor 0) = Some (Builtin RequestError)
  ∧ Aliyun.poll example_settings example_refusing_vendor example_env
      (VStr "t-1") (VRef 0%nat) 0 Aliyun.max_retries example_job
    = (World (heap example_job) (aliyun_cycles (VStr "t-1") 1) 0,
       Raise (Builtin RequestError)).
Proof.
  assert (H0 : (0 < 120)%nat) by lia.
  split; [exact H0|]. split; [reflexivity|].
  refine (proj1 (proj1 (polling_does_not_retry example_settings
            example_refusing_vendor example_env "" "" (VStr "t-1") (VRef 0%nat)
            example_job 0 (Builtin RequestError) H0 eq_refl) _)).
  intros j Hj. lia.
Defined.

Lemma liblibai_reported_size_witness :
  let d := [("prompt", VStr "a cat"); ("sourceImage", VStr "http://img/in.png");
            ("generateParams", VRef 0%nat)] in
  let dg0 := [("width", VInt 512); ("imageSize", VStr "big")] in
  let w := World [ODict dg0; ODict d] [] 0 in
  let cfg := Config.defaults "/srv/data" in
  let model := "star-3-alpha-i2i" in
  heap w !! 1%nat = Some (ODict d)
  ∧ existsb (String.eqb model) (Liblibai.supported_models cfg) = true
  ∧ (model = "star-3-alpha-i2i" ∨ model = "liblib-custom")
  ∧ first_missing (required_keys ProviderB model) d = None
  ∧ gp_input w d dg0
  ∧ ∃ w' a dv g,
      Liblibai.validate_parameters cfg model (VRef 1%nat) w = (w', Ok (VRef a))
      ∧ heap w' !! a = Some (ODict dv)
      ∧ dict_get "generateParams" dv = Some (VRef g)
      ∧ Liblibai.size_fields (VRef g) w' = (w', Ok (VInt 512, VInt 1024)).
Proof.
  intros d dg0 w cfg model.
  assert (Hin : gp_input w d dg0) by (exists 0%nat; split; reflexivity).
  assert (Hm : model = "star-3-alpha-i2i" ∨ model = "liblib-custom") by (left; reflexivity).
  split; [reflexivity|]. split; [reflexivity|]. split; [exact Hm|].
  split; [reflexivity|]. split; [exact Hin|].
  apply (liblibai_reported_size cfg model 1%nat w d dg0 "" eq_refl eq_refl Hm
           eq_refl Hin).
  discriminate.
Defined.

Lemma liblibai_creation_failure_witness :
  ∃ w',
    Liblibai.call_model example_settings example_slow_vendor example_env
      "/srv/data" "star-3-alpha-t2i" (VRef 0%nat) example_liblibai_refusal
    = (w', Raise (ValueError
             [Lit "LiblibAI API error: "; Lit "LiblibAI API error: ";
              Val (VStr "no points left")])).
Proof.
  eexists.
  edestruct (liblibai_creation_failure example_settings example_slow_vendor
               example_env "/srv/data" "star-3-alpha-t2i" (VRef 0%nat)
               example_liblibai_refusal) as (_ & _ & H & _).
  - lazy. reflexivity.
  - lazy. reflexivity.
  - reflexivity.
  - reflexivity.
  - reflexivity.
  - reflexivity.
  - exact (H _ eq_refl).
Defined.

Lemma liblibai_call_model_outcome_witness :
  ∃ w',
    Liblibai.call_model example_settings example_slow_vendor example_env
      "/srv/data" "star-3-alpha-t2i" (VRef 0%nat) example_liblibai_job
    = (w', Raise (ValueError
             [Lit "LiblibAI API error: "; Lit "Task "; Val (VStr "u-1");
              Lit " did not complete within expected time"])).
Proof.
  eexists.
  edestruct (liblibai_call_model_outcome example_settings example_slow_vendor
               example_env "/srv/data" "star-3-alpha-t2i" (VRef 0%nat)
               example_liblibai_job) as (H & _).
  - lazy. reflexivity.
  - lazy. reflexivity.
  - reflexivity.
  - reflexivity.
  - reflexivity.
  - reflexivity.
  - reflexivity.
  - refine (proj1 (H _)). intros j _. exists (VRef 2%nat). reflexivity.
Defined.
